(** * Solidity Copilot: the three-call sequence, its transport client and
      the assumptions parser

    A shallow embedding of [src/prompts.py] and of the class
    [SolidityCopilot] of [src/app.py], with the properties the specification
    states about them.

    Conventions.
    - A Python [str] is a Rocq [string] holding its UTF-8 bytes.  Every
      character the code inspects is ASCII, so byte-wise and
      character-wise processing agree; where Python iterates a [str] by
      character, [utf8_chars] groups the bytes of a character.
    - A Python value that comes out of [json.loads] is a [json] term.
    - Code that may raise returns an [Outcome]; code that talks to the
      endpoint runs in the monad [M], which threads the log of the
      requests sent so far.
    - The Streamlit calls that draw the results of a three-call run, and
      the read of the session flag [show_flow_visualization], can raise
      and are modelled ([show_results]).  Logging, the two [st.spinner]
      blocks around the first two calls and the [st.error] of the outer
      handler are taken to return normally. *)

From Stdlib Require Import String Ascii List Bool Arith NArith ZArith QArith Lia.
From Stdlib Require Import Numbers.DecimalString.
From Stdlib Require Import Sorting.Sorted.
Import ListNotations.

#[local] Set Warnings "-register-all".

Local Open Scope list_scope.
Local Open Scope string_scope.

(** ** Characters and strings *)

Module Text.

(** The double quote character and the line feed. *)
Definition dq_char : ascii := "034"%char.
Definition dq : string := String dq_char EmptyString.
Definition nl_char : ascii := "010"%char.
Definition nl : string := String nl_char EmptyString.

(** [q s] is [s] between double quotes. *)
Definition q (s : string) : string := dq ++ s ++ dq.

Definition code (c : ascii) : N := N_of_ascii c.

Definition is_char (c d : ascii) : bool := Ascii.eqb c d.

(** Python's [sep.join(parts)]. *)
Definition join (sep : string) (parts : list string) : string :=
  String.concat sep parts.

(** Python's truth value of a [str]. *)
Definition truthy (s : string) : bool :=
  match s with EmptyString => false | String _ _ => true end.

(** [str(n)] for a Python [int]. *)
Definition str_of_int (n : Z) : string :=
  NilEmpty.string_of_int (Z.to_int n).

(** A UTF-8 continuation byte is [10xxxxxx]. *)
Definition is_continuation (c : ascii) : bool :=
  ((128 <=? code c) && (code c <? 192))%N.

(** [take_continuation s] splits the leading continuation bytes off [s]. *)
Fixpoint take_continuation (s : string) : string * string :=
  match s with
  | EmptyString => (EmptyString, EmptyString)
  | String c r =>
      if is_continuation c
      then let '(t, rest) := take_continuation r in (String c t, rest)
      else (EmptyString, s)
  end.

(** The characters of a [str], each one as the string of its bytes. *)
Fixpoint utf8_chars_fuel (fuel : nat) (s : string) : list string :=
  match fuel with
  | O => []
  | S f =>
      match s with
      | EmptyString => []
      | String c r =>
          let '(t, rest) := take_continuation r in
          String c t :: utf8_chars_fuel f rest
      end
  end.

Definition utf8_chars (s : string) : list string :=
  utf8_chars_fuel (String.length s) s.

(** [prefix p s] and [contains p s]: [p] starts [s], [p] occurs in [s]. *)
Fixpoint contains (p s : string) : bool :=
  String.prefix p s ||
  match s with
  | EmptyString => false
  | String _ r => contains p r
  end.

Definition Substring (p s : string) : Prop :=
  exists pre post, s = pre ++ p ++ post.

(** UTF-8 bytes of a code point (surrogates included, three bytes each). *)
Definition byte (n : N) : string := String (ascii_of_N n) EmptyString.

Definition utf8_encode (cp : N) : string :=
  (if cp <? 128 then byte cp
   else if cp <? 2048 then
     byte (192 + cp / 64) ++ byte (128 + cp mod 64)
   else if cp <? 65536 then
     byte (224 + cp / 4096) ++ byte (128 + (cp / 64) mod 64)
       ++ byte (128 + cp mod 64)
   else
     byte (240 + cp / 262144) ++ byte (128 + (cp / 4096) mod 64)
       ++ byte (128 + (cp / 64) mod 64) ++ byte (128 + cp mod 64))%N.

End Text.
Import Text.

(** ** Python values decoded from JSON *)

(** A number keeps its lexeme: no claim depends on its numeric value. *)
Inductive json : Type :=
| JNull
| JBool (b : bool)
| JNumber (lexeme : string)
| JString (s : string)
| JArray (items : list json)
| JObject (fields : list (string * json)).

(** A Python [dict] with [str] keys: an association list without
    duplicate keys, in insertion order. *)
Definition dict := list (string * json).

Fixpoint dict_get (k : string) (d : dict) : option json :=
  match d with
  | [] => None
  | (k', v) :: r => if String.eqb k k' then Some v else dict_get k r
  end.

(** [d[k] = v]: overwrite in place, or append. *)
Fixpoint dict_set (k : string) (v : json) (d : dict) : dict :=
  match d with
  | [] => [(k, v)]
  | (k', v') :: r =>
      if String.eqb k k' then (k', v) :: r else (k', v') :: dict_set k v r
  end.

(** [dict(pairs)]. *)
Definition dict_of_pairs (pairs : list (string * json)) : dict :=
  fold_left (fun d kv => dict_set (fst kv) (snd kv) d) pairs [].

Definition dict_keys (d : dict) : list string := map fst d.

(** ** Exceptions and outcomes *)

(** The exceptions the code can meet.  All of them derive from Python's
    [Exception]; [Exception msg] is an instance of the base class itself,
    as built by [raise Exception(msg)]. *)
Inductive exn : Type :=
| Exception (msg : string)
| JSONDecodeError
| KeyError
| IndexError
| TypeError
| AttributeError
| ValueError
| RecursionError
| UnicodeEncodeError.

Inductive Outcome (A : Type) : Type :=
| Returns (a : A)
| Raises (e : exn).
Arguments Returns {A} a.
Arguments Raises {A} e.

Definition obind {A B} (o : Outcome A) (k : A -> Outcome B) : Outcome B :=
  match o with
  | Returns a => k a
  | Raises e => Raises e
  end.

(** [try: body  except ...: handler]; the handler re-raises what its
    [except] clause does not name. *)
Definition otry {A} (body : Outcome A) (handler : exn -> Outcome A)
  : Outcome A :=
  match body with
  | Returns a => Returns a
  | Raises e => handler e
  end.

Notation "x <~ o ;; k" := (obind o (fun x => k))
  (at level 61, o at next level, right associativity).

(** [isinstance(e, json.JSONDecodeError)]. *)
Definition is_JSONDecodeError (e : exn) : bool :=
  match e with JSONDecodeError => true | _ => false end.

(** The exceptions a failed subscript raises. *)
Definition is_subscript_error (e : exn) : bool :=
  match e with KeyError | IndexError | TypeError => true | _ => false end.

(** ** [json.loads]

    The decoder of Python's standard library, for a [str] argument with
    the default options: the RFC 8259 grammar, the literals [NaN],
    [Infinity] and [-Infinity], control characters refused inside
    strings, a later duplicate key overriding an earlier one, and nothing
    but white space allowed around the value.  Two limits of the
    interpreter cut a decoding short, at the point where the scanner
    meets them: opening an array or an object when no nesting is left
    raises [RecursionError], and converting an integer literal of more
    digits than [sys.get_int_max_str_digits()] (4300 unless changed, 0
    for no limit) raises [ValueError].  Neither is a
    [json.JSONDecodeError]. *)

(** The limits the decoder runs under: how many arrays and objects may
    be open at once, and how many digits an integer may have.  A process
    that runs the script at all has some stack left: room for four
    containers is taken for granted.  The interpreter accepts no digit
    limit below 640, other than 0. *)
Record Limits : Type := {
  max_nesting : nat;
  int_max_str_digits : nat;
  nesting_ok : (4 <= max_nesting)%nat;
  digits_ok : int_max_str_digits = O \/ (640 <= int_max_str_digits)%nat
}.

Module Decoder.

Definition is_ws (c : ascii) : bool :=
  is_char c " " || is_char c "009" || is_char c "010" || is_char c "013".

Fixpoint skip_ws (s : string) : string :=
  match s with
  | String c r => if is_ws c then skip_ws r else s
  | EmptyString => s
  end.

Definition is_digit (c : ascii) : bool :=
  ((48 <=? code c) && (code c <=? 57))%N.

Definition hex_value (c : ascii) : option N :=
  let n := code c in
  (if (48 <=? n) && (n <=? 57) then Some (n - 48)
   else if (65 <=? n) && (n <=? 70) then Some (n - 55)
   else if (97 <=? n) && (n <=? 102) then Some (n - 87)
   else None)%N.

(** Four hexadecimal digits, as after a backslash and [u]. *)
Definition hex4 (s : string) : option (N * string) :=
  match s with
  | String a (String b (String c (String d r))) =>
      match hex_value a, hex_value b, hex_value c, hex_value d with
      | Some x, Some y, Some z, Some w =>
          Some (((x * 16 + y) * 16 + z) * 16 + w, r)%N
      | _, _, _, _ => None
      end
  | _ => None
  end.

Definition is_high_surrogate (n : N) : bool := ((55296 <=? n) && (n <=? 56319))%N.
Definition is_low_surrogate (n : N) : bool := ((56320 <=? n) && (n <=? 57343))%N.

(** The code point an escape [\uXXXX] denotes, a following low surrogate
    joined to a high one. *)
Definition unicode_escape (s : string) : option (N * string) :=
  match hex4 s with
  | None => None
  | Some (hi, r) =>
      if is_high_surrogate hi then
        match r with
        | String b (String u r2) =>
            if is_char b "\" && is_char u "u" then
              match hex4 r2 with
              | Some (lo, r3) =>
                  if is_low_surrogate lo
                  then Some (65536 + (hi - 55296) * 1024 + (lo - 56320), r3)%N
                  else Some (hi, r)
              | None => Some (hi, r)
              end
            else Some (hi, r)
        | _ => Some (hi, r)
        end
      else Some (hi, r)
  end.

Definition simple_escape (c : ascii) : option string :=
  if is_char c dq_char then Some dq
  else if is_char c "\" then Some "\"
  else if is_char c "/" then Some "/"
  else if is_char c "b" then Some (byte 8)
  else if is_char c "f" then Some (byte 12)
  else if is_char c "n" then Some (byte 10)
  else if is_char c "r" then Some (byte 13)
  else if is_char c "t" then Some (byte 9)
  else None.

(** The body of a string, after its opening quote: the decoded text and
    what follows the closing quote. *)
Fixpoint scanstring (fuel : nat) (s : string) : option (string * string) :=
  match fuel with
  | O => None
  | S f =>
      match s with
      | EmptyString => None
      | String c r =>
          if is_char c dq_char then Some (EmptyString, r)
          else if is_char c "\" then
            match r with
            | EmptyString => None
            | String e r' =>
                if is_char e "u" then
                  match unicode_escape r' with
                  | None => None
                  | Some (cp, r'') =>
                      match scanstring f r'' with
                      | None => None
                      | Some (t, rest) => Some (utf8_encode cp ++ t, rest)
                      end
                  end
                else
                  match simple_escape e with
                  | None => None
                  | Some x =>
                      match scanstring f r' with
                      | None => None
                      | Some (t, rest) => Some (x ++ t, rest)
                      end
                  end
            end
          else if (code c <? 32)%N then None
          else
            match scanstring f r with
            | None => None
            | Some (t, rest) => Some (String c t, rest)
            end
      end
  end.

Fixpoint take_digits (s : string) : string * string :=
  match s with
  | String c r =>
      if is_digit c
      then let '(d, rest) := take_digits r in (String c d, rest)
      else (EmptyString, s)
  | EmptyString => (EmptyString, EmptyString)
  end.

(** The integer part [0|[1-9][0-9]*]. *)
Definition scan_int (s : string) : option (string * string) :=
  match s with
  | String c r =>
      if is_char c "0" then Some ("0", r)
      else if is_digit c then Some (take_digits s)
      else None
  | EmptyString => None
  end.

(** The optional fraction [\.[0-9]+]. *)
Definition scan_frac (s : string) : string * string :=
  match s with
  | String c r =>
      if is_char c "." then
        match take_digits r with
        | (EmptyString, _) => (EmptyString, s)
        | (d, rest) => (String c d, rest)
        end
      else (EmptyString, s)
  | EmptyString => (EmptyString, s)
  end.

(** The optional exponent [[eE][-+]?[0-9]+]. *)
Definition scan_exp (s : string) : string * string :=
  match s with
  | String c r =>
      if is_char c "e" || is_char c "E" then
        let '(sign, r1) :=
          match r with
          | String g r' =>
              if is_char g "-" || is_char g "+"
              then (String g EmptyString, r')
              else (EmptyString, r)
          | EmptyString => (EmptyString, r)
          end in
        match take_digits r1 with
        | (EmptyString, _) => (EmptyString, s)
        | (d, rest) => (String c (sign ++ d), rest)
        end
      else (EmptyString, s)
  | EmptyString => (EmptyString, s)
  end.

Definition scan_number (s : string) : option (string * string) :=
  let '(sign, r0) :=
    match s with
    | String c r => if is_char c "-" then ("-", r) else (EmptyString, s)
    | EmptyString => (EmptyString, s)
    end in
  match scan_int r0 with
  | None => None
  | Some (i, r1) =>
      let '(fr, r2) := scan_frac r1 in
      let '(ex, r3) := scan_exp r2 in
      Some (sign ++ i ++ fr ++ ex, r3)
  end.

(** [strip_prefix p s] is what follows [p] in [s]. *)
Fixpoint strip_prefix (p s : string) : option string :=
  match p with
  | EmptyString => Some s
  | String c p' =>
      match s with
      | String d s' => if is_char c d then strip_prefix p' s' else None
      | EmptyString => None
      end
  end.

(** What a scan comes to: a value and the text after it, a text that is
    not JSON, or an exception that is not a decode error. *)
Inductive Scan (A : Type) : Type :=
| Scanned (a : A) (rest : string)
| Malformed
| Aborted (e : exn).
Arguments Scanned {A} a rest.
Arguments Malformed {A}.
Arguments Aborted {A} e.

(** The digits of the integer part of a number literal. *)
Definition int_digits (lexeme : string) : nat :=
  match lexeme with
  | String c r => if is_char c "-" then String.length r else String.length lexeme
  | EmptyString => O
  end.

(** A number literal without fraction and exponent becomes an [int],
    within the digit limit; any other becomes a [float]. *)
Fixpoint is_int_lexeme (lexeme : string) : bool :=
  match lexeme with
  | EmptyString => true
  | String c r =>
      negb (is_char c "." || is_char c "e" || is_char c "E")
      && is_int_lexeme r
  end.

Definition scan_literal (max_digits : nat) (s : string) : Scan json :=
  match strip_prefix "null" s with
  | Some r => Scanned JNull r
  | None =>
  match strip_prefix "true" s with
  | Some r => Scanned (JBool true) r
  | None =>
  match strip_prefix "false" s with
  | Some r => Scanned (JBool false) r
  | None =>
  match scan_number s with
  | Some (n, r) =>
      if is_int_lexeme n && negb (max_digits =? 0)%nat
         && (max_digits <? int_digits n)%nat
      then Aborted ValueError
      else Scanned (JNumber n) r
  | None =>
  match strip_prefix "NaN" s with
  | Some r => Scanned (JNumber "NaN") r
  | None =>
  match strip_prefix "Infinity" s with
  | Some r => Scanned (JNumber "Infinity") r
  | None =>
  match strip_prefix "-Infinity" s with
  | Some r => Scanned (JNumber "-Infinity") r
  | None => Malformed
  end end end end end end end.

(** [scan_once]: one value at the head of [s], no white space skipped
    before it, with [depth] containers still allowed to open.
    [scan_items] reads the rest of an array after its bracket,
    [scan_members] the rest of an object after its brace. *)
Fixpoint scan_once (max_digits fuel depth : nat) (s : string) : Scan json :=
  match fuel with
  | O => Malformed
  | S f =>
      match s with
      | EmptyString => Malformed
      | String c r =>
          if is_char c dq_char then
            match scanstring (String.length r) r with
            | Some (t, rest) => Scanned (JString t) rest
            | None => Malformed
            end
          else if is_char c "{" then
            match depth with
            | O => Aborted RecursionError
            | S d =>
                match skip_ws r with
                | String c1 r1 =>
                    if is_char c1 "}" then Scanned (JObject []) r1
                    else
                      match scan_members max_digits f d (skip_ws r) with
                      | Scanned pairs rest =>
                          Scanned (JObject (dict_of_pairs pairs)) rest
                      | Malformed => Malformed
                      | Aborted e => Aborted e
                      end
                | EmptyString => Malformed
                end
            end
          else if is_char c "[" then
            match depth with
            | O => Aborted RecursionError
            | S d =>
                match skip_ws r with
                | String c1 r1 =>
                    if is_char c1 "]" then Scanned (JArray []) r1
                    else
                      match scan_items max_digits f d (skip_ws r) with
                      | Scanned items rest => Scanned (JArray items) rest
                      | Malformed => Malformed
                      | Aborted e => Aborted e
                      end
                | EmptyString => Malformed
                end
            end
          else scan_literal max_digits s
      end
  end

with scan_items (max_digits fuel depth : nat) (s : string)
  : Scan (list json) :=
  match fuel with
  | O => Malformed
  | S f =>
      match scan_once max_digits f depth s with
      | Malformed => Malformed
      | Aborted e => Aborted e
      | Scanned v r =>
          match skip_ws r with
          | String c r1 =>
              if is_char c "]" then Scanned [v] r1
              else if is_char c "," then
                match scan_items max_digits f depth (skip_ws r1) with
                | Scanned vs rest => Scanned (v :: vs) rest
                | Malformed => Malformed
                | Aborted e => Aborted e
                end
              else Malformed
          | EmptyString => Malformed
          end
      end
  end

with scan_members (max_digits fuel depth : nat) (s : string)
  : Scan (list (string * json)) :=
  match fuel with
  | O => Malformed
  | S f =>
      match s with
      | String c0 r0 =>
          if is_char c0 dq_char then
            match scanstring (String.length r0) r0 with
            | None => Malformed
            | Some (k, r1) =>
                match skip_ws r1 with
                | String c1 r2 =>
                    if is_char c1 ":" then
                      match scan_once max_digits f depth (skip_ws r2) with
                      | Malformed => Malformed
                      | Aborted e => Aborted e
                      | Scanned v r3 =>
                          match skip_ws r3 with
                          | String c2 r4 =>
                              if is_char c2 "}" then Scanned [(k, v)] r4
                              else if is_char c2 "," then
                                match scan_members max_digits f depth
                                        (skip_ws r4) with
                                | Scanned kvs rest =>
                                    Scanned ((k, v) :: kvs) rest
                                | Malformed => Malformed
                                | Aborted e => Aborted e
                                end
                              else Malformed
                          | EmptyString => Malformed
                          end
                      end
                    else Malformed
                | EmptyString => Malformed
                end
            end
          else Malformed
      | EmptyString => Malformed
      end
  end.

(** [json.loads(s)]: white space, one value, white space, end. *)
Definition loads (limits : Limits) (s : string) : Outcome json :=
  match scan_once (int_max_str_digits limits) (2 + 2 * String.length s)
          (max_nesting limits) (skip_ws s) with
  | Scanned v r =>
      match skip_ws r with
      | EmptyString => Returns v
      | String _ _ => Raises JSONDecodeError
      end
  | Malformed => Raises JSONDecodeError
  | Aborted e => Raises e
  end.

End Decoder.


(** ** Python operations on decoded values *)

Module Py.

(** [v[k]] for a [str] key. *)
Definition getitem_key (v : json) (k : string) : Outcome json :=
  match v with
  | JObject d =>
      match dict_get k d with
      | Some x => Returns x
      | None => Raises KeyError
      end
  | _ => Raises TypeError
  end.

(** [v[0]].  A [dict] decoded from JSON has no [int] key. *)
Definition getitem_0 (v : json) : Outcome json :=
  match v with
  | JArray (x :: _) => Returns x
  | JArray [] => Raises IndexError
  | JString s =>
      match utf8_chars s with
      | c :: _ => Returns (JString c)
      | [] => Raises IndexError
      end
  | JObject _ => Raises KeyError
  | _ => Raises TypeError
  end.

(** [len(v)]. *)
Definition len (v : json) : Outcome nat :=
  match v with
  | JString s => Returns (List.length (utf8_chars s))
  | JArray l => Returns (List.length l)
  | JObject d => Returns (List.length d)
  | _ => Raises TypeError
  end.

(** [v[:n]].  Slicing a [dict] raises ([TypeError] up to Python 3.11,
    [KeyError] since); the model takes the former. *)
Definition slice_to (n : nat) (v : json) : Outcome json :=
  match v with
  | JString s => Returns (JString (String.concat EmptyString (firstn n (utf8_chars s))))
  | JArray l => Returns (JArray (firstn n l))
  | _ => Raises TypeError
  end.

(** [v.get(k, default)]: only a [dict] has the method. *)
Definition get (v : json) (k : string) (default : json) : Outcome json :=
  match v with
  | JObject d =>
      match dict_get k d with
      | Some x => Returns x
      | None => Returns default
      end
  | _ => Raises AttributeError
  end.

(** The items of a sequence of [str], if [l] is one. *)
Fixpoint all_str (l : list json) : option (list string) :=
  match l with
  | [] => Some []
  | JString s :: r =>
      match all_str r with
      | Some t => Some (s :: t)
      | None => None
      end
  | _ :: _ => None
  end.

(** [sep.join(v)]: [v] is iterated, and every item must be a [str].  A
    [str] yields its characters and a [dict] its keys. *)
Definition str_join (sep : string) (v : json) : Outcome string :=
  match v with
  | JArray l =>
      match all_str l with
      | Some parts => Returns (join sep parts)
      | None => Raises TypeError
      end
  | JString s => Returns (join sep (utf8_chars s))
  | JObject d => Returns (join sep (dict_keys d))
  | _ => Raises TypeError
  end.

(** [json.loads(v)]: a value that is not a [str] is a [TypeError]. *)
Definition json_loads_value (loads : string -> Outcome json) (v : json)
  : Outcome json :=
  match v with
  | JString s => loads s
  | _ => Raises TypeError
  end.

End Py.

(** ** [prompts.py] *)

Definition get_solidity_expert_prompt : string :=
  "You are a Solidity expert, and you will be generating smart contracts.
Focus on writing clean, secure, and efficient Solidity code.
Use SPDX license identifiers. Use clear variable and contract naming conventions (CamelCase for variables, UpperCamelCase for contracts).
Implement thorough error handling and utilize testing frameworks like Foundry.
Prioritize gas optimization and ensure code is well-commented.
Also, be mindful of common vulnerabilities and strive to write secure code.

# Solidity Smart Contract Development Rules

## Core Principles

- Security first: Use OpenZeppelin contracts, implement reentrancy guards, proper access controls
- Gas optimization: Prefer uint256, use memory/storage appropriately, minimize storage operations
- Follow Checks-Effects-Interactions pattern
- Use explicit function visibility and comprehensive natspec documentation
- **ALWAYS verify token balances and state consistency in tests**

## Code Structure

- Contract naming: PascalCase
- Function naming: camelCase
- Constants: UPPER_CASE
- Function order: constructor, receive/fallback, external, public, internal, private
- Always use SPDX license identifier

## Solidity & OpenZeppelin Versions

Solidity: ^0.8.24
OpenZeppelin: ^5.4.0
**NEVER use git submodules for dependency management - use forge install with remappings**

## Required Imports & Patterns

- ReentrancyGuard
- Ownable
- Pausable
- AccessControl
- **MerkleProof for airdrop implementations based on OpenZeppelin. Instead of preallocating the proof array, use a dynamic array and push elements as you build the proof.**

## Security Requirements

- Never use tx.origin for authorization
- Implement nonReentrant for fund transfers
- Use custom errors instead of require strings for gas efficiency
- Add circuit breakers for critical functions
- Validate all external inputs
- **Always verify Merkle proofs using OpenZeppelin's MerkleProof.verify**
- **Merkle Tree Compatibility: Use sorted-pair Merkle trees for OpenZeppelin compatibility**

## Gas Optimization

- Use uint256 for calculations (most efficient on EVM)
- Pack structs efficiently
- Use events instead of storage for historical data
- Minimize external calls
- Use assembly for gas-critical operations when necessary
- **Use unchecked blocks for safe arithmetic operations**

## Testing Requirements

- Write comprehensive tests with Foundry
- Test edge cases and error conditions
- Use fuzzing for input validation
- Test with different user roles and permissions
- **ALWAYS use MOCK ERC20 token for tests**
- **Test with realistic token amounts and edge cases**

## Error Handling

- Use custom errors for gas efficiency
- Implement proper access control
- Add circuit breakers for emergency situations
- Validate all inputs and state transitions
- Use try-catch for external calls when appropriate

## Documentation

- Use natspec comments for all public functions
- Document all state variables
- Explain complex logic and algorithms
- Include usage examples in comments
- Document security considerations

## Deployment Considerations

- Use proper constructor parameters
- Implement upgrade patterns when needed
- Consider gas costs for deployment
- Use deterministic addresses when possible
- **Always include proper initialization checks**

## Common Patterns

- Use OpenZeppelin's ReentrancyGuard for fund transfers
- Implement proper access control with roles
- Use events for important state changes
- Implement pausable functionality for emergency stops
- Use time-based locks for critical operations

## Security Checklist

- [ ] No reentrancy vulnerabilities
- [ ] Proper access control implemented
- [ ] Input validation on all external functions
- [ ] No integer overflow/underflow (Solidity 0.8+)
- [ ] Proper error handling
- [ ] Events emitted for important actions
- [ ] No use of tx.origin for authorization
- [ ] Proper use of require/assert statements
- [ ] No hardcoded addresses or magic numbers
- [ ] Proper use of external vs public functions

## Testing Checklist

- [ ] Unit tests for all functions
- [ ] Integration tests for complex workflows
- [ ] Edge case testing
- [ ] Gas optimization testing
- [ ] Security vulnerability testing
- [ ] Access control testing
- [ ] Error condition testing
- [ ] State transition testing

## Code Quality Standards

- Follow Solidity style guide
- Use meaningful variable and function names
- Keep functions small and focused
- Avoid deep nesting
- Use consistent formatting
- Add comments for complex logic
- Use type hints and explicit conversions
- **Always use the latest Solidity features and best practices**

## OpenZeppelin Integration

- Use OpenZeppelin contracts for security
- Implement proper inheritance patterns
- Use OpenZeppelin's access control system
- Leverage OpenZeppelin's upgradeable contracts when needed
- **Always use OpenZeppelin's MerkleProof for airdrop implementations**

## Advanced Patterns

- Implement proxy patterns for upgradeability
- Use library contracts for reusable code
- Implement factory patterns for contract creation
- Use delegatecall for modular functionality
- **Implement proper initialization patterns for upgradeable contracts**

## Gas Optimization Techniques

- Use storage vs memory appropriately
- Pack structs to minimize storage slots
- Use events instead of storage for historical data
- Implement batch operations when possible
- Use assembly for gas-critical operations
- **Optimize for gas costs in production deployments**

## Security Best Practices

- Implement proper access control
- Use reentrancy guards
- Validate all inputs
- Implement circuit breakers
- Use time-based locks for critical operations
- **Always verify external contract interactions**

## Testing Best Practices

- Write comprehensive test suites
- Test all edge cases
- Use fuzzing for input validation
- Test with different user roles
- **Always test with realistic scenarios and amounts**

## Deployment Best Practices

- Use proper constructor parameters
- Implement proper initialization
- Consider gas costs
- Use deterministic addresses when possible
- **Always include proper verification and testing before deployment**

## Common Vulnerabilities to Avoid

- Reentrancy attacks
- Integer overflow/underflow
- Access control bypass
- Front-running vulnerabilities
- Denial of service attacks
- **Always implement proper security measures and test thoroughly**

## Code Examples

```solidity
// SPDX-License-Identifier: MIT
pragma solidity ^0.8.24;

import " ++ dq ++ "@openzeppelin/contracts/security/ReentrancyGuard.sol" ++ dq ++ ";
import " ++ dq ++ "@openzeppelin/contracts/access/Ownable.sol" ++ dq ++ ";
import " ++ dq ++ "@openzeppelin/contracts/security/Pausable.sol" ++ dq ++ ";

contract ExampleContract is ReentrancyGuard, Ownable, Pausable {
    // State variables
    uint256 public constant MAX_SUPPLY = 1000000;
    uint256 public totalSupply;
    
    // Events
    event TokenMinted(address indexed to, uint256 amount);
    
    // Modifiers
    modifier onlyWhenNotPaused() {
        require(!paused(), " ++ dq ++ "Contract is paused" ++ dq ++ ");
        _;
    }
    
    // Functions
    function mint(address to, uint256 amount) 
        external 
        onlyOwner 
        onlyWhenNotPaused 
        nonReentrant 
    {
        require(totalSupply + amount <= MAX_SUPPLY, " ++ dq ++ "Exceeds max supply" ++ dq ++ ");
        totalSupply += amount;
        emit TokenMinted(to, amount);
    }
}
```

## Testing Examples

```solidity
// SPDX-License-Identifier: MIT
pragma solidity ^0.8.24;

import " ++ dq ++ "forge-std/Test.sol" ++ dq ++ ";
import " ++ dq ++ "forge-std/console.sol" ++ dq ++ ";
import " ++ dq ++ "../src/ExampleContract.sol" ++ dq ++ ";

contract ExampleContractTest is Test {
    ExampleContract public exampleContract;
    address public owner = address(0x1);
    address public user = address(0x2);
    
    function setUp() public {
        vm.prank(owner);
        exampleContract = new ExampleContract();
    }
    
    function testMint() public {
        vm.prank(owner);
        exampleContract.mint(user, 1000);
        assertEq(exampleContract.totalSupply(), 1000);
    }
    
    function testMintFailsWhenNotOwner() public {
        vm.prank(user);
        vm.expectRevert();
        exampleContract.mint(user, 1000);
    }
}
```

**Remember: Always prioritize security, gas efficiency, and code quality in your implementations.**
".

(** The two strings [parse_assumptions_response] falls back to. *)
Definition parse_failure_marker : string :=
  "Failed to parse assumptions as JSON".

(** ** The HTTP exchange *)

Record Config : Type := {
  api_key : string;
  base_url : string;
  model_name : string
}.

Record Message : Type := {
  role : string;
  content : string
}.

(** The [json=data] argument of [session.post]; the literal [0.7] is kept
    as the rational it denotes. *)
Record Body : Type := {
  model : string;
  messages : list Message;
  temperature : Q;
  max_tokens : Z;
  stream : bool
}.

Record Request : Type := {
  http_method : string;
  url : string;
  headers : list (string * string);
  body : Body;
  timeout : Z;
  verify : bool
}.

(** What [session.post] does: it raises (connection, TLS, timeout; [err]
    is the [str] of the exception) or it returns a response. *)
Inductive Reply : Type :=
| PostRaised (err : string)
| Response (status_code : Z) (text : string).

(** The endpoint answers a request knowing the requests made before. *)
Definition Endpoint : Type := list Request -> Request -> Reply.

(** Computations that post requests: the log of the requests made so far
    is threaded through, and survives an exception. *)
Definition M (A : Type) : Type := list Request -> Outcome A * list Request.

Definition ret {A} (a : A) : M A := fun log => (Returns a, log).

Definition raise {A} (e : exn) : M A := fun log => (Raises e, log).

Definition bind {A B} (m : M A) (k : A -> M B) : M B :=
  fun log =>
    match m log with
    | (Returns a, log') => k a log'
    | (Raises e, log') => (Raises e, log')
    end.

Definition lift {A} (o : Outcome A) : M A := fun log => (o, log).

(** [try: m  except Exception as e: h e]. *)
Definition try_except {A} (m : M A) (h : exn -> M A) : M A :=
  fun log =>
    match m log with
    | (Returns a, log') => (Returns a, log')
    | (Raises e, log') => h e log'
    end.

Notation "x <- m ;; k" := (bind m (fun x => k))
  (at level 61, m at next level, right associativity).
Notation "m >> k" := (bind m (fun _ => k))
  (at level 61, right associativity).
Notation "' pat <- m ;; k" := (bind m (fun x => match x with pat => k end))
  (at level 61, pat pattern, m at next level, right associativity).

(** ** [app.py] *)

Definition reviewer_system_prompt : string :=
  "You are a senior Solidity expert specializing in security, gas optimization, and best practices.".

Definition analyst_system_prompt : string :=
  "You are a Solidity code analyst who identifies assumptions and design decisions in smart contract code.".

Definition technical_error_marker : string :=
  "Error extracting technical assumptions from code analysis".

Definition security_error_marker : string :=
  "Error extracting security assumptions from code analysis".

Definition apology : string :=
  "Sorry, I encountered an error. Please try again.".

Definition completion_banner : string :=
  "*Two-Call Architecture Complete* - This response has been improved with comprehensive review covering technical accuracy, security, gas optimization, and best practices. All assumptions made in the final code that weren't explicitly specified by the user are documented above.".

Section Copilot.

(** The limits of the interpreter that runs the script. *)
Variable limits : Limits.

Definition json_loads (s : string) : Outcome json := Decoder.loads limits s.

(** Python's [str(v)] for a value that is not a [str] (a [list] prints
    the [repr] of its items).  Nothing below depends on what it is. *)
Variable py_repr : json -> string.

(** [f"{v}"]. *)
Definition py_str (v : json) : string :=
  match v with
  | JString s => s
  | _ => py_repr v
  end.

(** *** [prompts.py], continued *)

Definition get_assumptions_prompt (user_input : string) (improved_response : json)
  : string :=
  let improved_response := py_str improved_response in
  "Analyze the following Solidity code and identify all assumptions made that weren't explicitly specified by the user.

Original User Request: " ++ user_input ++ "

Generated Code:
" ++ improved_response ++ "

**IMPORTANT: Respond with valid JSON only in this exact format:**

{
  " ++ dq ++ "technical_assumptions" ++ dq ++ ": [
    " ++ dq ++ "Assumption 1: Description of what was assumed" ++ dq ++ ",
    " ++ dq ++ "Assumption 2: Description of what was assumed" ++ dq ++ "
  ],
  " ++ dq ++ "security_assumptions" ++ dq ++ ": [
    " ++ dq ++ "Assumption 1: Description of what was assumed" ++ dq ++ ",
    " ++ dq ++ "Assumption 2: Description of what was assumed" ++ dq ++ "
  ],
  " ++ dq ++ "implementation_assumptions" ++ dq ++ ": [
    " ++ dq ++ "Assumption 1: Description of what was assumed" ++ dq ++ ",
    " ++ dq ++ "Assumption 2: Description of what was assumed" ++ dq ++ "
  ]
}

Be specific about what was assumed and why it wasn't explicitly requested by the user. Return only the JSON, no other text.".

Definition parse_assumptions_response (assumptions_response : json)
  : Outcome (string * string) :=
  otry
    (data <~ Py.json_loads_value json_loads assumptions_response ;;
     technical_items <~ Py.get data "technical_assumptions" (JArray []) ;;
     technical_assumptions <~ Py.str_join nl technical_items ;;
     security_items <~ Py.get data "security_assumptions" (JArray []) ;;
     security_assumptions <~ Py.str_join nl security_items ;;
     implementation_items <~
       Py.get data "implementation_assumptions" (JArray []) ;;
     implementation_assumptions <~ Py.str_join nl implementation_items ;;
     let technical_assumptions :=
       if truthy implementation_assumptions
       then technical_assumptions ++ nl ++ nl ++ "Implementation Assumptions:"
              ++ nl ++ implementation_assumptions
       else technical_assumptions in
     Returns (technical_assumptions, security_assumptions))
    (fun e =>
       if is_JSONDecodeError e
       then Returns (parse_failure_marker, parse_failure_marker)
       else Raises e).

(** *** The assumptions expander of [get_response] *)

(** The code points Python counts as white space ([str.isspace]). *)
Definition whitespace_code_points : list N :=
  [ 9; 10; 11; 12; 13; 28; 29; 30; 31; 32; 133; 160; 5760;
    8192; 8193; 8194; 8195; 8196; 8197; 8198; 8199; 8200; 8201; 8202;
    8232; 8233; 8239; 8287; 12288 ]%N.

(** Whether a character, given by its bytes, is white space. *)
Definition is_space_char (c : string) : bool :=
  existsb (fun cp => String.eqb c (utf8_encode cp)) whitespace_code_points.

Fixpoint drop_spaces (chars : list string) : list string :=
  match chars with
  | c :: r => if is_space_char c then drop_spaces r else chars
  | [] => []
  end.

(** [s.strip()]. *)
Definition py_strip (s : string) : string :=
  String.concat EmptyString
    (rev (drop_spaces (rev (drop_spaces (utf8_chars s))))).

(** [s.split('\n')]. *)
Fixpoint py_split_nl (s : string) : list string :=
  match s with
  | EmptyString => [EmptyString]
  | String c r =>
      if is_char c nl_char then EmptyString :: py_split_nl r
      else
        match py_split_nl r with
        | h :: t => String c h :: t
        | [] => [String c EmptyString]
        end
  end.

(** [field.split('\n') if field else []]. *)
Definition assumption_list (field : string) : list string :=
  if truthy field then py_split_nl field else [].

(** The loop over [enumerate(items, i)]: a row, its ID and its stripped
    text, for each item that is not blank. *)
Fixpoint rows_from (i : nat) (items : list string) : list (nat * string) :=
  match items with
  | [] => []
  | assumption :: rest =>
      if truthy (py_strip assumption)
      then (i, py_strip assumption) :: rows_from (S i) rest
      else rows_from (S i) rest
  end.

Definition table_rows (items : list string) : list (nat * string) :=
  rows_from 1 items.

(** Python's truth value of a list. *)
Definition nonempty {A} (l : list A) : bool :=
  match l with [] => false | _ :: _ => true end.

(** What the expander shows, call by call. *)
Inductive Widget : Type :=
| Markdown (text : string)
| Table (rows : list (nat * string))
| Info (text : string).

Definition assumptions_section (heading : string) (items : list string)
  : list Widget :=
  if nonempty items && existsb (fun item => truthy (py_strip item)) items
  then
    let data := table_rows items in
    Markdown heading :: (if nonempty data then [Table data] else [])
  else [].

Definition assumptions_expander (technical_assumptions security_assumptions : string)
  : list Widget :=
  let tech_list := assumption_list technical_assumptions in
  let sec_list := assumption_list security_assumptions in
  (Markdown "### 📋 **All Assumptions Made in Final Code**"
   :: assumptions_section "#### 🔧 **Technical Assumptions**" tech_list
   ++ assumptions_section "#### 🛡️ **Security Assumptions**" sec_list
   ++ (if negb (nonempty tech_list) && negb (nonempty sec_list)
       then [Info "No specific assumptions identified in the generated code."]
       else []))%list.

(** *** [SolidityCopilot] *)

Variable cfg : Config.
Variable net : Endpoint.

Definition request_headers : list (string * string) :=
  [ ("Authorization", "Bearer " ++ api_key cfg);
    ("Content-Type", "application/json");
    ("User-Agent", "SolidityCopilot/1.0") ].

Definition request_data (system_prompt user_prompt : string) : Body :=
  {| model := model_name cfg;
     messages := [ {| role := "system"; content := system_prompt |};
                   {| role := "user"; content := user_prompt |} ];
     temperature := 7 # 10;
     max_tokens := 6000;
     stream := false |}.

Definition build_request (system_prompt user_prompt : string) (timeout : Z)
  : Request :=
  {| http_method := "POST";
     url := base_url cfg ++ "/chat/completions";
     headers := request_headers;
     body := request_data system_prompt user_prompt;
     timeout := timeout;
     verify := false |}.

(** [session.post(...)]: the request joins the log, the endpoint answers. *)
Definition session_post (r : Request) : list Request -> Reply * list Request :=
  fun log => (net log r, (log ++ [r])%list).

(** The handling of a response with status 200: decode the body, follow
    the path, and evaluate the two logging lines, which take [len(content)]
    and [content[:200]]. *)
Definition extract_content (text : string) : Outcome json :=
  response_data <~ json_loads text ;;
  choices <~ Py.getitem_key response_data "choices" ;;
  choice <~ Py.getitem_0 choices ;;
  message <~ Py.getitem_key choice "message" ;;
  content <~ Py.getitem_key message "content" ;;
  _ <~ Py.len content ;;
  _ <~ Py.slice_to 200 content ;;
  Returns content.

Definition make_api_call (system_prompt user_prompt : string) (timeout : Z)
  : M json :=
  fun log =>
    match session_post (build_request system_prompt user_prompt timeout) log with
    | (PostRaised api_error, log') =>
        (Raises (Exception ("API call failed: " ++ api_error)), log')
    | (Response status_code text, log') =>
        if (status_code =? 200)%Z
        then (extract_content text, log')
        else (Raises (Exception ("API Error: " ++ str_of_int status_code
                                   ++ " - " ++ text)), log')
    end.

Definition improvement_prompt (user_input : string) (primary_response : json)
  : string :=
  let primary_response := py_str primary_response in
  "Please review and improve the following Solidity code. Focus on:

1. **Technical Accuracy**: Ensure the code is correct, complete, and follows best practices
2. **Security**: Identify and fix any security vulnerabilities
3. **Gas Optimization**: Optimize for gas efficiency where possible
4. **Code Quality**: Improve readability, documentation, and structure

Original Request: " ++ user_input ++ "

Generated Code:
" ++ primary_response ++ "

Please provide an improved version of the code that addresses any issues you find. If the code is already excellent, provide it with minor improvements or additional comments.".

Definition all_assumptions (technical_assumptions security_assumptions : string)
  : string :=
  "
## 📋 **All Assumptions Made in Final Code**

### 🔧 **Technical Assumptions in Code**
" ++ technical_assumptions ++ "

### 🛡️ **Security Assumptions in Code**
" ++ security_assumptions ++ " ".

(** The value the three-call branch returns. *)
Definition final_response (improved_response : json)
    (technical_assumptions security_assumptions : string) : string :=
  let all_assumptions :=
    all_assumptions technical_assumptions security_assumptions in
  let improved_response := py_str improved_response in
  improved_response ++ nl ++ nl ++ all_assumptions ++ nl ++ nl ++ "---" ++ nl
    ++ completion_banner.

(** The inner [try] of the three-call branch. *)
Definition extract_assumptions (user_input : string) (improved_response : json)
  : M (string * string) :=
  try_except
    (let assumptions_prompt :=
       get_assumptions_prompt user_input improved_response in
     assumptions_response <-
       make_api_call analyst_system_prompt assumptions_prompt 30 ;;
     lift (parse_assumptions_response assumptions_response))
    (fun _ => ret (technical_error_marker, security_error_marker)).

(** Between step 3 and its [return] the three-call branch draws its
    results.  Each of these Streamlit calls can raise (a widget refuses a
    text it cannot encode, the session may lack the flag), and they run
    inside the outer [try].  [st] stands for the Streamlit runtime: what
    a call does may depend on the call and on the requests made so far. *)
Inductive UiCall : Type :=
| Expander (label : string)
| TextArea (label : string) (value : json)
| Draw (w : Widget)
| FlowVisualization (user_input : string)
    (primary_response improved_response : json).

Record Streamlit : Type := {
  st_call : list Request -> UiCall -> Outcome unit;
  st_show_flow : list Request -> Outcome bool
}.

Variable st : Streamlit.

Definition ui (call : UiCall) : M unit :=
  fun log => (st_call st log call, log).

(** [st.session_state.show_flow_visualization]. *)
Definition show_flow_flag : M bool :=
  fun log => (st_show_flow st log, log).

Fixpoint ui_all (calls : list UiCall) : M unit :=
  match calls with
  | [] => ret tt
  | call :: rest => ui call >> ui_all rest
  end.

(** Lines 295 to 357: the two expanders and the flow visualization. *)
Definition show_results (user_input : string)
    (primary_response improved_response : json)
    (technical_assumptions security_assumptions : string) : M unit :=
  ui (Expander "✨ Comprehensive Improvement") >>
  ui (Draw (Markdown "**Improvement Assessment:**")) >>
  ui (TextArea "Improvement Feedback" improved_response) >>
  ui (Expander "🔍 Extracted Assumptions") >>
  ui_all (map Draw (assumptions_expander technical_assumptions
                      security_assumptions)) >>
  (show <- show_flow_flag ;;
   if show : bool
   then ui (FlowVisualization user_input primary_response improved_response)
   else ret tt).

Definition three_call (user_input : string) : M json :=
  let system_prompt := get_solidity_expert_prompt in
  primary_response <- make_api_call system_prompt user_input 30 ;;
  improved_response <-
    make_api_call reviewer_system_prompt
      (improvement_prompt user_input primary_response) 45 ;;
  '(technical_assumptions, security_assumptions) <-
    extract_assumptions user_input improved_response ;;
  show_results user_input primary_response improved_response
    technical_assumptions security_assumptions >>
  ret (JString (final_response improved_response
                  technical_assumptions security_assumptions)).

Definition get_response (user_input : string)
    (use_two_call use_three_call : bool) : M json :=
  try_except
    (let system_prompt := get_solidity_expert_prompt in
     if negb use_two_call && negb use_three_call then
       make_api_call system_prompt user_input 30
     else if use_three_call then
       three_call user_input
     else
       make_api_call system_prompt user_input 30)
    (fun _ => ret (JString apology)).

(** *** [main]: one run of the script *)

(** [st.session_state]; [chat] is its [messages], a list of role and
    content. *)
Record SessionState : Type := {
  chat : list (string * json);
  use_two_call : bool;
  use_three_call : bool;
  show_flow_visualization : bool
}.

(** The widget that fired in this run, if any. *)
Inductive UiEvent : Type :=
| NoEvent
| ClearChat
| RegistryButton
| VaultButton
| StakingButton
| MarketplaceButton
| EscrowButton
| RewardsButton
| ChatInput (prompt : string).

(** The sidebar sets the mode flags on every run, before any widget is
    looked at. *)
Definition sidebar (ss : SessionState) : SessionState :=
  {| chat := chat ss;
     use_two_call := false;
     use_three_call := true;
     show_flow_visualization := true |}.

(** The prompt a run submits: a button's fixed text, or the chat input
    when it is truthy. *)
Definition submitted_prompt (ev : UiEvent) : option string :=
  match ev with
  | NoEvent | ClearChat => None
  | RegistryButton =>
      Some "Create a Registry Style contract for managing Artifacts"
  | VaultButton => Some "Create a Vault Contract"
  | StakingButton => Some "Create a Staking Contract with yield"
  | MarketplaceButton =>
      Some "Create a Marketplace Contract to allow buying, selling, and trading of in-game assets (NFTs or tokens)"
  | EscrowButton =>
      Some "Create a Escrow / Prize Pool Contracts to hold funds for tournaments, wagers, or bets until game outcomes are verified"
  | RewardsButton =>
      Some "Create Reward Distribution Contracts for play-to-earn reward payouts"
  | ChatInput prompt => if truthy prompt then Some prompt else None
  end.

Definition main (ss : SessionState) (ev : UiEvent) : M SessionState :=
  let ss := sidebar ss in
  match ev with
  | ClearChat =>
      ret {| chat := [];
             use_two_call := use_two_call ss;
             use_three_call := use_three_call ss;
             show_flow_visualization := show_flow_visualization ss |}
  | _ =>
      match submitted_prompt ev with
      | None => ret ss
      | Some prompt =>
          response <-
            get_response prompt (use_two_call ss) (use_three_call ss) ;;
          ret {| chat := chat ss ++ [("user", JString prompt);
                                     ("assistant", response)]%list;
                 use_two_call := use_two_call ss;
                 use_three_call := use_three_call ss;
                 show_flow_visualization := show_flow_visualization ss |}
      end
  end.

(** *** Vocabulary of the properties *)

(** The three requests of the sequence. *)
Definition generate_request (user_input : string) : Request :=
  build_request get_solidity_expert_prompt user_input 30.

Definition improve_request (user_input : string) (primary_response : json)
  : Request :=
  build_request reviewer_system_prompt
    (improvement_prompt user_input primary_response) 45.

Definition analyze_request (user_input : string) (improved_response : json)
  : Request :=
  build_request analyst_system_prompt
    (get_assumptions_prompt user_input improved_response) 30.

(** The outcome of each step, on the log as the step finds it. *)
Definition generate_step (user_input : string) (log : list Request)
  : Outcome json :=
  fst (make_api_call get_solidity_expert_prompt user_input 30 log).

Definition improve_step (user_input : string) (primary_response : json)
    (log : list Request) : Outcome json :=
  fst (make_api_call reviewer_system_prompt
         (improvement_prompt user_input primary_response) 45
         (log ++ [generate_request user_input])%list).

Definition analyze_step (user_input : string)
    (primary_response improved_response : json) (log : list Request)
  : Outcome json :=
  fst (make_api_call analyst_system_prompt
         (get_assumptions_prompt user_input improved_response) 30
         (log ++ [generate_request user_input;
                  improve_request user_input primary_response])%list).

(** What the inner handler leaves in the two assumption fields. *)
Definition assumption_fields (step3 : Outcome json) : string * string :=
  match obind step3 parse_assumptions_response with
  | Returns fields => fields
  | Raises _ => (technical_error_marker, security_error_marker)
  end.

(** The outcome of drawing the results, once steps 1 and 2 have returned
    and step 3 has left its two fields. *)
Definition render_step (user_input : string)
    (primary_response improved_response : json) (log : list Request)
  : Outcome unit :=
  let fields :=
    assumption_fields
      (analyze_step user_input primary_response improved_response log) in
  fst (show_results user_input primary_response improved_response
         (fst fields) (snd fields)
         (log ++ [generate_request user_input;
                  improve_request user_input primary_response;
                  analyze_request user_input improved_response])%list).

(** One field of the parser: [nl.join(data.get(k, []))]. *)
Definition joined_lines (data : json) (k : string) : Outcome string :=
  items <~ Py.get data k (JArray []) ;; Py.str_join nl items.

(** The lines under key [k] of a decoded object: none when the key is
    missing, the entries of an array of texts otherwise. *)
Definition text_array (d : dict) (k : string) : option (list string) :=
  match dict_get k d with
  | None => Some []
  | Some (JArray l) => Py.all_str l
  | Some _ => None
  end.

(** The reply of the specification's example. *)
Definition example_reply : string :=
  "{" ++ q "technical_assumptions" ++ ":[" ++ q "a" ++ "],"
      ++ q "security_assumptions" ++ ":[" ++ q "b" ++ "],"
      ++ q "implementation_assumptions" ++ ":[" ++ q "c" ++ "]}".

(** The value at [choices[0].message.content] of a decoded body, through
    JSON objects and a JSON array; absent is [None]. *)
Definition content_at_path (response_data : json) : option json :=
  match response_data with
  | JObject d =>
      match dict_get "choices" d with
      | Some (JArray (JObject choice :: _)) =>
          match dict_get "message" choice with
          | Some (JObject message) => dict_get "content" message
          | _ => None
          end
      | _ => None
      end
  | _ => None
  end.

(** The shape every request has. *)
Definition well_formed (r : Request) : Prop :=
  http_method r = "POST"
  /\ url r = base_url cfg ++ "/chat/completions"
  /\ In ("Authorization", "Bearer " ++ api_key cfg) (headers r)
  /\ (exists system_prompt user_prompt,
        messages (body r) =
          [ {| role := "system"; content := system_prompt |};
            {| role := "user"; content := user_prompt |} ])
  /\ temperature (body r) = 7 # 10
  /\ max_tokens (body r) = 6000%Z
  /\ stream (body r) = false.

(** The requests a call of [get_response] adds to the log. *)
Definition requests_of (user_input : string) (use_three_call : bool)
    (log : list Request) : list Request :=
  if use_three_call then
    match generate_step user_input log with
    | Raises _ => [generate_request user_input]
    | Returns primary =>
        match improve_step user_input primary log with
        | Raises _ =>
            [generate_request user_input; improve_request user_input primary]
        | Returns improved =>
            [generate_request user_input; improve_request user_input primary;
             analyze_request user_input improved]
        end
    end
  else [generate_request user_input].

(** The user prompt a request carries: the content of its second
    message, which has the user role. *)
Definition user_prompt_of (r : Request) : option string :=
  match messages (body r) with
  | [_; m] => if String.eqb (role m) "user" then Some (content m) else None
  | _ => None
  end.

Definition carries_user_prompt (r : Request) : Prop :=
  exists user_prompt, user_prompt_of r = Some user_prompt /\ user_prompt <> "".

(** *** Sample configuration, endpoints and replies *)

(** A scripted endpoint answers the n-th request of a run with the n-th
    reply of a list, and refuses the connection after that. *)

Definition scripted (replies : list Reply) : Endpoint :=
  fun log _ => nth (List.length log) replies (PostRaised "Connection refused").

(** The limits of an interpreter left at its defaults. *)
Definition demo_limits : Limits :=
  {| max_nesting := 990;
     int_max_str_digits := 4300;
     nesting_ok := ltac:(lia);
     digits_ok := ltac:(right; lia) |}.

(** A Streamlit runtime on which every call returns, with the flow
    visualization switched on. *)
Definition quiet_streamlit : Streamlit :=
  {| st_call := fun _ _ => Returns tt;
     st_show_flow := fun _ => Returns true |}.

(** Whether a text holds a surrogate code point: the bytes [ED A0] to
    [ED BF]. *)
Fixpoint has_surrogate (s : string) : bool :=
  match s with
  | String c ((String d _) as r) =>
      ((code c =? 237) && (160 <=? code d) && (code d <=? 191))%N
      || has_surrogate r
  | _ => false
  end.

(** A Streamlit runtime that refuses a text it cannot encode as UTF-8:
    a text area whose value holds a surrogate raises. *)
Definition strict_streamlit : Streamlit :=
  {| st_call := fun _ call =>
       match call with
       | TextArea _ (JString value) =>
           if has_surrogate value then Raises UnicodeEncodeError
           else Returns tt
       | _ => Returns tt
       end;
     st_show_flow := fun _ => Returns true |}.

(** [n] copies of [s]. *)
Fixpoint copies (n : nat) (s : string) : string :=
  match n with
  | O => EmptyString
  | S m => s ++ copies m s
  end.

Definition demo_cfg : Config :=
  {| api_key := "fw-key";
     base_url := "https://api.fireworks.ai/inference/v1";
     model_name := "accounts/sentientfoundation/loadBalancers/gpt-oss-120b" |}.

(** A stand-in for Python's [str] of a value that is not a text. *)
Definition demo_repr (v : json) : string := "<value>".

(** [s] as a JSON string: quotes, backslashes and line feeds escaped. *)
Fixpoint json_quote_body (s : string) : string :=
  match s with
  | EmptyString => EmptyString
  | String c r =>
      (if is_char c dq_char then "\" ++ dq
       else if is_char c "\" then "\\"
       else if is_char c nl_char then "\n"
       else String c EmptyString) ++ json_quote_body r
  end.

Definition json_quote (s : string) : string := q (json_quote_body s).

(** A chat-completions body whose first choice has the content [text]. *)
Definition completion (text : string) : string :=
  "{" ++ q "choices" ++ ":[{" ++ q "message" ++ ":{" ++ q "role" ++ ":"
      ++ q "assistant" ++ "," ++ q "content" ++ ":" ++ json_quote text
      ++ "}}]}".

Definition demo_prompt : string := "Create a Vault Contract".
Definition demo_primary : string := "contract Vault {}".
Definition demo_improved : string :=
  "// SPDX-License-Identifier: MIT" ++ nl ++ "contract Vault {}".

(** All three calls succeed, and the third reply is the example. *)
Definition happy_endpoint : Endpoint :=
  scripted [ Response 200 (completion demo_primary);
             Response 200 (completion demo_improved);
             Response 200 (completion example_reply) ].

(** The first call meets a server error. *)
Definition failing_endpoint : Endpoint :=
  scripted [ Response 500 "Internal Server Error" ].

(** The third call times out. *)
Definition timeout_endpoint : Endpoint :=
  scripted [ Response 200 (completion demo_primary);
             Response 200 (completion demo_improved);
             PostRaised "Read timed out. (read timeout=30)" ].

(** A chat-completions body whose content is given as JSON text. *)
Definition completion_of (content_json : string) : string :=
  "{" ++ q "choices" ++ ":[{" ++ q "message" ++ ":{" ++ q "content" ++ ":"
      ++ content_json ++ "}}]}".

(** The improved output ends in a high surrogate that no low one
    follows. *)
Definition surrogate_endpoint : Endpoint :=
  scripted [ Response 200 (completion demo_primary);
             Response 200 (completion_of (q "contract Vault {} \ud83d"));
             Response 200 (completion example_reply) ].

(** The third reply nests arrays deeper than the interpreter allows. *)
Definition nested_endpoint : Endpoint :=
  scripted [ Response 200 (completion demo_primary);
             Response 200 (completion demo_improved);
             Response 200 (completion (copies 3000 "[")) ].

(** The third reply is not JSON. *)
Definition chatty_endpoint : Endpoint :=
  scripted [ Response 200 (completion demo_primary);
             Response 200 (completion demo_improved);
             Response 200 (completion "not json") ].

(** A reply that gives technical lines only. *)
Definition partial_reply : string :=
  "{" ++ q "technical_assumptions" ++ ":[" ++ q "x" ++ "," ++ q "y" ++ "]}".

(** The endpoint answers 200 with a body that has no choices. *)
Definition hollow_endpoint : Endpoint :=
  scripted [ Response 200 "{}" ].

Definition fresh_session : SessionState :=
  {| chat := [];
     use_two_call := false;
     use_three_call := true;
     show_flow_visualization := true |}.

(** *** Vocabulary of the further properties *)

(** The values [len] accepts and the values a slice accepts. *)
Definition has_len (v : json) : bool :=
  match v with
  | JString _ | JArray _ | JObject _ => true
  | _ => false
  end.

Definition sliceable (v : json) : bool :=
  match v with
  | JString _ | JArray _ => true
  | _ => false
  end.

(** The values [nl.join] accepts: a sequence of texts, a text, a dict. *)
Definition joinable (v : json) : bool :=
  match v with
  | JArray l => match Py.all_str l with Some _ => true | None => false end
  | JString _ | JObject _ => true
  | _ => false
  end.

(** The field under [k] is missing or joinable. *)
Definition field_joinable (d : dict) (k : string) : bool :=
  match dict_get k d with
  | None => true
  | Some v => joinable v
  end.

(** The system prompt a request carries: the content of its first
    message, which has the system role. *)
Definition system_prompt_of (r : Request) : option string :=
  match messages (body r) with
  | [m; _] => if String.eqb (role m) "system" then Some (content m) else None
  | _ => None
  end.

(** The value of the [Authorization] header. *)
Definition authorization_of (r : Request) : option string :=
  match find (fun h => String.eqb (fst h) "Authorization") (headers r) with
  | Some h => Some (snd h)
  | None => None
  end.

(** *** [SolidityCopilot.__init__] *)

(** The process environment, as [os.getenv] reads it. *)
Definition Env : Type := string -> option string.

(** [os.getenv(k, default)]. *)
Definition getenv (env : Env) (k default : string) : string :=
  match env k with
  | Some v => v
  | None => default
  end.

Definition default_base_url : string := "https://api.fireworks.ai/inference/v1".

Definition default_model_name : string :=
  "accounts/sentientfoundation/loadBalancers/gpt-oss-120b".

(** The constructor; [None] is [st.stop()], which ends the script. *)
Definition SolidityCopilot_init (env : Env) : option Config :=
  let key := env "FIREWORKS_API_KEY" in
  let base := getenv env "FIREWORKS_BASE_URL" default_base_url in
  let name :=
    getenv env "_FIREWORKS_DEDICATED_GPT_OSS_120B_MODEL_NAME"
      default_model_name in
  match key with
  | Some k =>
      if truthy k
      then Some {| api_key := k; base_url := base; model_name := name |}
      else None
  | None => None
  end.

(** *** A session: one run of [main] after another *)

(** Streamlit runs the script once for each widget event and keeps
    [st.session_state] between the runs. *)
Fixpoint run_session (events : list UiEvent) (ss : SessionState)
  : M SessionState :=
  match events with
  | [] => ret ss
  | ev :: rest => ss' <- main ss ev ;; run_session rest ss'
  end.

(** The runs of a session that submit a prompt. *)
Definition submissions (events : list UiEvent) : nat :=
  List.length (filter (fun ev => match submitted_prompt ev with
                                 | Some _ => true
                                 | None => false
                                 end) events).

(** A history of user texts and assistant texts, in turn. *)
Fixpoint alternating (history : list (string * json)) : Prop :=
  match history with
  | [] => True
  | (r1, c1) :: (r2, c2) :: rest =>
      r1 = "user" /\ r2 = "assistant"
      /\ (exists prompt, c1 = JString prompt)
      /\ (exists answer, c2 = JString answer)
      /\ alternating rest
  | _ => False
  end.

(** *** [_detect_multiple_files] *)

(** Python's [str.lower], which goes by the Unicode tables. *)
Variable py_lower : string -> string.

Fixpoint drop (n : nat) (s : string) : string :=
  match n, s with
  | O, _ => s
  | S n', String _ r => drop n' r
  | S _, EmptyString => EmptyString
  end.

(** The occurrences of [sub] in [s] that do not overlap, from the left. *)
Fixpoint count_from (fuel : nat) (sub s : string) : nat :=
  match fuel with
  | O => O
  | S f =>
      match s with
      | EmptyString => O
      | String _ r =>
          if String.prefix sub s
          then S (count_from f sub (drop (String.length sub) s))
          else count_from f sub r
      end
  end.

(** [s.count(sub)]. *)
Definition py_count (s sub : string) : nat :=
  match sub with
  | EmptyString => S (List.length (utf8_chars s))
  | String _ _ => count_from (String.length s) sub s
  end.

Definition _detect_multiple_files (response_text : string) : bool :=
  let lowered := py_lower response_text in
  let indicators :=
    [ contains "contract " lowered;
      contains "pragma solidity" lowered;
      contains "// file:" lowered;
      contains "// contract:" lowered;
      contains "interface " lowered;
      contains "library " lowered ] in
  let contract_count := py_count lowered "contract " in
  let interface_count := py_count lowered "interface " in
  let library_count := py_count lowered "library " in
  let total_definitions :=
    (contract_count + interface_count + library_count)%nat in
  (1 <? total_definitions)%nat || existsb (fun b => b) indicators.

(** Every line of the field is blank. *)
Definition all_blank (field : string) : Prop :=
  forall line, In line (py_split_nl field) -> py_strip line = EmptyString.

(** *** JSON texts, written out *)

(** The properties that go from a text on the wire to what the code
    makes of it speak of JSON texts as a server or a model writes them:
    any value, any white space between its tokens.  A text inside is
    escaped as JSON requires (quote, backslash, and control characters
    as [\u00XX]). *)
Definition hex_digit (n : N) : ascii :=
  ascii_of_N (if n <? 10 then 48 + n else 87 + n)%N.

Definition escape_char (c : ascii) : string :=
  if is_char c dq_char then String "\" dq
  else if is_char c "\" then "\\"
  else if (code c <? 32)%N then
    "\u00" ++ String (hex_digit (code c / 16))
                (String (hex_digit (code c mod 16)) EmptyString)
  else String c EmptyString.

Fixpoint json_escape (s : string) : string :=
  match s with
  | EmptyString => EmptyString
  | String c r => escape_char c ++ json_escape r
  end.

Definition json_string (s : string) : string :=
  String dq_char (json_escape s ++ dq).

(** The white space of a JSON text: what stands after an opening bracket
    or brace, before the closing one, around a comma and around a colon,
    each by the number of containers open around the place. *)
Record Layout : Type := {
  after_open : nat -> string;
  before_close : nat -> string;
  before_comma : nat -> string;
  after_comma : nat -> string;
  before_colon : nat -> string;
  after_colon : nat -> string
}.

(** Nothing but JSON white space. *)
Fixpoint blank (s : string) : bool :=
  match s with
  | EmptyString => true
  | String c r => Decoder.is_ws c && blank r
  end.

Definition layout_ok (l : Layout) : Prop :=
  forall d,
    blank (after_open l d) = true /\ blank (before_close l d) = true
    /\ blank (before_comma l d) = true /\ blank (after_comma l d) = true
    /\ blank (before_colon l d) = true /\ blank (after_colon l d) = true.

Section Items.

Variable l : Layout.
Variable w : json -> string.
Variable d : nat.

(** The items of an array after the first, and its closing bracket. *)
Fixpoint write_items (r : list json) : string :=
  match r with
  | [] => before_close l d ++ "]"
  | y :: r' =>
      before_comma l d ++ "," ++ after_comma l d ++ w y ++ write_items r'
  end.

Definition write_member (k : string) (y : json) : string :=
  json_string k ++ before_colon l d ++ ":" ++ after_colon l d ++ w y.

(** The members of an object after the first, and its closing brace. *)
Fixpoint write_members (r : list (string * json)) : string :=
  match r with
  | [] => before_close l d ++ "}"
  | (k, y) :: r' =>
      before_comma l d ++ "," ++ after_comma l d ++ write_member k y
        ++ write_members r'
  end.

End Items.

(** A value as a JSON text, inside [d] containers. *)
Fixpoint write (l : Layout) (d : nat) (v : json) : string :=
  match v with
  | JNull => "null"
  | JBool b => if b then "true" else "false"
  | JNumber n => n
  | JString s => json_string s
  | JArray [] => "[]"
  | JArray (x :: r) =>
      "[" ++ after_open l d ++ write l (S d) x
          ++ write_items l (write l (S d)) d r
  | JObject [] => "{}"
  | JObject ((k, x) :: r) =>
      "{" ++ after_open l d ++ write_member l (write l (S d)) d k x
          ++ write_members l (write l (S d)) d r
  end.

Fixpoint all_digits (s : string) : bool :=
  match s with
  | EmptyString => true
  | String c r => Decoder.is_digit c && all_digits r
  end.

(** A natural number in decimal, of at most 640 digits. *)
Definition plain_int (n : string) : bool :=
  match n with
  | EmptyString => false
  | String c r =>
      (String.eqb n "0"
       || (Decoder.is_digit c && negb (is_char c "0") && all_digits r))
      && (String.length n <=? 640)%nat
  end.

Fixpoint distinct (keys : list string) : bool :=
  match keys with
  | [] => true
  | k :: r => negb (existsb (String.eqb k) r) && distinct r
  end.

(** The values written out below: any text, [null], the booleans, the
    numbers that are plain integers, and arrays and objects of such, an
    object naming no key twice. *)
Fixpoint writable (v : json) : bool :=
  match v with
  | JNull | JBool _ | JString _ => true
  | JNumber n => plain_int n
  | JArray items => forallb writable items
  | JObject fields =>
      distinct (map fst fields)
      && forallb (fun kv => writable (snd kv)) fields
  end.

(** How many containers a value has open at its deepest place. *)
Fixpoint height (v : json) : nat :=
  match v with
  | JArray items =>
      S (fold_right (fun x h => Nat.max (height x) h) O items)
  | JObject fields =>
      S (fold_right (fun kv h => Nat.max (height (snd kv)) h) O fields)
  | _ => O
  end.

(** What may follow a value: the end, white space, a comma, a closing
    bracket or brace. *)
Definition delimited (rest : string) : bool :=
  match rest with
  | EmptyString => true
  | String c _ =>
      Decoder.is_ws c || is_char c "," || is_char c "]" || is_char c "}"
  end.

(** No white space at all, as [json.dumps] writes with the separators
    [(',', ':')]. *)
Definition compact : Layout :=
  {| after_open := fun _ => EmptyString;
     before_close := fun _ => EmptyString;
     before_comma := fun _ => EmptyString;
     after_comma := fun _ => EmptyString;
     before_colon := fun _ => EmptyString;
     after_colon := fun _ => EmptyString |}.

(** One item or member to a line, two more spaces for each container:
    the layout of the reply the assumptions prompt shows, and of
    [json.dumps] with [indent=2]. *)
Definition indented : Layout :=
  {| after_open := fun d => nl ++ copies (2 * S d) " ";
     before_close := fun d => nl ++ copies (2 * d) " ";
     before_comma := fun _ => EmptyString;
     after_comma := fun d => nl ++ copies (2 * S d) " ";
     before_colon := fun _ => EmptyString;
     after_colon := fun _ => " " |}.

(** A value the decoder takes back under the limits at hand. *)
Definition decodable (v : json) : Prop :=
  writable v = true /\ (height v <= max_nesting limits)%nat.

(** The reply the assumptions prompt asks for: an object of the three
    arrays, in the order of the prompt. *)
Definition reply_of (technical security implementation : list string) : json :=
  JObject [ ("technical_assumptions", JArray (map JString technical));
            ("security_assumptions", JArray (map JString security));
            ("implementation_assumptions",
             JArray (map JString implementation)) ].

(** A response with status 200 and a written value as its body, white
    space around it. *)
Definition answer (l : Layout) (lead trail : string) (response_data : json)
  : Reply :=
  Response 200 (lead ++ write l 0 response_data ++ trail).

(** *** [initialize_session_state] *)

(** [st.session_state] as the dict of its keys; a list is a [JArray]. *)
Definition setdefault (k : string) (v : json) (state : dict) : dict :=
  match dict_get k state with
  | Some _ => state
  | None => dict_set k v state
  end.

Definition initialize_session_state (state : dict) : dict :=
  let state := setdefault "messages" (JArray []) state in
  let state := setdefault "chat_history" (JArray []) state in
  let state := setdefault "use_two_call" (JBool false) state in
  let state := setdefault "use_three_call" (JBool true) state in
  let state := setdefault "verification_details" (JArray []) state in
  setdefault "show_flow_visualization" (JBool true) state.

(** The six keys and the values they start with. *)
Definition session_defaults : list (string * json) :=
  [ ("messages", JArray []);
    ("chat_history", JArray []);
    ("use_two_call", JBool false);
    ("use_three_call", JBool true);
    ("verification_details", JArray []);
    ("show_flow_visualization", JBool true) ].

(** *** The recent topics of [main] *)

(** [v + s] for a text [s]: only a text can be joined to a text. *)
Definition py_add_text (v : json) (s : string) : Outcome json :=
  match v with
  | JString a => Returns (JString (a ++ s))
  | _ => Raises TypeError
  end.

(** [content[:50] + "..." if len(content) > 50 else content]. *)
Definition topic_of (content : json) : Outcome json :=
  n <~ Py.len content ;;
  if (50 <? n)%nat
  then head <~ Py.slice_to 50 content ;; py_add_text head "..."
  else Returns content.

(** [history[-n:]], for a positive [n]. *)
Definition last_messages (n : nat) (history : list (string * json))
  : list (string * json) :=
  skipn (List.length history - n) history.

(** The loop over the messages: a topic for each one of the user. *)
Fixpoint topics_of (history : list (string * json)) : Outcome (list json) :=
  match history with
  | [] => Returns []
  | (msg_role, msg_content) :: rest =>
      if String.eqb msg_role "user" then
        topic <~ topic_of msg_content ;;
        topics <~ topics_of rest ;;
        Returns (topic :: topics)
      else topics_of rest
  end.

Definition recent_topics (history : list (string * json))
  : Outcome (list json) :=
  topics_of (last_messages 5 history).

(** The number of characters of a text. *)
Definition char_length (s : string) : nat := List.length (utf8_chars s).

(** A string that does not start inside a character. *)
Definition fresh (s : string) : bool :=
  match s with
  | EmptyString => true
  | String c _ => negb (is_continuation c)
  end.

Fixpoint all_continuation (s : string) : bool :=
  match s with
  | EmptyString => true
  | String c r => is_continuation c && all_continuation r
  end.

(** The messages of the user in a history. *)
Definition user_messages (history : list (string * json))
  : list (string * json) :=
  filter (fun msg => String.eqb (fst msg) "user") history.

(** *** Sample bodies, environments and sessions *)

(** A completion whose content is null. *)
Definition null_endpoint : Endpoint :=
  scripted [ Response 200
               ("{" ++ q "choices" ++ ":[{" ++ q "message" ++ ":{"
                    ++ q "content" ++ ":null}}]}") ].

(** An environment that sets the key and nothing else. *)
Definition demo_env : Env :=
  fun k => if String.eqb k "FIREWORKS_API_KEY" then Some "fw-key" else None.

(** A session: a button, an idle run, a chat input. *)
Definition demo_events : list UiEvent :=
  [VaultButton; NoEvent; ChatInput "How do I pause it?"].

(** A chat completion as the endpoint returns it, with its usual
    members around the content. *)
Definition chat_completion (text : string) : json :=
  JObject
    [ ("id", JString "cmpl-7f3a");
      ("object", JString "chat.completion");
      ("created", JNumber "1718000000");
      ("model", JString "accounts/sentientfoundation/loadBalancers/gpt-oss-120b");
      ("choices",
       JArray [ JObject [ ("index", JNumber "0");
                          ("message",
                           JObject [ ("role", JString "assistant");
                                     ("content", JString text) ]);
                          ("finish_reason", JString "stop") ] ]);
      ("usage",
       JObject [ ("prompt_tokens", JNumber "2048");
                 ("completion_tokens", JNumber "512");
                 ("total_tokens", JNumber "2560") ]) ].

(** The two lines the prompt shows under each key. *)
Definition shown_lines : list string :=
  [ "Assumption 1: Description of what was assumed";
    "Assumption 2: Description of what was assumed" ].

Definition demo_reply : json :=
  reply_of ["Uses Solidity ^0.8.24"] ["Owner is trusted"; "No reentrancy"] [].

(** Completions written out in full, one member to a line, the last one
    carrying a reply written the same way. *)
Definition echo_endpoint : Endpoint :=
  scripted [ answer indented EmptyString nl (chat_completion demo_primary);
             answer indented EmptyString nl (chat_completion demo_improved);
             answer indented EmptyString nl
               (chat_completion
                  (EmptyString ++ write indented 0 demo_reply ++ nl)) ].

(** ** Properties *)

(** Case analysis on an innermost scrutinee of the goal. *)
Ltac case_on_match :=
  match goal with
  | |- context [match ?x with _ => _ end] =>
      lazymatch x with
      | context [match _ with _ => _ end] => fail
      | _ => destruct x eqn:?
      end
  end.

(** *** Strings *)

Lemma prefix_append (p s : string) : String.prefix p (p ++ s) = true.
Proof.
  induction p as [|c p IH]; simpl.
  - now destruct s.
  - destruct (ascii_dec c c) as [_|ne]; [exact IH | now elim ne].
Qed.

Lemma contains_unfold (p s : string) :
  contains p s =
  String.prefix p s ||
  match s with EmptyString => false | String _ r => contains p r end.
Proof. destruct s; reflexivity. Qed.

Lemma contains_complete (p s : string) : Substring p s -> contains p s = true.
Proof.
  intros [pre [post ->]].
  induction pre as [|c pre IH].
  - rewrite contains_unfold.
    change (EmptyString ++ p ++ post) with (p ++ post).
    rewrite prefix_append. reflexivity.
  - change (String.prefix p (String c (pre ++ p ++ post))
            || contains p (pre ++ p ++ post) = true).
    rewrite IH. apply orb_true_r.
Qed.

(** *** The decoder *)

Lemma scan_literal_aborted (max_digits : nat) (s : string) (e : exn) :
  Decoder.scan_literal max_digits s = Decoder.Aborted e -> e = ValueError.
Proof.
  unfold Decoder.scan_literal.
  repeat (case_on_match; try discriminate).
  now intros [= <-].
Qed.

(** What cuts a scan short is one of the two limits. *)
Lemma scan_aborted (max_digits fuel : nat) :
  (forall depth s e,
     Decoder.scan_once max_digits fuel depth s = Decoder.Aborted e ->
     e = ValueError \/ e = RecursionError)
  /\ (forall depth s e,
        Decoder.scan_items max_digits fuel depth s = Decoder.Aborted e ->
        e = ValueError \/ e = RecursionError)
  /\ (forall depth s e,
        Decoder.scan_members max_digits fuel depth s = Decoder.Aborted e ->
        e = ValueError \/ e = RecursionError).
Proof.
  induction fuel as [|f [IHo [IHi IHm]]];
    [repeat split; intros; discriminate|].
  split; [|split]; intros depth s e; cbn [Decoder.scan_once Decoder.scan_items
                                           Decoder.scan_members].
  - destruct s as [|c r]; [discriminate|].
    destruct (is_char c dq_char);
      [destruct (Decoder.scanstring _ r) as [[t rest]|]; discriminate|].
    destruct (is_char c "{").
    { destruct depth as [|d]; [intros [= <-]; now right|].
      destruct (Decoder.skip_ws r) as [|c1 r1]; [discriminate|].
      destruct (is_char c1 "}"); [discriminate|].
      destruct (Decoder.scan_members max_digits f d (String c1 r1)) eqn:E;
        try discriminate.
      intros [= <-]. exact (IHm _ _ _ E). }
    destruct (is_char c "[").
    { destruct depth as [|d]; [intros [= <-]; now right|].
      destruct (Decoder.skip_ws r) as [|c1 r1]; [discriminate|].
      destruct (is_char c1 "]"); [discriminate|].
      destruct (Decoder.scan_items max_digits f d (String c1 r1)) eqn:E;
        try discriminate.
      intros [= <-]. exact (IHi _ _ _ E). }
    intros H. left. exact (scan_literal_aborted _ _ _ H).
  - destruct (Decoder.scan_once max_digits f depth s) as [v r| |e0] eqn:E;
      [|discriminate|intros [= <-]; exact (IHo _ _ _ E)].
    destruct (Decoder.skip_ws r) as [|c r1]; [discriminate|].
    destruct (is_char c "]"); [discriminate|].
    destruct (is_char c ","); [|discriminate].
    destruct (Decoder.scan_items max_digits f depth (Decoder.skip_ws r1)) eqn:E2;
      try discriminate.
    intros [= <-]. exact (IHi _ _ _ E2).
  - destruct s as [|c0 r0]; [discriminate|].
    destruct (is_char c0 dq_char); [|discriminate].
    destruct (Decoder.scanstring _ r0) as [[k r1]|]; [|discriminate].
    destruct (Decoder.skip_ws r1) as [|c1 r2]; [discriminate|].
    destruct (is_char c1 ":"); [|discriminate].
    destruct (Decoder.scan_once max_digits f depth (Decoder.skip_ws r2))
      as [v r3| |e0] eqn:E;
      [|discriminate|intros [= <-]; exact (IHo _ _ _ E)].
    destruct (Decoder.skip_ws r3) as [|c2 r4]; [discriminate|].
    destruct (is_char c2 "}"); [discriminate|].
    destruct (is_char c2 ","); [|discriminate].
    destruct (Decoder.scan_members max_digits f depth (Decoder.skip_ws r4)) eqn:E2;
      try discriminate.
    intros [= <-]. exact (IHm _ _ _ E2).
Qed.

(** [json.loads] raises a decode error or meets one of the limits. *)
Lemma json_loads_raises (s : string) (e : exn) :
  json_loads s = Raises e ->
  e = JSONDecodeError \/ e = ValueError \/ e = RecursionError.
Proof.
  unfold json_loads, Decoder.loads.
  destruct (Decoder.scan_once _ _ _ _) as [v r| |e0] eqn:E.
  - destruct (Decoder.skip_ws r); [discriminate | intros [= <-]; now left].
  - intros [= <-]. now left.
  - intros [= <-]. right.
    exact (proj1 (scan_aborted _ _) _ _ _ E).
Qed.

(** *** The parser, field by field *)

Lemma joined_lines_raises (data : json) (k : string) (e : exn) :
  joined_lines data k = Raises e -> e = AttributeError \/ e = TypeError.
Proof.
  unfold joined_lines, Py.get, Py.str_join, obind.
  repeat (case_on_match; cbn beta iota; try discriminate);
    intros [= <-]; auto.
Qed.

Lemma joined_field (d : dict) (k : string) (lines : list string) :
  text_array d k = Some lines ->
  joined_lines (JObject d) k = Returns (join nl lines).
Proof.
  unfold text_array, joined_lines, Py.get, obind, Py.str_join.
  destruct (dict_get k d) as [[| | | |l|]|]; try discriminate.
  - intros ->. reflexivity.
  - intros [= <-]. reflexivity.
Qed.

Lemma parse_assumptions_response_fields (reply : json) :
  parse_assumptions_response reply =
  match Py.json_loads_value json_loads reply with
  | Raises e =>
      if is_JSONDecodeError e
      then Returns (parse_failure_marker, parse_failure_marker)
      else Raises e
  | Returns data =>
      match joined_lines data "technical_assumptions" with
      | Raises e => Raises e
      | Returns technical =>
          match joined_lines data "security_assumptions" with
          | Raises e => Raises e
          | Returns security =>
              match joined_lines data "implementation_assumptions" with
              | Raises e => Raises e
              | Returns implementation =>
                  Returns (if truthy implementation
                           then technical ++ nl ++ nl
                                  ++ "Implementation Assumptions:" ++ nl
                                  ++ implementation
                           else technical,
                           security)
              end
          end
      end
  end.
Proof.
  unfold parse_assumptions_response, otry, joined_lines, obind.
  destruct (Py.json_loads_value json_loads reply) as [data|e]; [|reflexivity].
  unfold Py.get, Py.str_join.
  repeat (case_on_match; cbn beta iota; try reflexivity).
Qed.

(** *** The request log *)

Lemma make_api_call_run (system_prompt user_prompt : string) (t : Z)
    (log : list Request) :
  make_api_call system_prompt user_prompt t log =
  (fst (make_api_call system_prompt user_prompt t log),
   (log ++ [build_request system_prompt user_prompt t])%list).
Proof.
  unfold make_api_call, session_post.
  destruct (net log (build_request system_prompt user_prompt t))
    as [err|status text].
  - reflexivity.
  - destruct (status =? 200)%Z; reflexivity.
Qed.

Lemma extract_assumptions_run (user_input : string)
    (primary_response improved_response : json) (log : list Request) :
  extract_assumptions user_input improved_response
    (log ++ [generate_request user_input;
             improve_request user_input primary_response])%list =
  (Returns (assumption_fields
              (analyze_step user_input primary_response improved_response log)),
   (log ++ [generate_request user_input;
            improve_request user_input primary_response;
            analyze_request user_input improved_response])%list).
Proof.
  unfold extract_assumptions, try_except, bind, lift, ret, assumption_fields,
    analyze_step.
  rewrite make_api_call_run.
  replace ((log ++ [generate_request user_input;
                    improve_request user_input primary_response]) ++
           [build_request analyst_system_prompt
              (get_assumptions_prompt user_input improved_response) 30])%list
    with (log ++ [generate_request user_input;
                  improve_request user_input primary_response;
                  analyze_request user_input improved_response])%list
    by (rewrite <- app_assoc; reflexivity).
  destruct (fst (make_api_call analyst_system_prompt
                   (get_assumptions_prompt user_input improved_response) 30 _))
    as [reply|e]; simpl.
  - destruct (parse_assumptions_response reply) as [fields|e']; reflexivity.
  - reflexivity.
Qed.

(** Drawing posts nothing. *)
Lemma ui_all_run (calls : list UiCall) (log : list Request) :
  ui_all calls log = (fst (ui_all calls log), log).
Proof.
  induction calls as [|call rest IH]; [reflexivity|].
  cbn [ui_all]. unfold bind, ui.
  destruct (st_call st log call); [|reflexivity].
  rewrite IH. reflexivity.
Qed.

Lemma show_results_run (user_input : string) (primary improved : json)
    (technical security : string) (log : list Request) :
  show_results user_input primary improved technical security log =
  (fst (show_results user_input primary improved technical security log), log).
Proof.
  unfold show_results, bind, ui, show_flow_flag, ret.
  destruct (st_call st log (Expander _)); [|reflexivity].
  destruct (st_call st log (Draw _)); [|reflexivity].
  destruct (st_call st log (TextArea _ _)); [|reflexivity].
  destruct (st_call st log (Expander _)); [|reflexivity].
  rewrite ui_all_run.
  destruct (fst (ui_all _ log)); [|reflexivity].
  destruct (st_show_flow st log) as [[|]|]; reflexivity.
Qed.

(** The whole three-call branch, step by step. *)
Lemma three_call_run (user_input : string) (log : list Request) :
  three_call user_input log =
  match generate_step user_input log with
  | Raises e => (Raises e, (log ++ [generate_request user_input])%list)
  | Returns primary =>
      match improve_step user_input primary log with
      | Raises e =>
          (Raises e, (log ++ [generate_request user_input;
                              improve_request user_input primary])%list)
      | Returns improved =>
          let fields :=
            assumption_fields (analyze_step user_input primary improved log) in
          (match render_step user_input primary improved log with
           | Returns _ =>
               Returns (JString (final_response improved
                                   (fst fields) (snd fields)))
           | Raises e => Raises e
           end,
           (log ++ [generate_request user_input;
                    improve_request user_input primary;
                    analyze_request user_input improved])%list)
      end
  end.
Proof.
  unfold three_call, bind.
  rewrite make_api_call_run.
  fold (generate_step user_input log). fold (generate_request user_input).
  destruct (generate_step user_input log) as [primary|e]; [|reflexivity].
  rewrite make_api_call_run.
  fold (improve_step user_input primary log).
  fold (improve_request user_input primary).
  replace ((log ++ [generate_request user_input]) ++
           [improve_request user_input primary])%list
    with (log ++ [generate_request user_input;
                  improve_request user_input primary])%list
    by (rewrite <- app_assoc; reflexivity).
  destruct (improve_step user_input primary log) as [improved|e];
    [|reflexivity].
  rewrite (extract_assumptions_run user_input primary improved log).
  unfold render_step.
  destruct (assumption_fields _) as [technical security]. cbn [fst snd].
  rewrite show_results_run.
  destruct (fst (show_results _ _ _ _ _ _)); reflexivity.
Qed.

(** [get_response] with the three-call flag set. *)
Lemma get_response_three_run (user_input : string) (use_two_call : bool)
    (log : list Request) :
  get_response user_input use_two_call true log =
  match three_call user_input log with
  | (Returns v, log') => (Returns v, log')
  | (Raises _, log') => (Returns (JString apology), log')
  end.
Proof.
  unfold get_response, try_except, ret.
  rewrite andb_false_r. reflexivity.
Qed.

(** [get_response] with the three-call flag clear. *)
Lemma get_response_single_run (user_input : string) (use_two_call : bool)
    (log : list Request) :
  get_response user_input use_two_call false log =
  (match generate_step user_input log with
   | Returns v => Returns v
   | Raises _ => Returns (JString apology)
   end,
   (log ++ [generate_request user_input])%list).
Proof.
  unfold get_response, try_except, ret.
  assert (E : (if negb use_two_call && negb false
               then make_api_call get_solidity_expert_prompt user_input 30
               else if false then three_call user_input
                    else make_api_call get_solidity_expert_prompt user_input 30)
              = make_api_call get_solidity_expert_prompt user_input 30)
    by (destruct use_two_call; reflexivity).
  rewrite E, make_api_call_run.
  fold (generate_step user_input log). fold (generate_request user_input).
  destruct (generate_step user_input log); reflexivity.
Qed.

(** *** The three-call sequence *)

(** C1, amended.  When the three transport calls of a three-call run
    succeed and the Streamlit calls that draw the results return,
    [get_response] returns one text: the improved output of step 2,
    then the assumptions block with its technical and its security
    subsection, then the completion banner.  The two subsections hold
    what the parser made of the step-3 reply.  When one of the drawing
    calls raises, [get_response] returns the apology instead.  The input
    may be empty. *)
Theorem get_response_success
    (user_input : string) (use_two_call : bool) (log : list Request)
    (primary improved reply : json) :
  generate_step user_input log = Returns primary ->
  improve_step user_input primary log = Returns improved ->
  analyze_step user_input primary improved log = Returns reply ->
  exists technical security : string,
    (technical, security) = assumption_fields (Returns reply)
    /\ all_assumptions technical security =
         nl ++ "## 📋 **All Assumptions Made in Final Code**" ++ nl ++ nl
            ++ "### 🔧 **Technical Assumptions in Code**" ++ nl
            ++ technical ++ nl ++ nl
            ++ "### 🛡️ **Security Assumptions in Code**" ++ nl
            ++ security ++ " "
    /\ (render_step user_input primary improved log = Returns tt ->
        fst (get_response user_input use_two_call true log) =
          Returns (JString (py_str improved ++ nl ++ nl
                              ++ all_assumptions technical security
                              ++ nl ++ nl ++ "---" ++ nl ++ completion_banner)))
    /\ (forall e,
          render_step user_input primary improved log = Raises e ->
          fst (get_response user_input use_two_call true log) =
            Returns (JString apology)).
Proof.
  intros H1 H2 H3.
  exists (fst (assumption_fields (Returns reply))),
         (snd (assumption_fields (Returns reply))).
  rewrite get_response_three_run, three_call_run, H1, H2, H3.
  split; [now destruct (assumption_fields (Returns reply))|].
  split; [reflexivity|].
  split.
  - intros Hr. rewrite Hr. reflexivity.
  - intros e Hr. rewrite Hr. reflexivity.
Qed.

(** C2.  A failure of the step-1 call, in either mode, or of the step-2
    call makes [get_response] return the apology and nothing else. *)
Theorem get_response_step12_failure
    (user_input : string) (use_two_call use_three_call : bool)
    (log : list Request) :
  (exists e, generate_step user_input log = Raises e) \/
  (use_three_call = true /\
   exists primary e,
     generate_step user_input log = Returns primary /\
     improve_step user_input primary log = Raises e) ->
  fst (get_response user_input use_two_call use_three_call log) =
    Returns (JString apology).
Proof.
  intros [[e H1] | [-> [primary [e [H1 H2]]]]].
  - destruct use_three_call.
    + now rewrite get_response_three_run, three_call_run, H1.
    + now rewrite get_response_single_run, H1.
  - now rewrite get_response_three_run, three_call_run, H1, H2.
Qed.

(** C3, amended.  Once steps 1 and 2 have succeeded, no failure of step 3
    aborts the run: provided the Streamlit calls that draw the results
    return, [get_response] returns the improved output with an
    assumptions block.  When the step-3 call raises, or the parser raises
    on its reply (which includes a reply whose decoding meets the nesting
    or the digit limit of the interpreter), the two subsections hold the
    two "Error extracting ... assumptions" markers; when the reply is
    text on which the decoder raises its decode error, the parser does
    not raise and both subsections hold its own "Failed to parse"
    marker. *)
Theorem get_response_step3_failure
    (user_input : string) (use_two_call : bool) (log : list Request)
    (primary improved : json) :
  generate_step user_input log = Returns primary ->
  improve_step user_input primary log = Returns improved ->
  render_step user_input primary improved log = Returns tt ->
  (exists technical security,
     fst (get_response user_input use_two_call true log) =
       Returns (JString (final_response improved technical security)))
  /\ (forall e,
        analyze_step user_input primary improved log = Raises e ->
        fst (get_response user_input use_two_call true log) =
          Returns (JString (final_response improved
                              technical_error_marker security_error_marker)))
  /\ (forall reply e,
        analyze_step user_input primary improved log = Returns reply ->
        parse_assumptions_response reply = Raises e ->
        fst (get_response user_input use_two_call true log) =
          Returns (JString (final_response improved
                              technical_error_marker security_error_marker)))
  /\ (forall s e,
        analyze_step user_input primary improved log = Returns (JString s) ->
        json_loads s = Raises e ->
        e <> JSONDecodeError ->
        fst (get_response user_input use_two_call true log) =
          Returns (JString (final_response improved
                              technical_error_marker security_error_marker)))
  /\ (forall s,
        analyze_step user_input primary improved log = Returns (JString s) ->
        json_loads s = Raises JSONDecodeError ->
        fst (get_response user_input use_two_call true log) =
          Returns (JString (final_response improved
                              parse_failure_marker parse_failure_marker))).
Proof.
  intros H1 H2 Hr.
  rewrite get_response_three_run, three_call_run, H1, H2, Hr.
  cbn [fst].
  split; [eexists _, _; reflexivity|].
  split; [intros e H3; now rewrite H3|].
  split; [|split].
  - intros reply e H3 Hp. rewrite H3.
    unfold assumption_fields, obind. now rewrite Hp.
  - intros s e H3 Hs Hne. rewrite H3.
    unfold assumption_fields, obind.
    rewrite parse_assumptions_response_fields. unfold Py.json_loads_value.
    rewrite Hs.
    destruct e; try reflexivity. now elim Hne.
  - intros s H3 Hs. rewrite H3.
    unfold assumption_fields, obind.
    rewrite parse_assumptions_response_fields. unfold Py.json_loads_value.
    now rewrite Hs.
Qed.

(** *** The assumptions parser *)


(** The example reply decodes under any limits. *)
Lemma json_loads_example_reply :
  json_loads example_reply =
    Returns (JObject [("technical_assumptions", JArray [JString "a"]);
                      ("security_assumptions", JArray [JString "b"]);
                      ("implementation_assumptions", JArray [JString "c"])]).
Proof.
  unfold json_loads, Decoder.loads.
  pose proof (nesting_ok limits) as Hn.
  destruct (max_nesting limits) as [|[|n]]; [lia | lia |].
  vm_compute. reflexivity.
Qed.

(** C5.  On a reply that decodes to an object whose three keys, where
    present, hold arrays of texts, the parser joins each array with line
    feeds, a missing key counting as the empty array, and appends the
    implementation lines to the technical field under the label
    "Implementation Assumptions:"; with the key missing or its array
    empty nothing is appended.  The example reply yields the two fields
    the specification gives. *)
Theorem parse_assumptions_response_object :
  (forall (s : string) (d : dict) (technical security implementation : list string),
     json_loads s = Returns (JObject d) ->
     text_array d "technical_assumptions" = Some technical ->
     text_array d "security_assumptions" = Some security ->
     text_array d "implementation_assumptions" = Some implementation ->
     parse_assumptions_response (JString s) =
       Returns (if truthy (join nl implementation)
                then join nl technical ++ nl ++ nl
                       ++ "Implementation Assumptions:" ++ nl
                       ++ join nl implementation
                else join nl technical,
                join nl security)
     /\ (dict_get "implementation_assumptions" d = None \/
         dict_get "implementation_assumptions" d = Some (JArray []) ->
         parse_assumptions_response (JString s) =
           Returns (join nl technical, join nl security)))
  /\ parse_assumptions_response (JString example_reply) =
       Returns ("a" ++ nl ++ nl ++ "Implementation Assumptions:" ++ nl ++ "c",
                "b").
Proof.
  split.
  2:{ rewrite parse_assumptions_response_fields. unfold Py.json_loads_value.
      rewrite json_loads_example_reply. reflexivity. }
  intros s d technical security implementation Hs Ht Hsec Hi.
  assert (R : parse_assumptions_response (JString s) =
              Returns (if truthy (join nl implementation)
                       then join nl technical ++ nl ++ nl
                              ++ "Implementation Assumptions:" ++ nl
                              ++ join nl implementation
                       else join nl technical,
                       join nl security)).
  { rewrite parse_assumptions_response_fields. unfold Py.json_loads_value.
    rewrite Hs, (joined_field _ _ _ Ht), (joined_field _ _ _ Hsec),
      (joined_field _ _ _ Hi).
    reflexivity. }
  split; [exact R|].
  intros Hmissing. rewrite R.
  assert (implementation = []) as ->.
  { unfold text_array in Hi.
    destruct Hmissing as [Hm|Hm]; rewrite Hm in Hi; simpl in Hi; congruence. }
  reflexivity.
Qed.

(** *** The transport client *)

Lemma extract_content_absent (text : string) (d : json) :
  json_loads text = Returns d ->
  content_at_path d = None ->
  exists e, extract_content text = Raises e /\ is_subscript_error e = true.
Proof.
  intros Hd. unfold extract_content, content_at_path. rewrite Hd.
  unfold Py.getitem_key, Py.getitem_0, obind.
  repeat (case_on_match; cbn beta iota; try discriminate);
    intros; try discriminate; eexists; split; reflexivity.
Qed.

Lemma extract_content_text (text : string) (d : json) (s : string) :
  json_loads text = Returns d ->
  content_at_path d = Some (JString s) ->
  extract_content text = Returns (JString s).
Proof.
  intros Hd. unfold extract_content, content_at_path. rewrite Hd.
  unfold Py.getitem_key, Py.getitem_0, obind.
  repeat (case_on_match; cbn beta iota; try discriminate);
    intros [= ->]; simpl in *; congruence.
Qed.

(** C6.  [make_api_call] fails with an [Exception] that carries the text
    of the underlying error when the post itself fails, and with an
    [Exception] that carries the status code and the response body when
    the status is not 200.  With status 200 and a body that decodes but
    lacks [choices[0].message.content], it fails with a different
    exception, the one of the failed subscript.  With a text at that path
    it returns exactly that text. *)
Theorem make_api_call_outcomes
    (system_prompt user_prompt : string) (t : Z) (log : list Request) :
  let request := build_request system_prompt user_prompt t in
  (forall err,
     net log request = PostRaised err ->
     fst (make_api_call system_prompt user_prompt t log) =
       Raises (Exception ("API call failed: " ++ err)))
  /\ (forall status text,
        net log request = Response status text ->
        status <> 200%Z ->
        fst (make_api_call system_prompt user_prompt t log) =
          Raises (Exception ("API Error: " ++ str_of_int status ++ " - " ++ text)))
  /\ (forall text d,
        net log request = Response 200 text ->
        json_loads text = Returns d ->
        content_at_path d = None ->
        exists e,
          fst (make_api_call system_prompt user_prompt t log) = Raises e
          /\ is_subscript_error e = true
          /\ forall msg, e <> Exception msg)
  /\ (forall text d s,
        net log request = Response 200 text ->
        json_loads text = Returns d ->
        content_at_path d = Some (JString s) ->
        fst (make_api_call system_prompt user_prompt t log) =
          Returns (JString s)).
Proof.
  intros request. unfold make_api_call, session_post. fold request.
  repeat split.
  - intros err ->. reflexivity.
  - intros status text -> Hne.
    destruct (Z.eqb_spec status 200) as [->|_]; [now elim Hne | reflexivity].
  - intros text d -> Hd Hp. cbn [Z.eqb Pos.eqb fst].
    destruct (extract_content_absent text d Hd Hp) as [e [He Hl]].
    exists e. repeat split; trivial.
    intros msg ->. discriminate.
  - intros text d s -> Hd Hp. cbn [Z.eqb Pos.eqb fst].
    exact (extract_content_text text d s Hd Hp).
Qed.

Lemma build_request_well_formed (system_prompt user_prompt : string) (t : Z) :
  well_formed (build_request system_prompt user_prompt t).
Proof.
  unfold well_formed, build_request, request_data, request_headers.
  cbn [http_method url headers body messages temperature max_tokens stream].
  repeat split; try reflexivity.
  - left. reflexivity.
  - eexists _, _. reflexivity.
Qed.

Lemma get_response_log (user_input : string)
    (use_two_call use_three_call : bool) (log : list Request) :
  snd (get_response user_input use_two_call use_three_call log) =
  (log ++ requests_of user_input use_three_call log)%list.
Proof.
  unfold requests_of. destruct use_three_call.
  - rewrite get_response_three_run, three_call_run.
    destruct (generate_step user_input log) as [primary|e]; [|reflexivity].
    destruct (improve_step user_input primary log) as [improved|e];
      [|reflexivity].
    cbv zeta.
    destruct (render_step user_input primary improved log); reflexivity.
  - rewrite get_response_single_run. reflexivity.
Qed.

(** C7.  Every transport call posts one request to
    [{base_url}/chat/completions], with a bearer authorization header
    and a body of exactly two messages, the system one then the user one,
    temperature 0.7, 6000 output tokens and no streaming.  The calls of
    the three-call sequence carry the timeouts 30, 45 and 30, in that
    order; a run whose first two steps succeed makes all three. *)
Theorem transport_requests :
  (forall system_prompt user_prompt t log,
     snd (make_api_call system_prompt user_prompt t log) =
       (log ++ [build_request system_prompt user_prompt t])%list
     /\ well_formed (build_request system_prompt user_prompt t)
     /\ timeout (build_request system_prompt user_prompt t) = t)
  /\ (forall user_input use_two_call use_three_call log,
        exists requests,
          snd (get_response user_input use_two_call use_three_call log) =
            (log ++ requests)%list
          /\ Forall well_formed requests
          /\ (exists n : nat, (1 <= n <= 3)%nat /\
                map timeout requests = firstn n [30; 45; 30]%Z)
          /\ (use_three_call = true ->
              forall primary improved,
                generate_step user_input log = Returns primary ->
                improve_step user_input primary log = Returns improved ->
                map timeout requests = [30; 45; 30]%Z)).
Proof.
  split.
  - intros system_prompt user_prompt t log.
    rewrite make_api_call_run.
    split; [reflexivity | split; [apply build_request_well_formed | reflexivity]].
  - intros user_input use_two_call use_three_call log.
    exists (requests_of user_input use_three_call log).
    split; [apply get_response_log|].
    assert (W : forall l, Forall well_formed l ->
                forall sp up t, Forall well_formed (build_request sp up t :: l))
      by (intros l Hl sp up t; constructor;
          [apply build_request_well_formed | exact Hl]).
    unfold requests_of, generate_request, improve_request, analyze_request.
    destruct use_three_call.
    + destruct (generate_step user_input log) as [primary|e].
      * destruct (improve_step user_input primary log) as [improved|e] eqn:E2.
        -- split; [now repeat apply W|].
           split; [exists 3%nat; split; [lia | reflexivity] | intros; reflexivity].
        -- split; [now repeat apply W|].
           split; [exists 2%nat; split; [lia | reflexivity]|].
           intros _ p i [= <-] Hi. congruence.
      * split; [now repeat apply W|].
        split; [exists 1%nat; split; [lia | reflexivity]|].
        intros _ p i; discriminate.
    + split; [now repeat apply W|].
      split; [exists 1%nat; split; [lia | reflexivity] | discriminate].
Qed.

(** *** Modes, prompts and totality *)

Lemma get_response_total (user_input : string)
    (use_two_call use_three_call : bool) (log : list Request) :
  exists v,
    fst (get_response user_input use_two_call use_three_call log) = Returns v.
Proof.
  destruct use_three_call.
  - rewrite get_response_three_run, three_call_run.
    destruct (generate_step user_input log) as [primary|e];
      [|eexists; reflexivity].
    destruct (improve_step user_input primary log) as [improved|e];
      [|eexists; reflexivity].
    cbv zeta.
    destruct (render_step user_input primary improved log);
      eexists; reflexivity.
  - rewrite get_response_single_run.
    destruct (generate_step user_input log); eexists; reflexivity.
Qed.

(** C8.  With the three-call flag set, whatever the other flag,
    [get_response] runs the three-call sequence: it posts the step-1
    request, with the expert system prompt and the input; if that call
    returns, the step-2 request, with the reviewer prompt and the
    improvement prompt built from the step-1 content; if that returns
    too, the step-3 request, with the analyst prompt and the assumptions
    prompt built from the step-2 content.  Its value is the apology when
    step 1, step 2 or the drawing of the results raises, and the improved
    output with the assumptions block and the banner otherwise.  With the
    flag clear, whatever the other flag, it makes exactly one transport
    call, with the expert system prompt, and returns the content of that
    call unchanged, or the apology when the call raises.  A run of the
    user interface that submits a prompt calls [get_response] with the
    two-call flag clear and the three-call flag set, so it never takes
    the one-call branch; a run that submits none posts nothing. *)
Theorem mode_selection (user_input : string) (log : list Request) :
  (forall use_two_call,
     get_response user_input use_two_call true log =
       let first := build_request get_solidity_expert_prompt user_input 30 in
       match fst (make_api_call get_solidity_expert_prompt user_input 30 log)
       with
       | Raises _ => (Returns (JString apology), (log ++ [first])%list)
       | Returns primary =>
           let second :=
             build_request reviewer_system_prompt
               (improvement_prompt user_input primary) 45 in
           match fst (make_api_call reviewer_system_prompt
                        (improvement_prompt user_input primary) 45
                        (log ++ [first])%list)
           with
           | Raises _ =>
               (Returns (JString apology), (log ++ [first; second])%list)
           | Returns improved =>
               let third :=
                 build_request analyst_system_prompt
                   (get_assumptions_prompt user_input improved) 30 in
               let fields :=
                 assumption_fields
                   (fst (make_api_call analyst_system_prompt
                           (get_assumptions_prompt user_input improved) 30
                           (log ++ [first; second])%list)) in
               (match fst (show_results user_input primary improved
                             (fst fields) (snd fields)
                             (log ++ [first; second; third])%list)
                with
                | Returns _ =>
                    Returns (JString (py_str improved ++ nl ++ nl
                                        ++ all_assumptions (fst fields)
                                             (snd fields)
                                        ++ nl ++ nl ++ "---" ++ nl
                                        ++ completion_banner))
                | Raises _ => Returns (JString apology)
                end,
                (log ++ [first; second; third])%list)
           end
       end)
  /\ (forall use_two_call,
        get_response user_input use_two_call false log =
          (match fst (make_api_call get_solidity_expert_prompt user_input 30
                        log)
           with
           | Returns v => Returns v
           | Raises _ => Returns (JString apology)
           end,
           (log ++ [build_request get_solidity_expert_prompt user_input 30])%list))
  /\ (forall ss ev prompt,
        submitted_prompt ev = Some prompt ->
        use_two_call (sidebar ss) = false
        /\ use_three_call (sidebar ss) = true
        /\ exists response,
             get_response prompt false true log =
               (Returns response, snd (get_response prompt false true log))
             /\ main ss ev log =
                  (Returns {| chat := (chat ss ++ [("user", JString prompt);
                                                   ("assistant", response)])%list;
                              use_two_call := false;
                              use_three_call := true;
                              show_flow_visualization := true |},
                   snd (get_response prompt false true log)))
  /\ (forall ss ev,
        submitted_prompt ev = None -> snd (main ss ev log) = log).
Proof.
  split; [|split; [|split]].
  - intros use_two_call.
    rewrite get_response_three_run, three_call_run.
    cbv zeta.
    change (fst (make_api_call get_solidity_expert_prompt user_input 30 log))
      with (generate_step user_input log).
    change (build_request get_solidity_expert_prompt user_input 30)
      with (generate_request user_input).
    destruct (generate_step user_input log) as [primary|e]; [|reflexivity].
    change (fst (make_api_call reviewer_system_prompt
                   (improvement_prompt user_input primary) 45
                   (log ++ [generate_request user_input])%list))
      with (improve_step user_input primary log).
    destruct (improve_step user_input primary log) as [improved|e];
      [|reflexivity].
    unfold render_step. cbv zeta.
    change (fst (make_api_call analyst_system_prompt
                   (get_assumptions_prompt user_input improved) 30
                   (log ++ [generate_request user_input;
                            build_request reviewer_system_prompt
                              (improvement_prompt user_input primary) 45])%list))
      with (analyze_step user_input primary improved log).
    change (build_request reviewer_system_prompt
              (improvement_prompt user_input primary) 45)
      with (improve_request user_input primary).
    change (build_request analyst_system_prompt
              (get_assumptions_prompt user_input improved) 30)
      with (analyze_request user_input improved).
    destruct (fst (show_results _ _ _ _ _ _)); reflexivity.
  - intros use_two_call. rewrite get_response_single_run. reflexivity.
  - intros ss ev prompt H.
    split; [reflexivity|]. split; [reflexivity|].
    destruct (get_response_total prompt false true log) as [response Hr].
    exists response.
    assert (E : get_response prompt false true log =
                (Returns response, snd (get_response prompt false true log))).
    { destruct (get_response prompt false true log) as [o l].
      simpl in Hr. subst o. reflexivity. }
    split; [exact E|].
    assert (Hm : main ss ev log =
                 bind (get_response prompt false true)
                   (fun response =>
                      ret {| chat := (chat ss ++ [("user", JString prompt);
                                                  ("assistant", response)])%list;
                             use_two_call := false;
                             use_three_call := true;
                             show_flow_visualization := true |}) log).
    { unfold main. destruct ev; try discriminate;
        cbn [sidebar use_two_call use_three_call show_flow_visualization chat];
        rewrite H; reflexivity. }
    rewrite Hm. unfold bind. rewrite E. reflexivity.
  - intros ss ev Hnone. unfold main.
    destruct ev; try reflexivity; rewrite Hnone; reflexivity.
Qed.

Lemma build_request_user_prompt (system_prompt user_prompt : string) (t : Z) :
  user_prompt <> "" ->
  carries_user_prompt (build_request system_prompt user_prompt t).
Proof. intros Hne. exists user_prompt. split; [reflexivity | exact Hne]. Qed.

Lemma improvement_prompt_nonempty (user_input : string) (primary : json) :
  improvement_prompt user_input primary <> "".
Proof. unfold improvement_prompt. discriminate. Qed.

Lemma get_assumptions_prompt_nonempty (user_input : string) (improved : json) :
  get_assumptions_prompt user_input improved <> "".
Proof. unfold get_assumptions_prompt. discriminate. Qed.

Lemma submitted_prompt_nonempty (ev : UiEvent) (prompt : string) :
  submitted_prompt ev = Some prompt -> prompt <> "".
Proof.
  destruct ev; simpl; try discriminate; try (intros [= <-]; discriminate).
  destruct prompt0; simpl; [discriminate | intros [= <-]; discriminate].
Qed.

(** The requests of a run: the step-1 request, which carries the input
    as it is, and after it requests whose user prompt is never empty. *)
Lemma requests_of_shape (user_input : string) (use_three_call : bool)
    (log : list Request) :
  exists rest,
    requests_of user_input use_three_call log =
      generate_request user_input :: rest
    /\ Forall carries_user_prompt rest.
Proof.
  unfold requests_of, improve_request, analyze_request.
  destruct use_three_call; [|eexists; split; [reflexivity | constructor]].
  destruct (generate_step user_input log) as [primary|e];
    [|eexists; split; [reflexivity | constructor]].
  pose proof (build_request_user_prompt reviewer_system_prompt _ 45
                (improvement_prompt_nonempty user_input primary)) as I.
  destruct (improve_step user_input primary log) as [improved|e];
    [|eexists; split; [reflexivity | now repeat constructor]].
  pose proof (build_request_user_prompt analyst_system_prompt _ 30
                (get_assumptions_prompt_nonempty user_input improved)) as A.
  eexists; split; [reflexivity | now repeat constructor].
Qed.

(** C9, amended.  [get_response] posts its input as the user prompt of
    the step-1 request, as it is: for a non-empty input every request of
    the run, in any mode and at each of the three steps, carries a
    non-empty user prompt in its user-role message; for the empty input,
    which [get_response] accepts, the step-1 request carries an empty
    one.  The requests of steps 2 and 3 carry a non-empty prompt
    whatever the input, and a prompt the user interface submits is never
    empty. *)
Theorem requests_carry_user_prompt (user_input : string)
    (use_two_call use_three_call : bool) (log : list Request) :
  exists first rest,
    snd (get_response user_input use_two_call use_three_call log) =
      (log ++ first :: rest)%list
    /\ user_prompt_of first = Some user_input
    /\ Forall carries_user_prompt rest
    /\ (user_input <> "" -> Forall carries_user_prompt (first :: rest))
    /\ (user_input = "" -> ~ carries_user_prompt first)
    /\ (forall ev, submitted_prompt ev = Some user_input -> user_input <> "").
Proof.
  destruct (requests_of_shape user_input use_three_call log)
    as [rest [Hreq Hrest]].
  exists (generate_request user_input), rest.
  split; [rewrite get_response_log, Hreq; reflexivity|].
  split; [reflexivity|].
  split; [exact Hrest|].
  split; [|split].
  - intros Hne. constructor; [|exact Hrest].
    now apply build_request_user_prompt.
  - intros -> [p [Hp Hne]]. cbn in Hp.
    injection Hp as <-. now apply Hne.
  - intros ev. apply submitted_prompt_nonempty.
Qed.

(** C10.  [get_response] never raises: whatever the input, the flags and
    the behaviour of the endpoint, it returns a value.  In the three-call
    mode the value is a text; in the one-call mode it is the apology or
    the content the single call returned. *)
Theorem get_response_never_raises (user_input : string)
    (use_two_call use_three_call : bool) (log : list Request) :
  exists v,
    fst (get_response user_input use_two_call use_three_call log) = Returns v
    /\ (use_three_call = true -> exists s, v = JString s)
    /\ (use_three_call = false ->
        v = JString apology \/
        fst (make_api_call get_solidity_expert_prompt user_input 30 log) =
          Returns v).
Proof.
  destruct use_three_call.
  - rewrite get_response_three_run, three_call_run.
    destruct (generate_step user_input log) as [primary|e].
    + destruct (improve_step user_input primary log) as [improved|e].
      * cbv zeta.
        destruct (render_step user_input primary improved log);
          eexists; (split; [reflexivity|]); (split; [eexists; reflexivity|]);
          discriminate.
      * eexists; (split; [reflexivity|]); (split; [eexists; reflexivity|]);
          discriminate.
    + eexists; (split; [reflexivity|]); (split; [eexists; reflexivity|]);
        discriminate.
  - rewrite get_response_single_run.
    fold (generate_step user_input log).
    destruct (generate_step user_input log) as [v|e];
      eexists; (split; [reflexivity|]); (split; [discriminate|]); intros _;
      [right | left]; reflexivity.
Qed.

(** ** Further properties *)

(** *** The transport client, case by case *)

Lemma extract_content_returns (text : string) (v : json) :
  extract_content text = Returns v ->
  exists d, json_loads text = Returns d
            /\ content_at_path d = Some v /\ sliceable v = true.
Proof.
  unfold extract_content.
  destruct (json_loads text) as [d|e]; [|discriminate].
  intros H. exists d. split; [reflexivity|]. revert H.
  unfold content_at_path, Py.getitem_key, Py.getitem_0, Py.len, Py.slice_to,
    sliceable, obind.
  repeat (case_on_match; cbn beta iota; try discriminate);
    intros [= <-]; split; congruence.
Qed.

Lemma extract_content_sliceable (text : string) (d v : json) :
  json_loads text = Returns d ->
  content_at_path d = Some v ->
  sliceable v = true ->
  extract_content text = Returns v.
Proof.
  intros Hd. unfold extract_content, content_at_path. rewrite Hd.
  unfold Py.getitem_key, Py.getitem_0, obind.
  repeat (case_on_match; cbn beta iota; try discriminate);
    intros [= ->]; destruct v; simpl in *; congruence.
Qed.

(** X1.  [make_api_call] returns exactly when the response has status
    200, its body decodes, the path [choices[0].message.content] is
    present and the content there is a text or a list; it then returns
    that content, unchanged. *)
Theorem make_api_call_returns_iff
    (system_prompt user_prompt : string) (t : Z) (log : list Request)
    (v : json) :
  fst (make_api_call system_prompt user_prompt t log) = Returns v <->
  exists text d,
    net log (build_request system_prompt user_prompt t) = Response 200 text
    /\ json_loads text = Returns d
    /\ content_at_path d = Some v
    /\ sliceable v = true.
Proof.
  unfold make_api_call, session_post.
  destruct (net log (build_request system_prompt user_prompt t))
    as [err|status text]; cbn [fst].
  - split; [discriminate | intros [text [d [H _]]]; discriminate].
  - destruct (Z.eqb_spec status 200) as [->|Hne]; cbn [fst].
    + split.
      * intros H. destruct (extract_content_returns text v H) as [d Hd].
        exists text, d. now split.
      * intros [text' [d [[= <-] [Hd [Hp Hs]]]]].
        exact (extract_content_sliceable text d v Hd Hp Hs).
    + split; [discriminate | intros [text' [d [[= E _] _]]]; now elim Hne].
Qed.

(** X2.  With status 200, a body that does not decode makes
    [make_api_call] raise the decode error itself (and a body whose
    decoding meets a limit of the interpreter, the exception of that
    limit), and a content that is null, a boolean or a number makes it
    raise [TypeError] although the path is present: the logging line
    takes [len(content)]. *)
Theorem make_api_call_200_failures
    (system_prompt user_prompt : string) (t : Z) (log : list Request)
    (text : string) :
  net log (build_request system_prompt user_prompt t) = Response 200 text ->
  (json_loads text = Raises JSONDecodeError ->
   fst (make_api_call system_prompt user_prompt t log) = Raises JSONDecodeError)
  /\ (forall e,
        json_loads text = Raises e ->
        fst (make_api_call system_prompt user_prompt t log) = Raises e)
  /\ (forall d v,
        json_loads text = Returns d ->
        content_at_path d = Some v ->
        has_len v = false ->
        fst (make_api_call system_prompt user_prompt t log) = Raises TypeError).
Proof.
  intros Hnet. unfold make_api_call, session_post. rewrite Hnet.
  cbn [Z.eqb Pos.eqb fst]. unfold extract_content. split; [|split].
  - intros ->. reflexivity.
  - intros e ->. reflexivity.
  - intros d v -> Hp Hl. revert Hp.
    unfold content_at_path, Py.getitem_key, Py.getitem_0, obind.
    repeat (case_on_match; cbn beta iota; try discriminate);
      intros [= ->]; destruct v; simpl in *; congruence.
Qed.

(** *** The parser, case by case *)

Lemma joined_lines_joinable (d : dict) (k : string) :
  if field_joinable d k
  then exists t, joined_lines (JObject d) k = Returns t
  else joined_lines (JObject d) k = Raises TypeError.
Proof.
  unfold field_joinable, joinable, joined_lines, Py.get, Py.str_join, obind.
  destruct (dict_get k d) as [[| | | |l|]|]; try reflexivity;
    try (eexists; reflexivity).
  destruct (Py.all_str l); [eexists|]; reflexivity.
Qed.

(** X3.  What [parse_assumptions_response] does with a text, in full: a
    text on which the decoder raises its decode error gives the failure
    marker twice; a text whose decoding meets a limit of the interpreter
    raises the exception of that limit, [ValueError] or
    [RecursionError]; a text that decodes to anything but an object
    raises [AttributeError]; an object whose three fields are each
    missing or joinable gives two fields; an object with a field that is
    null, a boolean, a number or a list with an entry that is not a text
    raises [TypeError]. *)
Theorem parse_assumptions_response_cases (s : string) :
  match json_loads s with
  | Raises e =>
      if is_JSONDecodeError e
      then parse_assumptions_response (JString s) =
             Returns (parse_failure_marker, parse_failure_marker)
      else parse_assumptions_response (JString s) = Raises e
           /\ (e = ValueError \/ e = RecursionError)
  | Returns (JObject d) =>
      if field_joinable d "technical_assumptions"
         && field_joinable d "security_assumptions"
         && field_joinable d "implementation_assumptions"
      then exists technical security,
             parse_assumptions_response (JString s) =
               Returns (technical, security)
      else parse_assumptions_response (JString s) = Raises TypeError
  | Returns _ =>
      parse_assumptions_response (JString s) = Raises AttributeError
  end.
Proof.
  rewrite parse_assumptions_response_fields. unfold Py.json_loads_value.
  destruct (json_loads s) as [[| | | | |d]|e] eqn:Hs; try reflexivity.
  - pose proof (joined_lines_joinable d "technical_assumptions") as Ht.
    pose proof (joined_lines_joinable d "security_assumptions") as Hsec.
    pose proof (joined_lines_joinable d "implementation_assumptions") as Hi.
    destruct (field_joinable d "technical_assumptions");
      [destruct Ht as [t ->] | now rewrite Ht].
    destruct (field_joinable d "security_assumptions");
      [destruct Hsec as [u ->] | now rewrite Hsec].
    destruct (field_joinable d "implementation_assumptions");
      [destruct Hi as [i ->] | now rewrite Hi].
    simpl. eexists _, _. reflexivity.
  - destruct (json_loads_raises _ _ Hs) as [-> | [-> | ->]]; cbn; auto.
Qed.

(** *** Texts inside texts *)

Lemma length_append (a b : string) :
  String.length (a ++ b) = (String.length a + String.length b)%nat.
Proof. induction a as [|c a IH]; simpl; [reflexivity | now rewrite IH]. Qed.

Lemma append_assoc (a b c : string) : (a ++ b) ++ c = a ++ b ++ c.
Proof. induction a as [|x a IH]; simpl; [reflexivity | now rewrite IH]. Qed.

Lemma substring_here (p s : string) : Substring p (p ++ s).
Proof. exists EmptyString, s. reflexivity. Qed.

Lemma substring_later (p a s : string) : Substring p s -> Substring p (a ++ s).
Proof.
  intros [pre [post ->]]. exists (a ++ pre), post.
  induction a as [|c a IH]; simpl; [reflexivity | now rewrite IH].
Qed.

Lemma final_response_not_apology (improved : json) (technical security : string) :
  final_response improved technical security <> apology.
Proof.
  intros H. apply (f_equal String.length) in H.
  unfold final_response in H. rewrite !length_append in H.
  change (String.length completion_banner) with 276%nat in H.
  change (String.length apology) with 48%nat in H.
  lia.
Qed.

(** *** The orchestrator, beyond the claims *)

(** X4.  In the three-call mode [get_response] returns the apology
    exactly when the step-1 call raised, or the step-2 call raised, or
    both returned and one of the Streamlit calls that draw the results
    raised: no run that gets past those, and no failure of step 3, ever
    yields the apology. *)
Theorem get_response_apology_iff
    (user_input : string) (use_two_call : bool) (log : list Request) :
  fst (get_response user_input use_two_call true log) =
    Returns (JString apology)
  <->
  (exists e, generate_step user_input log = Raises e) \/
  (exists primary e,
     generate_step user_input log = Returns primary /\
     improve_step user_input primary log = Raises e) \/
  (exists primary improved e,
     generate_step user_input log = Returns primary /\
     improve_step user_input primary log = Returns improved /\
     render_step user_input primary improved log = Raises e).
Proof.
  rewrite get_response_three_run, three_call_run.
  destruct (generate_step user_input log) as [primary|e1].
  - destruct (improve_step user_input primary log) as [improved|e2] eqn:E2.
    + cbv zeta. cbn [fst].
      destruct (render_step user_input primary improved log) as [u|e3] eqn:E3.
      * split.
        -- intros [= H]. now apply final_response_not_apology in H.
        -- intros [[e H] | [[p [e [[= <-] H]]] | [p [i [e [[= <-] [Hi Hr]]]]]]];
             [discriminate | congruence | congruence].
      * split; [|reflexivity].
        intros _. right. right. exists primary, improved, e3. auto.
    + cbn [fst]. split; [|reflexivity].
      intros _. right. left. exists primary, e2. now split.
  - split; [|reflexivity].
    intros _. left. now exists e1.
Qed.

(** X5.  The prompts chain: in a three-call run whose first two steps
    return, exactly three requests are made; they carry the expert, the
    reviewer and the analyst system prompt; the first user message is
    the user's input itself, the second holds the input and the step-1
    output word for word, and the third holds the input and the step-2
    output word for word. *)
Theorem three_call_prompts_chain
    (user_input : string) (use_two_call : bool) (log : list Request)
    (primary improved : json) :
  generate_step user_input log = Returns primary ->
  improve_step user_input primary log = Returns improved ->
  exists r1 r2 r3 p2 p3,
    snd (get_response user_input use_two_call true log) =
      (log ++ [r1; r2; r3])%list
    /\ map system_prompt_of [r1; r2; r3] =
         [Some get_solidity_expert_prompt; Some reviewer_system_prompt;
          Some analyst_system_prompt]
    /\ map user_prompt_of [r1; r2; r3] = [Some user_input; Some p2; Some p3]
    /\ Substring user_input p2 /\ Substring (py_str primary) p2
    /\ Substring user_input p3 /\ Substring (py_str improved) p3.
Proof.
  intros H1 H2.
  exists (generate_request user_input), (improve_request user_input primary),
    (analyze_request user_input improved),
    (improvement_prompt user_input primary),
    (get_assumptions_prompt user_input improved).
  split.
  { rewrite get_response_log. unfold requests_of. now rewrite H1, H2. }
  split; [reflexivity|]. split; [reflexivity|].
  unfold improvement_prompt, get_assumptions_prompt.
  repeat split.
  - apply substring_later, substring_here.
  - do 3 apply substring_later. apply substring_here.
  - apply substring_later, substring_here.
  - do 3 apply substring_later. apply substring_here.
Qed.

(** *** The constructor *)

Lemma requests_of_built (user_input : string) (use_three_call : bool)
    (log : list Request) :
  Forall (fun r => exists sp up t, r = build_request sp up t)
         (requests_of user_input use_three_call log).
Proof.
  unfold requests_of, generate_request, improve_request, analyze_request.
  destruct use_three_call;
    [destruct (generate_step user_input log) as [primary|e];
     [destruct (improve_step user_input primary log)|]|];
    repeat constructor; eexists _, _, _; reflexivity.
Qed.

(** X6.  The constructor halts exactly when [FIREWORKS_API_KEY] is unset
    or empty.  When it builds the client, every request [get_response]
    makes carries [Bearer] and that key, which is not empty, goes to the
    configured base URL (the default when the variable is unset) followed
    by [/chat/completions], and names the configured model. *)
Theorem SolidityCopilot_init_requests (env : Env) :
  (SolidityCopilot_init env = None <->
   env "FIREWORKS_API_KEY" = None \/
   env "FIREWORKS_API_KEY" = Some EmptyString)
  /\ (SolidityCopilot_init env = Some cfg ->
      forall user_input use_two_call use_three_call log,
      exists key requests,
        env "FIREWORKS_API_KEY" = Some key /\ key <> EmptyString
        /\ snd (get_response user_input use_two_call use_three_call log) =
             (log ++ requests)%list
        /\ Forall (fun r =>
                     authorization_of r = Some ("Bearer " ++ key)
                     /\ url r = getenv env "FIREWORKS_BASE_URL" default_base_url
                                  ++ "/chat/completions"
                     /\ model (body r) =
                          getenv env
                            "_FIREWORKS_DEDICATED_GPT_OSS_120B_MODEL_NAME"
                            default_model_name)
                  requests).
Proof.
  unfold SolidityCopilot_init. split.
  - destruct (env "FIREWORKS_API_KEY") as [[|c k]|]; simpl.
    + split; [now right | reflexivity].
    + split; [discriminate | intros [H|H]; discriminate].
    + split; [now left | reflexivity].
  - destruct (env "FIREWORKS_API_KEY") as [[|c k]|]; simpl; try discriminate.
    intros [= Hcfg] user_input use_two_call use_three_call log.
    exists (String c k), (requests_of user_input use_three_call log).
    split; [reflexivity|]. split; [discriminate|].
    split; [apply get_response_log|].
    eapply Forall_impl; [|apply requests_of_built].
    intros r [sp [up [t ->]]].
    unfold authorization_of, build_request, request_headers, request_data.
    cbn [headers url body model find fst snd String.eqb Ascii.eqb Bool.eqb].
    rewrite <- Hcfg. cbn [api_key base_url model_name].
    repeat split.
Qed.

(** *** The chat history *)

Lemma get_response_three_text (user_input : string) (use_two_call : bool)
    (log : list Request) :
  exists answer log',
    get_response user_input use_two_call true log =
      (Returns (JString answer), log').
Proof.
  rewrite get_response_three_run, three_call_run.
  destruct (generate_step user_input log) as [primary|e];
    [|eexists _, _; reflexivity].
  destruct (improve_step user_input primary log) as [improved|e];
    [|eexists _, _; reflexivity].
  cbv zeta.
  destruct (render_step user_input primary improved log);
    eexists _, _; reflexivity.
Qed.

(** One run of [main]: what becomes of the history. *)
Lemma main_run (ss : SessionState) (ev : UiEvent) (log : list Request) :
  exists ss' log',
    main ss ev log = (Returns ss', log')
    /\ ((ev = ClearChat /\ chat ss' = [])
        \/ (ev <> ClearChat /\ submitted_prompt ev = None
            /\ chat ss' = chat ss)
        \/ (exists prompt answer,
              submitted_prompt ev = Some prompt
              /\ chat ss' = (chat ss ++ [("user", JString prompt);
                                         ("assistant", JString answer)])%list)).
Proof.
  destruct (submitted_prompt ev) as [prompt|] eqn:Hp.
  - destruct (get_response_three_text prompt false log) as [answer [log' Hr]].
    assert (Hm : main ss ev log =
                 bind (get_response prompt false true)
                   (fun response =>
                      ret {| chat := (chat ss ++ [("user", JString prompt);
                                                  ("assistant", response)])%list;
                             use_two_call := false;
                             use_three_call := true;
                             show_flow_visualization := true |}) log).
    { unfold main. destruct ev; try discriminate;
        cbn [sidebar use_two_call use_three_call show_flow_visualization chat];
        rewrite Hp; reflexivity. }
    rewrite Hm. unfold bind. rewrite Hr.
    eexists _, _. split; [reflexivity|].
    right. right. exists prompt, answer. split; reflexivity.
  - unfold main. destruct ev; try discriminate; try rewrite Hp;
      eexists _, _; (split; [reflexivity|]);
      try (left; split; reflexivity);
      right; left; (split; [discriminate|]); split; reflexivity.
Qed.

Lemma alternating_append (a b : list (string * json)) :
  alternating a -> alternating b -> alternating (a ++ b)%list.
Proof.
  revert a.
  refine (fix go (a : list (string * json)) := _).
  destruct a as [|[r1 c1] [|[r2 c2] rest]]; simpl; intros Ha Hb.
  - exact Hb.
  - contradiction.
  - destruct Ha as [H1 [H2 [H3 [H4 Hrest]]]].
    repeat split; try assumption. apply go; assumption.
Qed.

(** A session without a press of the clear button only adds to the
    history: two entries for each submitted prompt. *)
Lemma session_appends (events : list UiEvent) :
  ~ In ClearChat events ->
  forall (ss : SessionState) (log : list Request),
  exists ss' log' new,
    run_session events ss log = (Returns ss', log')
    /\ chat ss' = (chat ss ++ new)%list
    /\ List.length new = (2 * submissions events)%nat
    /\ alternating new.
Proof.
  induction events as [|ev events IH]; intros Hclear ss log.
  - exists ss, log, []. repeat split. now rewrite app_nil_r.
  - assert (Hev : ev <> ClearChat) by (intros ->; apply Hclear; now left).
    assert (Hrest : ~ In ClearChat events)
      by (intros H; apply Hclear; now right).
    destruct (main_run ss ev log) as [ss1 [log1 [Hm Hc]]].
    destruct (IH Hrest ss1 log1) as [ss2 [log2 [new [Hr [Hchat [Hlen Halt]]]]]].
    cbn [run_session]. unfold bind. rewrite Hm, Hr.
    unfold submissions in *. cbn [filter].
    destruct Hc as [[Hc _] | [[_ [Hp Hc]] | [prompt [answer [Hp Hc]]]]].
    + contradiction.
    + exists ss2, log2, new. rewrite Hp.
      repeat split; try assumption. now rewrite Hchat, Hc.
    + exists ss2, log2,
        ([("user", JString prompt); ("assistant", JString answer)] ++ new)%list.
      rewrite Hp. repeat split.
      * rewrite Hchat, Hc, <- app_assoc. reflexivity.
      * cbn [List.length app]. rewrite Hlen. lia.
      * eexists; reflexivity.
      * eexists; reflexivity.
      * exact Halt.
Qed.

(** X7.  The history only grows while the clear button is not pressed:
    after a session of such runs it is the earlier history followed by
    two entries for each submitted prompt, a user text and then an
    assistant text; an alternating history stays alternating. *)
Theorem session_history_grows (events : list UiEvent) (ss : SessionState)
    (log : list Request) :
  ~ In ClearChat events ->
  exists ss' new,
    fst (run_session events ss log) = Returns ss'
    /\ chat ss' = (chat ss ++ new)%list
    /\ List.length new = (2 * submissions events)%nat
    /\ alternating new
    /\ (alternating (chat ss) -> alternating (chat ss')).
Proof.
  intros Hclear.
  destruct (session_appends events Hclear ss log)
    as [ss' [log' [new [Hr [Hchat [Hlen Halt]]]]]].
  exists ss', new. rewrite Hr. repeat split; try assumption.
  intros Hss. rewrite Hchat. now apply alternating_append.
Qed.

(** X8.  Pressing the clear button empties the history, whatever it
    held: after the press and [events] further runs without a press the
    history has exactly two entries for each prompt submitted since, in
    alternating order. *)
Theorem session_history_cleared (events : list UiEvent) (ss : SessionState)
    (log : list Request) :
  ~ In ClearChat events ->
  exists ss',
    fst (run_session (ClearChat :: events) ss log) = Returns ss'
    /\ List.length (chat ss') = (2 * submissions events)%nat
    /\ alternating (chat ss').
Proof.
  intros Hclear.
  cbn [run_session]. unfold bind.
  change (main ss ClearChat log)
    with (Returns {| chat := [];
                     use_two_call := false;
                     use_three_call := true;
                     show_flow_visualization := true |}, log).
  cbn beta iota.
  destruct (session_appends events Hclear
              {| chat := [];
                 use_two_call := false;
                 use_three_call := true;
                 show_flow_visualization := true |} log)
    as [ss' [log' [new [Hr [Hchat [Hlen Halt]]]]]].
  exists ss'. rewrite Hr. cbn [chat app] in Hchat. rewrite Hchat.
  repeat split; assumption.
Qed.

(** *** [_detect_multiple_files] *)

Lemma count_from_contains (fuel : nat) (sub s : string) :
  (0 < count_from fuel sub s)%nat -> contains sub s = true.
Proof.
  revert s. induction fuel as [|f IH]; intros s; simpl; [lia|].
  destruct s as [|c r]; [lia|].
  rewrite contains_unfold.
  destruct (String.prefix sub (String c r)); [reflexivity|].
  intros H. rewrite (IH r H). apply orb_true_r.
Qed.

Lemma py_count_contains (s sub : string) :
  sub <> EmptyString -> (0 < py_count s sub)%nat -> contains sub s = true.
Proof.
  unfold py_count. destruct sub; [congruence|].
  intros _. apply count_from_contains.
Qed.

(** X9.  [_detect_multiple_files] answers whether the lowered text holds
    one of the six markers, and nothing more: the count of definitions
    never changes the answer.  So a text that names a single contract is
    already reported as holding several files. *)
Theorem detect_multiple_files_markers (response_text : string) :
  let lowered := py_lower response_text in
  _detect_multiple_files response_text =
    (contains "contract " lowered
     || contains "pragma solidity" lowered
     || contains "// file:" lowered
     || contains "// contract:" lowered
     || contains "interface " lowered
     || contains "library " lowered)
  /\ (contains "contract " lowered = true ->
      _detect_multiple_files response_text = true).
Proof.
  intros lowered. unfold _detect_multiple_files. fold lowered.
  cbn [existsb].
  pose proof (py_count_contains lowered "contract ") as Hc.
  pose proof (py_count_contains lowered "interface ") as Hi.
  pose proof (py_count_contains lowered "library ") as Hl.
  destruct (Nat.ltb_spec 1 (py_count lowered "contract "
                            + py_count lowered "interface "
                            + py_count lowered "library ")) as [Hgt|Hle].
  - assert (H : contains "contract " lowered = true
                \/ contains "interface " lowered = true
                \/ contains "library " lowered = true).
    { destruct (py_count lowered "contract ") eqn:E1;
        [|left; apply Hc; [discriminate | lia]].
      destruct (py_count lowered "interface ") eqn:E2;
        [|right; left; apply Hi; [discriminate | lia]].
      right; right; apply Hl; [discriminate | lia]. }
    split.
    + destruct H as [H|[H|H]]; rewrite H; cbn [orb];
        rewrite ?orb_true_r; reflexivity.
    + reflexivity.
  - cbn [orb]. split.
    + rewrite orb_false_r, !orb_assoc. reflexivity.
    + intros ->. reflexivity.
Qed.

(** *** The assumptions expander *)

Lemma truthy_iff (s : string) : truthy s = true <-> s <> EmptyString.
Proof. destruct s; simpl; split; congruence. Qed.

Lemma rows_from_spec (items : list string) (k i : nat) (t : string) :
  In (i, t) (rows_from k items) <->
  (k <= i)%nat
  /\ exists l, nth_error items (i - k) = Some l
               /\ t = py_strip l /\ t <> EmptyString.
Proof.
  revert k. induction items as [|a r IH]; intros k.
  - simpl. split; [contradiction|].
    intros [_ [l [H _]]]. now destruct (i - k)%nat.
  - assert (Htail : In (i, t) (rows_from (S k) r) <->
                    (k < i)%nat
                    /\ exists l, nth_error (a :: r) (i - k) = Some l
                                 /\ t = py_strip l /\ t <> EmptyString).
    { rewrite IH. split.
      - intros [Hle [l Hl]]. split; [lia|]. exists l.
        replace (i - k)%nat with (S (i - S k)) by lia. exact Hl.
      - intros [Hlt [l Hl]]. split; [lia|]. exists l.
        replace (i - k)%nat with (S (i - S k)) in Hl by lia. exact Hl. }
    cbn [rows_from].
    destruct (truthy (py_strip a)) eqn:Ha.
    + cbn [In]. rewrite Htail. split.
      * intros [[= <- <-] | [Hlt H]].
        -- split; [lia|]. exists a. rewrite Nat.sub_diag.
           repeat split. now apply truthy_iff.
        -- split; [lia | exact H].
      * intros [Hle [l [Hn [Ht Hne]]]].
        destruct (Nat.eq_dec i k) as [->|Hik].
        -- left. rewrite Nat.sub_diag in Hn. injection Hn as <-.
           now subst t.
        -- right. split; [lia|]. now exists l.
    + rewrite Htail. split.
      * intros [Hlt H]. split; [lia | exact H].
      * intros [Hle [l [Hn [Ht Hne]]]]. split; [|now exists l].
        destruct (Nat.eq_dec i k) as [->|Hik]; [|lia].
        rewrite Nat.sub_diag in Hn. injection Hn as <-. subst t.
        apply truthy_iff in Hne. congruence.
Qed.

Lemma rows_from_sorted (items : list string) (k : nat) :
  StronglySorted lt (map fst (rows_from k items)).
Proof.
  revert k. induction items as [|a r IH]; intros k; cbn [rows_from].
  - constructor.
  - destruct (truthy (py_strip a)); [|apply IH].
    cbn [map fst]. constructor; [apply IH|].
    apply Forall_forall. intros i Hi.
    apply in_map_iff in Hi. destruct Hi as [[i' t] [<- Hin]].
    apply rows_from_spec in Hin. cbn [fst]. lia.
Qed.

Lemma rows_from_nonempty (items : list string) (k : nat) :
  existsb (fun item => truthy (py_strip item)) items = true ->
  rows_from k items <> [].
Proof.
  revert k. induction items as [|a r IH]; intros k; cbn [existsb rows_from].
  - discriminate.
  - destruct (truthy (py_strip a)); [discriminate | apply IH].
Qed.

Lemma rows_from_blank (items : list string) (k : nat) :
  existsb (fun item => truthy (py_strip item)) items = false ->
  rows_from k items = [].
Proof.
  revert k. induction items as [|a r IH]; intros k; cbn [existsb rows_from].
  - reflexivity.
  - destruct (truthy (py_strip a)); [discriminate | apply IH].
Qed.

Lemma py_split_nl_nonempty (s : string) : py_split_nl s <> [].
Proof.
  induction s as [|c r IH]; cbn [py_split_nl]; [discriminate|].
  destruct (is_char c nl_char); [discriminate|].
  destruct (py_split_nl r); [congruence | discriminate].
Qed.

Lemma py_split_nl_append (a b : string) :
  py_split_nl (a ++ nl ++ b) = (py_split_nl a ++ py_split_nl b)%list.
Proof.
  induction a as [|c a IH].
  - reflexivity.
  - change (String c a ++ nl ++ b) with (String c (a ++ nl ++ b)).
    cbn [py_split_nl]. rewrite IH.
    destruct (is_char c nl_char); [reflexivity|].
    pose proof (py_split_nl_nonempty a) as Hne.
    destruct (py_split_nl a) as [|h t]; [congruence | reflexivity].
Qed.

Lemma assumption_list_empty (field : string) :
  assumption_list field = [] <-> field = EmptyString.
Proof.
  unfold assumption_list. destruct field as [|c r]; cbn [truthy].
  - split; reflexivity.
  - split; [|discriminate].
    intros H. now apply py_split_nl_nonempty in H.
Qed.

(** X10.  The rows of an assumptions table are the lines that are not
    blank, each with its text stripped and with its 1-based position in
    the list of all lines as its ID; the IDs increase strictly down the
    table. *)
Theorem table_rows_spec (items : list string) :
  (forall (i : nat) (t : string),
     In (i, t) (table_rows items) <->
     (1 <= i)%nat
     /\ exists line, nth_error items (i - 1) = Some line
                     /\ t = py_strip line /\ t <> EmptyString)
  /\ StronglySorted lt (map fst (table_rows items)).
Proof.
  split.
  - intros i t. apply rows_from_spec.
  - apply rows_from_sorted.
Qed.

Lemma all_blank_existsb (field : string) :
  all_blank field ->
  existsb (fun item => truthy (py_strip item)) (py_split_nl field) = false.
Proof.
  unfold all_blank. induction (py_split_nl field) as [|a r IH]; intros H.
  - reflexivity.
  - cbn [existsb]. rewrite (H a (or_introl eq_refl)). cbn [truthy orb].
    apply IH. intros line Hl. apply H. now right.
Qed.

Lemma assumptions_section_blank (heading field : string) :
  field = EmptyString \/ all_blank field ->
  assumptions_section heading (assumption_list field) = [].
Proof.
  unfold assumptions_section, assumption_list.
  intros [->|Hb]; [reflexivity|].
  destruct (truthy field); [|reflexivity].
  rewrite (all_blank_existsb field Hb). now rewrite andb_false_r.
Qed.

(** X11.  In the expander a section heading never stands alone: a
    section is absent, or it is its heading followed by a table with at
    least one row.  The note that no assumptions were identified shows
    exactly when both fields are empty.  So when a field holds blank
    lines only and the other is empty or blank too, the expander shows
    its title and nothing else. *)
Theorem assumptions_expander_cases :
  (forall heading items,
     assumptions_section heading items = []
     \/ (table_rows items <> []
         /\ assumptions_section heading items =
              [Markdown heading; Table (table_rows items)]))
  /\ (forall technical security,
        In (Info "No specific assumptions identified in the generated code.")
           (assumptions_expander technical security)
        <-> technical = EmptyString /\ security = EmptyString)
  /\ (forall technical security,
        technical <> EmptyString -> all_blank technical ->
        security = EmptyString \/ all_blank security ->
        assumptions_expander technical security =
          [Markdown "### 📋 **All Assumptions Made in Final Code**"]).
Proof.
  split; [|split].
  - intros heading items. unfold assumptions_section.
    destruct (nonempty items); [|now left].
    destruct (existsb _ items) eqn:He; [|now left].
    right. cbn [andb].
    pose proof (rows_from_nonempty items 1 He) as Hne.
    fold (table_rows items) in Hne. split; [exact Hne|].
    destruct (table_rows items); [congruence | reflexivity].
  - intros technical security. unfold assumptions_expander.
    assert (Hsec : forall heading items,
               ~ In (Info "No specific assumptions identified in the generated code.")
                    (assumptions_section heading items)).
    { intros heading items. unfold assumptions_section.
      destruct (nonempty items && existsb _ items); [|intros []].
      destruct (nonempty (table_rows items)); cbn [In];
        [intros [H|[H|[]]] | intros [H|[]]]; discriminate. }
    split.
    + cbn [In]. rewrite !in_app_iff.
      intros [H|[H|[H|H]]]; [discriminate | now apply Hsec in H
                             | now apply Hsec in H |].
      destruct (assumption_list technical) eqn:Et;
        destruct (assumption_list security) eqn:Es;
        cbn [nonempty negb andb In] in H; try contradiction.
      split; now apply assumption_list_empty.
    + intros [-> ->]. right. left. reflexivity.
  - intros technical security Hne Hbt Hbs. unfold assumptions_expander.
    rewrite (assumptions_section_blank _ technical (or_intror Hbt)),
      (assumptions_section_blank _ security Hbs).
    destruct (assumption_list technical) eqn:E.
    + apply assumption_list_empty in E. contradiction.
    + reflexivity.
Qed.

(** *** From the parser to the table *)

Lemma truthy_append (a : string) (c : ascii) (b : string) :
  truthy (a ++ String c b) = true.
Proof. destruct a; reflexivity. Qed.

(** X12.  When the reply names implementation assumptions, the parser
    folds them into the technical field under a label line, and the
    technical table then numbers that label as if it were an assumption:
    its row has the ID two past the number of technical lines. *)
Theorem implementation_label_row
    (s : string) (d : dict) (technical security implementation : list string) :
  json_loads s = Returns (JObject d) ->
  text_array d "technical_assumptions" = Some technical ->
  text_array d "security_assumptions" = Some security ->
  text_array d "implementation_assumptions" = Some implementation ->
  join nl implementation <> EmptyString ->
  exists technical_field security_field,
    parse_assumptions_response (JString s) =
      Returns (technical_field, security_field)
    /\ In (List.length (py_split_nl (join nl technical)) + 2,
           "Implementation Assumptions:")%nat
          (table_rows (assumption_list technical_field)).
Proof.
  intros Hs Ht Hsec Hi Hne.
  rewrite parse_assumptions_response_fields. unfold Py.json_loads_value.
  rewrite Hs, (joined_field _ _ _ Ht), (joined_field _ _ _ Hsec),
    (joined_field _ _ _ Hi).
  apply truthy_iff in Hne. rewrite Hne.
  eexists _, _. split; [reflexivity|].
  unfold assumption_list.
  change (nl ++ nl ++ "Implementation Assumptions:" ++ nl
             ++ join nl implementation)
    with (String nl_char
            (nl ++ "Implementation Assumptions:" ++ nl
                ++ join nl implementation)).
  rewrite truthy_append.
  change (String nl_char
            (nl ++ "Implementation Assumptions:" ++ nl
                ++ join nl implementation))
    with (nl ++ (EmptyString ++ nl
                   ++ ("Implementation Assumptions:" ++ nl
                         ++ join nl implementation))).
  rewrite !py_split_nl_append.
  apply rows_from_spec. split; [lia|].
  exists "Implementation Assumptions:".
  split; [|split; [vm_compute; reflexivity | discriminate]].
  rewrite nth_error_app2 by lia.
  replace (List.length (py_split_nl (join nl technical)) + 2 - 1
             - List.length (py_split_nl (join nl technical)))%nat
    with 1%nat by lia.
  reflexivity.
Qed.

(** *** Decoding what was written out *)

(** One escaped character costs the scanner one step. *)
Lemma scanstring_escape_char (c : ascii) (tail : string) (fuel : nat) :
  Decoder.scanstring (S fuel) (escape_char c ++ tail) =
  match Decoder.scanstring fuel tail with
  | None => None
  | Some (t, rest) => Some (String c t, rest)
  end.
Proof.
  destruct c as [b0 b1 b2 b3 b4 b5 b6 b7].
  destruct b0, b1, b2, b3, b4, b5, b6, b7; reflexivity.
Qed.

Lemma scanstring_json_escape (s rest : string) (fuel : nat) :
  (String.length s < fuel)%nat ->
  Decoder.scanstring fuel (json_escape s ++ dq ++ rest) = Some (s, rest).
Proof.
  revert fuel. induction s as [|c s IH]; intros fuel Hf.
  - destruct fuel as [|f]; [inversion Hf | reflexivity].
  - destruct fuel as [|f]; [inversion Hf|].
    cbn [json_escape]. rewrite append_assoc, scanstring_escape_char.
    rewrite IH by (simpl in Hf; lia). reflexivity.
Qed.

Lemma length_escape_char (c : ascii) : (1 <= String.length (escape_char c))%nat.
Proof.
  unfold escape_char.
  destruct (is_char c dq_char); [simpl; lia|].
  destruct (is_char c "\"); [simpl; lia|].
  destruct (code c <? 32)%N; simpl; lia.
Qed.

Lemma length_json_escape (s : string) :
  (String.length s <= String.length (json_escape s))%nat.
Proof.
  induction s as [|c s IH]; [reflexivity|].
  cbn [json_escape]. rewrite length_append.
  pose proof (length_escape_char c). simpl. lia.
Qed.

(** A written-out text is scanned back, whatever follows it. *)
Lemma scanstring_json_string (s rest : string) :
  Decoder.scanstring (String.length ((json_escape s ++ dq) ++ rest))
    ((json_escape s ++ dq) ++ rest) = Some (s, rest).
Proof.
  rewrite append_assoc. apply scanstring_json_escape.
  rewrite !length_append. pose proof (length_json_escape s). simpl. lia.
Qed.

Lemma scan_once_json_string (max_digits fuel depth : nat) (s rest : string) :
  Decoder.scan_once max_digits (S fuel) depth (json_string s ++ rest) =
    Decoder.Scanned (JString s) rest.
Proof.
  unfold json_string.
  change (String dq_char (json_escape s ++ dq) ++ rest)
    with (String dq_char ((json_escape s ++ dq) ++ rest)).
  cbn [Decoder.scan_once].
  change (is_char dq_char dq_char) with true. cbn beta iota.
  now rewrite scanstring_json_string.
Qed.

(** *** White space and delimiters *)

Lemma skip_ws_blank (g rest : string) :
  blank g = true -> Decoder.skip_ws (g ++ rest) = Decoder.skip_ws rest.
Proof.
  induction g as [|c g IH]; [reflexivity|].
  cbn [blank]. intros H. apply andb_true_iff in H as [Hc Hg].
  cbn [append Decoder.skip_ws]. rewrite Hc. exact (IH Hg).
Qed.

Lemma skip_ws_token (g : string) (c : ascii) (rest : string) :
  blank g = true -> Decoder.is_ws c = false ->
  Decoder.skip_ws (g ++ String c rest) = String c rest.
Proof.
  intros Hg Hc. rewrite skip_ws_blank by exact Hg.
  cbn [Decoder.skip_ws]. now rewrite Hc.
Qed.

Lemma skip_ws_all (g : string) :
  blank g = true -> Decoder.skip_ws g = EmptyString.
Proof.
  induction g as [|c g IH]; [reflexivity|].
  cbn [blank]. intros H. apply andb_true_iff in H as [Hc Hg].
  cbn [Decoder.skip_ws]. rewrite Hc. exact (IH Hg).
Qed.

Lemma delimited_blank (g rest : string) :
  blank g = true -> delimited rest = true -> delimited (g ++ rest) = true.
Proof.
  destruct g as [|c g]; [intros _ H; exact H|].
  cbn [blank]. intros H _. apply andb_true_iff in H as [Hc _].
  cbn [append delimited]. now rewrite Hc.
Qed.

(** *** Numbers *)

Lemma digit_facts (c : ascii) :
  Decoder.is_digit c = true ->
  is_char "n" c = false /\ is_char "t" c = false /\ is_char "f" c = false
  /\ is_char c dq_char = false /\ is_char c "{" = false
  /\ is_char c "[" = false /\ is_char c "-" = false
  /\ is_char c "]" = false /\ is_char c "}" = false
  /\ Decoder.is_ws c = false.
Proof.
  destruct c as [b0 b1 b2 b3 b4 b5 b6 b7].
  destruct b0, b1, b2, b3, b4, b5, b6, b7; vm_compute;
    intros H; try discriminate H; repeat split; reflexivity.
Qed.

(** A delimiter continues no number. *)
Lemma delimited_facts (c : ascii) (r : string) :
  delimited (String c r) = true ->
  Decoder.is_digit c = false /\ is_char c "." = false
  /\ is_char c "e" = false /\ is_char c "E" = false.
Proof.
  cbn [delimited].
  destruct c as [b0 b1 b2 b3 b4 b5 b6 b7].
  destruct b0, b1, b2, b3, b4, b5, b6, b7; vm_compute;
    intros H; try discriminate H; repeat split; reflexivity.
Qed.

Lemma take_digits_all (n rest : string) :
  all_digits n = true -> delimited rest = true ->
  Decoder.take_digits (n ++ rest) = (n, rest).
Proof.
  intros Hn Hrest. induction n as [|c n IH].
  - destruct rest as [|c r]; [reflexivity|].
    destruct (delimited_facts c r Hrest) as [Hd _].
    cbn [append Decoder.take_digits]. now rewrite Hd.
  - cbn [all_digits] in Hn. apply andb_true_iff in Hn as [Hc Hn].
    cbn [append Decoder.take_digits]. rewrite Hc, (IH Hn). reflexivity.
Qed.

Lemma scan_frac_delimited (rest : string) :
  delimited rest = true -> Decoder.scan_frac rest = (EmptyString, rest).
Proof.
  destruct rest as [|c r]; [reflexivity|]. intros H.
  destruct (delimited_facts c r H) as [_ [Hp _]].
  unfold Decoder.scan_frac. now rewrite Hp.
Qed.

Lemma scan_exp_delimited (rest : string) :
  delimited rest = true -> Decoder.scan_exp rest = (EmptyString, rest).
Proof.
  destruct rest as [|c r]; [reflexivity|]. intros H.
  destruct (delimited_facts c r H) as [_ [_ [He HE]]].
  unfold Decoder.scan_exp. now rewrite He, HE.
Qed.

Lemma append_empty (s : string) : s ++ EmptyString = s.
Proof. induction s as [|c s IH]; [reflexivity | simpl; now rewrite IH]. Qed.

Lemma scan_number_plain_int (n rest : string) :
  plain_int n = true -> delimited rest = true ->
  Decoder.scan_number (n ++ rest) = Some (n, rest).
Proof.
  destruct n as [|c r]; [discriminate|].
  unfold plain_int. intros H Hrest.
  apply andb_true_iff in H as [H _].
  apply orb_true_iff in H as [H|H].
  - apply String.eqb_eq in H. injection H as -> ->.
    unfold Decoder.scan_number. cbn [append].
    change (is_char "0" "-") with false. cbn iota.
    unfold Decoder.scan_int. change (is_char "0" "0") with true. cbn iota.
    rewrite (scan_frac_delimited _ Hrest), (scan_exp_delimited _ Hrest).
    reflexivity.
  - apply andb_true_iff in H as [H Hr].
    apply andb_true_iff in H as [Hc Hz].
    apply negb_true_iff in Hz.
    destruct (digit_facts c Hc) as [_ [_ [_ [_ [_ [_ [Hm _]]]]]]].
    unfold Decoder.scan_number. cbn [append]. rewrite Hm.
    unfold Decoder.scan_int. rewrite Hz, Hc.
    change (String c (r ++ rest)) with (String c r ++ rest).
    assert (Hall : all_digits (String c r) = true)
      by (cbn [all_digits]; now rewrite Hc, Hr).
    rewrite (take_digits_all (String c r) rest Hall Hrest).
    rewrite (scan_frac_delimited _ Hrest), (scan_exp_delimited _ Hrest).
    cbn [append]. now rewrite !append_empty.
Qed.

Lemma scan_literal_plain_int (max_digits : nat) (n rest : string) :
  max_digits = O \/ (640 <= max_digits)%nat ->
  plain_int n = true -> delimited rest = true ->
  Decoder.scan_literal max_digits (n ++ rest) =
    Decoder.Scanned (JNumber n) rest.
Proof.
  intros Hmd Hn Hrest.
  pose proof (scan_number_plain_int n rest Hn Hrest) as Hnum.
  destruct n as [|c r]; [discriminate|].
  assert (Hc : Decoder.is_digit c = true).
  { unfold plain_int in Hn. apply andb_true_iff in Hn as [H _].
    apply orb_true_iff in H as [H|H].
    - apply String.eqb_eq in H. injection H as -> ->. reflexivity.
    - apply andb_true_iff in H as [H _]. now apply andb_true_iff in H as [H _]. }
  assert (Hlen : (String.length (String c r) <= 640)%nat).
  { unfold plain_int in Hn. apply andb_true_iff in Hn as [_ H].
    now apply Nat.leb_le in H. }
  destruct (digit_facts c Hc) as [Hn' [Ht [Hf [_ [_ [_ [Hm _]]]]]]].
  unfold Decoder.scan_literal.
  cbn [append Decoder.strip_prefix]. rewrite Hn', Ht, Hf.
  change (String c (r ++ rest)) with (String c r ++ rest).
  rewrite Hnum.
  assert (Hlim : (Decoder.is_int_lexeme (String c r)
                  && negb (max_digits =? 0)%nat
                  && (max_digits <? Decoder.int_digits (String c r))%nat)
                 = false).
  { destruct Hmd as [-> | Hmd]; [now rewrite andb_false_r|].
    unfold Decoder.int_digits. rewrite Hm.
    replace (max_digits <? String.length (String c r))%nat with false;
      [now rewrite andb_false_r|].
    symmetry. apply Nat.ltb_ge. lia. }
  now rewrite Hlim.
Qed.

(** *** Objects *)

Lemma dict_set_fresh (k : string) (v : json) (d : dict) :
  existsb (String.eqb k) (map fst d) = false ->
  dict_set k v d = (d ++ [(k, v)])%list.
Proof.
  induction d as [|[k' v'] d IH]; [reflexivity|].
  cbn [map fst existsb dict_set app]. intros H.
  apply orb_false_iff in H as [Hk Hd].
  rewrite Hk, (IH Hd). reflexivity.
Qed.

Lemma distinct_middle (a : list string) (k : string) (r : list string) :
  distinct (a ++ k :: r)%list = true -> existsb (String.eqb k) a = false.
Proof.
  induction a as [|x a IH]; [reflexivity|].
  cbn [app distinct existsb]. intros H.
  apply andb_true_iff in H as [Hx Ha].
  apply negb_true_iff in Hx. rewrite existsb_app in Hx.
  apply orb_false_iff in Hx as [_ Hx]. cbn [existsb] in Hx.
  apply orb_false_iff in Hx as [Hx _].
  rewrite String.eqb_sym, Hx. exact (IH Ha).
Qed.

Lemma fold_dict_set_distinct (pairs acc : list (string * json)) :
  distinct (map fst (acc ++ pairs)%list) = true ->
  fold_left (fun d kv => dict_set (fst kv) (snd kv) d) pairs acc =
    (acc ++ pairs)%list.
Proof.
  revert acc. induction pairs as [|[k v] r IH]; intros acc H.
  - now rewrite app_nil_r.
  - cbn [fold_left fst snd].
    rewrite dict_set_fresh.
    + rewrite IH; rewrite <- app_assoc; [reflexivity | exact H].
    + rewrite map_app in H. exact (distinct_middle _ _ _ H).
Qed.

Lemma dict_of_pairs_distinct (fields : list (string * json)) :
  distinct (map fst fields) = true -> dict_of_pairs fields = fields.
Proof. intros H. exact (fold_dict_set_distinct fields [] H). Qed.

(** *** Values *)

(** A written value starts with a character that is neither white space
    nor a closing bracket or brace. *)
Lemma write_head (l : Layout) (d : nat) (v : json) (rest : string) :
  writable v = true ->
  exists c r,
    write l d v ++ rest = String c r
    /\ Decoder.is_ws c = false
    /\ is_char c "]" = false /\ is_char c "}" = false.
Proof.
  destruct v as [|b|n|s|items|fields]; cbn [writable write]; intros H.
  - eexists _, _. repeat split.
  - destruct b; eexists _, _; repeat split.
  - destruct n as [|c r]; [discriminate|].
    assert (Hc : Decoder.is_digit c = true).
    { unfold plain_int in H. apply andb_true_iff in H as [H _].
      apply orb_true_iff in H as [H|H].
      - apply String.eqb_eq in H. injection H as -> ->. reflexivity.
      - apply andb_true_iff in H as [H _].
        now apply andb_true_iff in H as [H _]. }
    destruct (digit_facts c Hc) as [_ [_ [_ [_ [_ [_ [_ [Hb [Hc' Hw]]]]]]]]].
    exists c, (r ++ rest). repeat split; assumption.
  - eexists _, _. repeat split.
  - destruct items; eexists _, _; repeat split.
  - destruct fields as [|[k x] r]; eexists _, _; repeat split.
Qed.

Lemma skip_ws_value (l : Layout) (d : nat) (v : json) (g rest : string) :
  writable v = true -> blank g = true ->
  Decoder.skip_ws (g ++ write l d v ++ rest) = write l d v ++ rest.
Proof.
  intros Hv Hg.
  destruct (write_head l d v rest Hv) as [c [r [E [Hw _]]]].
  rewrite E. now apply skip_ws_token.
Qed.

Lemma length_write (l : Layout) (d : nat) (v : json) :
  writable v = true -> (1 <= String.length (write l d v))%nat.
Proof.
  intros Hv.
  destruct (write_head l d v EmptyString Hv) as [c [r [E _]]].
  rewrite append_empty in E. rewrite E. simpl. lia.
Qed.

Lemma length_json_string (s : string) :
  (2 <= String.length (json_string s))%nat.
Proof. unfold json_string. simpl. rewrite length_append. simpl. lia. Qed.

Section RoundTrip.

Variable l : Layout.
Hypothesis Hl : layout_ok l.
Variable max_digits : nat.
Hypothesis Hmd : max_digits = O \/ (640 <= max_digits)%nat.

(** What closes or continues a container is a delimiter. *)
Lemma delimited_items (w : json -> string) (d : nat) (r : list json)
    (rest : string) :
  delimited (write_items l w d r ++ rest) = true.
Proof.
  destruct (Hl d) as [_ [Hbc [Hbo _]]].
  destruct r as [|y r]; cbn [write_items]; rewrite !append_assoc;
    apply delimited_blank; trivial.
Qed.

Lemma delimited_members (w : json -> string) (d : nat)
    (r : list (string * json)) (rest : string) :
  delimited (write_members l w d r ++ rest) = true.
Proof.
  destruct (Hl d) as [_ [Hbc [Hbo _]]].
  destruct r as [|[k y] r]; cbn [write_members]; rewrite !append_assoc;
    apply delimited_blank; trivial.
Qed.

Lemma length_write_items (w : json -> string) (d : nat) (r : list json) :
  (1 <= String.length (write_items l w d r))%nat.
Proof.
  destruct r as [|y r]; cbn [write_items]; rewrite !length_append;
    simpl; lia.
Qed.

Lemma length_write_members (w : json -> string) (d : nat)
    (r : list (string * json)) :
  (1 <= String.length (write_members l w d r))%nat.
Proof.
  destruct r as [|[k y] r]; cbn [write_members]; rewrite !length_append;
    simpl; lia.
Qed.

(** The scanner reads back what was written, given fuel for the length
    of the text and nesting for the height of the value. *)
Lemma scan_write (fuel : nat) :
  (forall d depth v rest,
     writable v = true -> (height v <= depth)%nat ->
     (String.length (write l d v) <= fuel)%nat ->
     delimited rest = true ->
     Decoder.scan_once max_digits fuel depth (write l d v ++ rest) =
       Decoder.Scanned v rest)
  /\ (forall d depth x r rest,
        forallb writable (x :: r) = true ->
        (fold_right (fun x h => Nat.max (height x) h) O (x :: r) <= depth)%nat ->
        (String.length (write l (S d) x
                          ++ write_items l (write l (S d)) d r) <= fuel)%nat ->
        Decoder.scan_items max_digits fuel depth
          (write l (S d) x ++ write_items l (write l (S d)) d r ++ rest) =
          Decoder.Scanned (x :: r) rest)
  /\ (forall d depth k x r rest,
        forallb (fun kv => writable (snd kv)) ((k, x) :: r) = true ->
        (fold_right (fun kv h => Nat.max (height (snd kv)) h) O ((k, x) :: r)
         <= depth)%nat ->
        (String.length (write_member l (write l (S d)) d k x
                          ++ write_members l (write l (S d)) d r) <= fuel)%nat ->
        Decoder.scan_members max_digits fuel depth
          (write_member l (write l (S d)) d k x
             ++ write_members l (write l (S d)) d r ++ rest) =
          Decoder.Scanned ((k, x) :: r) rest).
Proof.
  induction fuel as [|f [IHo [IHi IHm]]].
  { split; [|split].
    - intros d depth v rest Hv _ Hlen _.
      pose proof (length_write l d v Hv). lia.
    - intros d depth x r rest Hv _ Hlen.
      cbn [forallb] in Hv. apply andb_true_iff in Hv as [Hx _].
      rewrite length_append in Hlen.
      pose proof (length_write l (S d) x Hx). lia.
    - intros d depth k x r rest _ _ Hlen.
      unfold write_member in Hlen. rewrite !length_append in Hlen.
      pose proof (length_json_string k). lia. }
  split; [|split].
  - (* one value *)
    intros d depth v rest Hv Hh Hlen Hrest.
    destruct v as [|b|n|s|items|fields].
    + reflexivity.
    + destruct b; reflexivity.
    + cbn [writable] in Hv. cbn [write].
      pose proof (scan_literal_plain_int max_digits n rest Hmd Hv Hrest) as Hn.
      destruct n as [|c r]; [discriminate|].
      assert (Hc : Decoder.is_digit c = true).
      { unfold plain_int in Hv. apply andb_true_iff in Hv as [H _].
        apply orb_true_iff in H as [H|H].
        - apply String.eqb_eq in H. injection H as -> ->. reflexivity.
        - apply andb_true_iff in H as [H _].
          now apply andb_true_iff in H as [H _]. }
      destruct (digit_facts c Hc) as [_ [_ [_ [Hq [Ho [Ha _]]]]]].
      cbn [append Decoder.scan_once]. rewrite Hq, Ho, Ha. exact Hn.
    + apply scan_once_json_string.
    + destruct items as [|x r].
      * cbn [height fold_right] in Hh.
        destruct depth as [|depth]; [lia | reflexivity].
      * cbn [height] in Hh.
        destruct depth as [|depth]; [lia|].
        cbn [writable] in Hv.
        pose proof Hv as Hx. cbn [forallb] in Hx.
        apply andb_true_iff in Hx as [Hx _].
        destruct (Hl d) as [Hao _].
        cbn [write]. rewrite !append_assoc.
        cbn [append Decoder.scan_once].
        change (is_char "[" dq_char) with false.
        change (is_char "[" "{") with false.
        change (is_char "[" "[") with true. cbn iota.
        rewrite (skip_ws_value l (S d) x _ _ Hx Hao).
        rewrite (IHi d depth x r rest Hv).
        -- destruct (write_head l (S d) x
                       (write_items l (write l (S d)) d r ++ rest) Hx)
             as [c [t [E [_ [Hb _]]]]].
           rewrite E, Hb. reflexivity.
        -- lia.
        -- cbn [write] in Hlen. rewrite !length_append in Hlen.
           rewrite length_append. simpl in Hlen. lia.
    + destruct fields as [|[k x] r].
      * cbn [height fold_right] in Hh.
        destruct depth as [|depth]; [lia | reflexivity].
      * cbn [height] in Hh.
        destruct depth as [|depth]; [lia|].
        cbn [writable] in Hv. apply andb_true_iff in Hv as [Hkeys Hv].
        destruct (Hl d) as [Hao _].
        cbn [write]. rewrite !append_assoc.
        cbn [append Decoder.scan_once].
        change (is_char "{" dq_char) with false.
        change (is_char "{" "{") with true. cbn iota.
        rewrite (skip_ws_blank _ _ Hao).
        assert (Hskip : forall t,
                   Decoder.skip_ws
                     (write_member l (write l (S d)) d k x ++ t) =
                   write_member l (write l (S d)) d k x ++ t)
          by (intros t; reflexivity).
        rewrite Hskip.
        rewrite (IHm d depth k x r rest Hv).
        -- rewrite (dict_of_pairs_distinct _ Hkeys). reflexivity.
        -- apply le_S_n. exact Hh.
        -- cbn [write] in Hlen. rewrite !length_append in Hlen.
           rewrite length_append.
           change (String.length "{") with 1%nat in Hlen. lia.
  - (* the items of an array *)
    intros d depth x r rest Hv Hh Hlen.
    cbn [forallb] in Hv. apply andb_true_iff in Hv as [Hx Hr].
    cbn [fold_right] in Hh.
    rewrite length_append in Hlen.
    pose proof (length_write_items (write l (S d)) d r) as Hitems.
    cbn [Decoder.scan_items].
    rewrite (IHo (S d) depth x _ Hx); [|lia|lia|apply delimited_items].
    destruct (Hl d) as [_ [Hbc [Hbo [Hac _]]]].
    destruct r as [|y r'].
    + cbn [write_items]. rewrite append_assoc. cbn [append].
      rewrite (skip_ws_token _ "]" _ Hbc eq_refl). reflexivity.
    + cbn [write_items]. rewrite !append_assoc. cbn [append].
      rewrite (skip_ws_token _ "," _ Hbo eq_refl).
      change (is_char "," "]") with false.
      change (is_char "," ",") with true. cbn iota.
      cbn [forallb] in Hr. pose proof Hr as Hy.
      apply andb_true_iff in Hy as [Hy _].
      rewrite (skip_ws_value l (S d) y _ _ Hy Hac).
      rewrite (IHi d depth y r' rest Hr); [reflexivity| |].
      * cbn [fold_right] in Hh |- *. lia.
      * cbn [write_items] in Hlen. rewrite !length_append in Hlen.
        rewrite length_append. simpl in Hlen. lia.
  - (* the members of an object *)
    intros d depth k x r rest Hv Hh Hlen.
    cbn [forallb snd] in Hv. apply andb_true_iff in Hv as [Hx Hr].
    cbn [fold_right snd] in Hh.
    unfold write_member in Hlen. rewrite !length_append in Hlen.
    pose proof (length_write_members (write l (S d)) d r) as Hmembers.
    pose proof (length_json_string k) as Hkey.
    destruct (Hl d) as [_ [Hbc [Hbo [Hac [Hbl Hal]]]]].
    unfold write_member at 1. rewrite !append_assoc.
    unfold json_string at 1.
    cbn [append Decoder.scan_members].
    change (is_char dq_char dq_char) with true. cbn iota.
    rewrite scanstring_json_string.
    rewrite (skip_ws_token _ ":" _ Hbl eq_refl).
    change (is_char ":" ":") with true. cbn iota.
    rewrite (skip_ws_value l (S d) x _ _ Hx Hal).
    rewrite (IHo (S d) depth x _ Hx); [|lia|simpl in Hlen; lia
                                       |apply delimited_members].
    destruct r as [|[k' y] r'].
    + cbn [write_members]. rewrite append_assoc. cbn [append].
      rewrite (skip_ws_token _ "}" _ Hbc eq_refl). reflexivity.
    + cbn [write_members]. rewrite !append_assoc. cbn [append].
      rewrite (skip_ws_token _ "," _ Hbo eq_refl).
      change (is_char "," "}") with false.
      change (is_char "," ",") with true. cbn iota.
      rewrite (skip_ws_blank _ _ Hac).
      assert (Hskip : forall t,
                 Decoder.skip_ws (write_member l (write l (S d)) d k' y ++ t) =
                 write_member l (write l (S d)) d k' y ++ t)
        by (intros t; reflexivity).
      rewrite Hskip.
      rewrite (IHm d depth k' y r' rest Hr); [reflexivity| |].
      * cbn [fold_right snd] in Hh |- *. lia.
      * cbn [write_members] in Hlen. rewrite !length_append in Hlen.
        rewrite !length_append. simpl in Hlen. simpl. lia.
Qed.

End RoundTrip.

(** *** From the wire to the result *)

(** [json.loads] takes back a written value, whatever the layout and the
    white space around it. *)
Lemma json_loads_write (l : Layout) (lead trail : string) (v : json) :
  layout_ok l -> blank lead = true -> blank trail = true ->
  decodable v ->
  json_loads (lead ++ write l 0 v ++ trail) = Returns v.
Proof.
  intros Hl Hlead Htrail [Hv Hh].
  unfold json_loads, Decoder.loads.
  rewrite (skip_ws_value l 0 v lead trail Hv Hlead).
  rewrite (proj1 (scan_write l Hl (int_max_str_digits limits)
                    (digits_ok limits) _) 0%nat _ v trail Hv Hh).
  - now rewrite (skip_ws_all trail Htrail).
  - rewrite !length_append. lia.
  - rewrite <- (append_empty trail).
    now apply delimited_blank.
Qed.

Lemma all_str_texts (l : list string) : Py.all_str (map JString l) = Some l.
Proof.
  induction l as [|x l IH]; [reflexivity|].
  cbn [map Py.all_str]. now rewrite IH.
Qed.

Lemma writable_texts (l : list string) :
  forallb writable (map JString l) = true.
Proof. induction l as [|x l IH]; [reflexivity | exact IH]. Qed.

Lemma height_texts (l : list string) :
  fold_right (fun x h => Nat.max (height x) h) O (map JString l) = O.
Proof. induction l as [|x l IH]; [reflexivity | exact IH]. Qed.

(** The reply the prompt asks for is decodable under any limits. *)
Lemma decodable_reply_of (technical security implementation : list string) :
  decodable (reply_of technical security implementation).
Proof.
  split.
  - cbn [reply_of writable map fst snd forallb].
    rewrite !writable_texts. reflexivity.
  - cbn [reply_of height fold_right snd]. rewrite !height_texts.
    pose proof (nesting_ok limits). cbn [Nat.max]. lia.
Qed.




(** *** The session state *)

Lemma dict_get_set (k k' : string) (v : json) (d : dict) :
  dict_get k' (dict_set k v d) =
  if String.eqb k' k then Some v else dict_get k' d.
Proof.
  induction d as [|[k0 v0] d IH]; cbn [dict_set dict_get].
  - reflexivity.
  - destruct (String.eqb k k0) eqn:E0; cbn [dict_get].
    + apply String.eqb_eq in E0. subst k0.
      destruct (String.eqb k' k); reflexivity.
    + rewrite IH. destruct (String.eqb k' k0) eqn:E1; [|reflexivity].
      apply String.eqb_eq in E1. subst k0.
      destruct (String.eqb k' k) eqn:E2; [|reflexivity].
      apply String.eqb_eq in E2. subst k'.
      rewrite String.eqb_refl in E0. discriminate.
Qed.

Lemma dict_get_setdefault (k k' : string) (v : json) (d : dict) :
  dict_get k' (setdefault k v d) =
  match dict_get k' d with
  | Some x => Some x
  | None => if String.eqb k' k then Some v else None
  end.
Proof.
  unfold setdefault. destruct (dict_get k d) as [x|] eqn:Ek.
  - destruct (dict_get k' d) as [y|] eqn:Ek'; [reflexivity|].
    destruct (String.eqb k' k) eqn:E; [|reflexivity].
    apply String.eqb_eq in E. congruence.
  - rewrite dict_get_set.
    destruct (String.eqb k' k) eqn:E.
    + apply String.eqb_eq in E. subst k'. now rewrite Ek.
    + destruct (dict_get k' d); reflexivity.
Qed.

Lemma setdefault_present (k : string) (v x : json) (d : dict) :
  dict_get k d = Some x -> setdefault k v d = d.
Proof. unfold setdefault. now intros ->. Qed.

Lemma dict_get_initialize (k : string) (state : dict) :
  dict_get k (initialize_session_state state) =
  match dict_get k state with
  | Some v => Some v
  | None => dict_get k session_defaults
  end.
Proof.
  unfold initialize_session_state. rewrite !dict_get_setdefault.
  destruct (dict_get k state); [reflexivity|].
  cbn [session_defaults dict_get].
  repeat (destruct (String.eqb k _); [reflexivity|]).
  reflexivity.
Qed.

(** X16.  [initialize_session_state] never overwrites: a key the session
    holds keeps its value, so a rerun does not reset the chat history or
    a flag.  A missing key among the six gets its default, any other key
    stays missing, and initializing twice is initializing once. *)
Theorem initialize_session_state_keeps (state : dict) :
  (forall k v,
     dict_get k state = Some v ->
     dict_get k (initialize_session_state state) = Some v)
  /\ (forall k,
        dict_get k state = None ->
        dict_get k (initialize_session_state state) =
          dict_get k session_defaults)
  /\ initialize_session_state (initialize_session_state state) =
       initialize_session_state state.
Proof.
  split; [|split].
  - intros k v H. now rewrite dict_get_initialize, H.
  - intros k H. now rewrite dict_get_initialize, H.
  - set (s := initialize_session_state state).
    assert (P : forall k v, dict_get k session_defaults = Some v ->
                            exists x, dict_get k s = Some x).
    { intros k v Hk. unfold s. rewrite dict_get_initialize.
      destruct (dict_get k state); [eexists; reflexivity|].
      rewrite Hk. eexists; reflexivity. }
    unfold initialize_session_state at 1.
    destruct (P "messages" _ eq_refl) as [x1 H1].
    rewrite (setdefault_present _ _ _ _ H1).
    destruct (P "chat_history" _ eq_refl) as [x2 H2].
    rewrite (setdefault_present _ _ _ _ H2).
    destruct (P "use_two_call" _ eq_refl) as [x3 H3].
    rewrite (setdefault_present _ _ _ _ H3).
    destruct (P "use_three_call" _ eq_refl) as [x4 H4].
    rewrite (setdefault_present _ _ _ _ H4).
    destruct (P "verification_details" _ eq_refl) as [x5 H5].
    rewrite (setdefault_present _ _ _ _ H5).
    destruct (P "show_flow_visualization" _ eq_refl) as [x6 H6].
    rewrite (setdefault_present _ _ _ _ H6).
    reflexivity.
Qed.

(** *** Characters *)

Lemma take_continuation_spec (s t r : string) :
  take_continuation s = (t, r) ->
  s = t ++ r /\ all_continuation t = true /\ fresh r = true
  /\ (String.length r <= String.length s)%nat.
Proof.
  revert t r. induction s as [|c s IH]; intros t r; cbn [take_continuation].
  - intros [= <- <-]. repeat split; constructor.
  - destruct (is_continuation c) eqn:Ec.
    + destruct (take_continuation s) as [t' r'] eqn:E.
      intros [= <- <-]. destruct (IH t' r' eq_refl) as [-> [Ha [Hf Hl]]].
      cbn [all_continuation]. rewrite Ec, Ha.
      repeat split; [assumption | simpl; lia].
    + intros [= <- <-]. cbn [fresh]. rewrite Ec. repeat split. lia.
Qed.

Lemma take_continuation_append (t x : string) :
  all_continuation t = true -> fresh x = true ->
  take_continuation (t ++ x) = (t, x).
Proof.
  induction t as [|c t IH]; cbn [all_continuation]; intros Ha Hx.
  - destruct x as [|d x]; [reflexivity|].
    cbn [fresh] in Hx. simpl. now destruct (is_continuation d).
  - apply andb_prop in Ha. destruct Ha as [Hc Ha].
    change (String c t ++ x) with (String c (t ++ x)).
    cbn [take_continuation]. now rewrite Hc, (IH Ha Hx).
Qed.

Lemma utf8_chars_fuel_enough (f f' : nat) (s : string) :
  (String.length s <= f)%nat -> (String.length s <= f')%nat ->
  utf8_chars_fuel f s = utf8_chars_fuel f' s.
Proof.
  revert f' s. induction f as [|f IH]; intros f' s Hf Hf'.
  - destruct s; [|simpl in Hf; lia]. now destruct f'.
  - destruct s as [|c r]; [now destruct f'|].
    destruct f' as [|f']; [simpl in Hf'; lia|].
    cbn [utf8_chars_fuel].
    destruct (take_continuation r) as [t rest] eqn:E.
    apply take_continuation_spec in E. destruct E as [_ [_ [_ Hl]]].
    f_equal. apply IH; simpl in *; lia.
Qed.

Lemma utf8_chars_cons (c : ascii) (r : string) :
  utf8_chars (String c r) =
  String c (fst (take_continuation r))
    :: utf8_chars (snd (take_continuation r)).
Proof.
  unfold utf8_chars. cbn [String.length utf8_chars_fuel].
  destruct (take_continuation r) as [t rest] eqn:E. cbn [fst snd].
  apply take_continuation_spec in E. destruct E as [_ [_ [_ Hl]]].
  f_equal. apply utf8_chars_fuel_enough; lia.
Qed.

Lemma concat_cons (a : string) (l : list string) :
  String.concat EmptyString (a :: l) = a ++ String.concat EmptyString l.
Proof.
  destruct l as [|b l]; cbn [String.concat].
  - clear. induction a as [|c a IH]; simpl; [reflexivity | now rewrite <- IH].
  - reflexivity.
Qed.

Lemma fresh_append (a x : string) :
  fresh a = true -> fresh x = true -> fresh (a ++ x) = true.
Proof. destruct a; simpl; trivial. Qed.

Lemma fresh_utf8_prefix (s x : string) (n : nat) :
  fresh s = true -> fresh x = true ->
  fresh (String.concat EmptyString (firstn n (utf8_chars s)) ++ x) = true.
Proof.
  intros Hs Hx. destruct s as [|c r]; [now destruct n|].
  rewrite utf8_chars_cons. destruct n as [|n]; [exact Hx|].
  cbn [firstn]. rewrite concat_cons. exact Hs.
Qed.

(** Cutting a text after [n] characters and appending a text that starts
    a character gives those [n] characters and the characters of the
    appended text. *)
Lemma utf8_chars_prefix (fuel : nat) (s x : string) (n : nat) :
  (String.length s <= fuel)%nat ->
  fresh x = true ->
  utf8_chars (String.concat EmptyString (firstn n (utf8_chars s)) ++ x) =
    (firstn n (utf8_chars s) ++ utf8_chars x)%list.
Proof.
  revert s n. induction fuel as [|f IH]; intros s n Hf Hx.
  - destruct s; [|simpl in Hf; lia]. now destruct n.
  - destruct s as [|c r]; [now destruct n|].
    destruct n as [|n]; [reflexivity|].
    rewrite (utf8_chars_cons c r).
    destruct (take_continuation r) as [t rest] eqn:E. cbn [fst snd].
    apply take_continuation_spec in E.
    destruct E as [_ [Ha [Hfresh Hl]]].
    cbn [firstn]. rewrite concat_cons.
    change (String c t ++ String.concat EmptyString (firstn n (utf8_chars rest)))
      with (String c (t ++ String.concat EmptyString
                                 (firstn n (utf8_chars rest)))).
    change (String c (t ++ String.concat EmptyString
                               (firstn n (utf8_chars rest))) ++ x)
      with (String c ((t ++ String.concat EmptyString
                                (firstn n (utf8_chars rest))) ++ x)).
    rewrite append_assoc, utf8_chars_cons.
    rewrite (take_continuation_append t _ Ha
               (fresh_utf8_prefix rest x n Hfresh Hx)).
    cbn [fst snd app]. f_equal.
    apply IH; [simpl in Hf; lia | exact Hx].
Qed.

(** *** The recent topics *)

Lemma topic_of_text (prompt : string) :
  exists topic,
    topic_of (JString prompt) = Returns (JString topic)
    /\ (char_length topic <= 53)%nat
    /\ ((char_length prompt <= 50)%nat -> topic = prompt).
Proof.
  unfold topic_of, Py.len, Py.slice_to, py_add_text, obind.
  fold (char_length prompt).
  destruct (Nat.ltb_spec 50 (char_length prompt)) as [Hlong|Hshort].
  - eexists. split; [reflexivity|]. split; [|lia].
    unfold char_length.
    rewrite (utf8_chars_prefix (String.length prompt) prompt "..." 50
               (le_n _) eq_refl).
    rewrite length_app.
    pose proof (firstn_le_length 50 (utf8_chars prompt)).
    change (List.length (utf8_chars "...")) with 3%nat. lia.
  - exists prompt. split; [reflexivity|]. split; [lia | reflexivity].
Qed.

Lemma topics_of_texts (history : list (string * json)) :
  Forall (fun msg => exists text, snd msg = JString text) history ->
  exists topics,
    topics_of history = Returns (map JString topics)
    /\ List.length topics = List.length (user_messages history)
    /\ Forall (fun topic => (char_length topic <= 53)%nat) topics
    /\ Forall (fun topic =>
                 exists prompt,
                   In ("user", JString prompt) history
                   /\ ((char_length prompt <= 50)%nat -> topic = prompt))
              topics.
Proof.
  induction 1 as [|[r c] rest [text Htext] Hrest IH].
  - exists []. repeat split; constructor.
  - destruct IH as [topics [Ht [Hl [Hb Hp]]]].
    assert (Hp' : Forall (fun topic =>
                            exists prompt,
                              In ("user", JString prompt) ((r, c) :: rest)
                              /\ ((char_length prompt <= 50)%nat ->
                                  topic = prompt)) topics).
    { eapply Forall_impl; [|exact Hp].
      intros topic [prompt [Hin Hshort]]. exists prompt.
      split; [now right | exact Hshort]. }
    cbn [snd] in Htext. subst c.
    cbn [topics_of user_messages filter fst].
    destruct (String.eqb r "user") eqn:Er.
    + apply String.eqb_eq in Er. subst r.
      destruct (topic_of_text text) as [topic [Htopic [Hlen Hshort]]].
      exists (topic :: topics). rewrite Htopic. cbn [obind].
      rewrite Ht. cbn [obind map List.length].
      fold (user_messages rest).
      repeat split; [now rewrite Hl | now constructor |].
      constructor; [|exact Hp'].
      exists text. split; [now left | exact Hshort].
    + exists topics. fold (user_messages rest). now repeat split.
Qed.

Lemma alternating_texts (history : list (string * json)) :
  alternating history ->
  Forall (fun msg => exists text, snd msg = JString text) history.
Proof.
  revert history.
  refine (fix go (h : list (string * json)) := _).
  destruct h as [|[r1 c1] [|[r2 c2] rest]]; cbn [alternating].
  - constructor.
  - contradiction.
  - intros [_ [_ [H1 [H2 Hrest]]]].
    constructor; [exact H1|]. constructor; [exact H2|]. now apply go.
Qed.

Lemma alternating_last_users (history : list (string * json)) :
  alternating history ->
  (List.length (user_messages (last_messages 5 history)) <= 2)%nat.
Proof.
  revert history.
  refine (fix go (h : list (string * json)) := _).
  destruct h as [|[r1 c1] [|[r2 c2] rest]]; cbn [alternating].
  - intros _. simpl. lia.
  - contradiction.
  - intros [-> [-> [_ [_ Hrest]]]].
    pose proof (go rest Hrest) as IH.
    destruct rest as [|[r3 c3] [|[r4 c4] rest2]]; cbn [alternating] in Hrest.
    + simpl. lia.
    + contradiction.
    + destruct Hrest as [-> [-> [_ [_ Hrest2]]]].
      destruct rest2 as [|[r5 c5] [|[r6 c6] rest3]];
        cbn [alternating] in Hrest2.
      * simpl. lia.
      * contradiction.
      * destruct Hrest2 as [-> [-> [_ [_ Hrest3]]]].
        destruct rest3 as [|[r7 c7] [|[r8 c8] rest4]];
          cbn [alternating] in Hrest3.
        -- simpl. lia.
        -- contradiction.
        -- unfold last_messages in *. cbn [List.length] in *.
           replace (S (S (S (S (S (S (List.length rest4)))))) - 5)%nat
             with (S (List.length rest4)) in IH by lia.
           replace (S (S (S (S (S (S (S (S (List.length rest4))))))))
                    - 5)%nat
             with (S (S (S (List.length rest4)))) by lia.
           cbn [skipn] in *. exact IH.
Qed.

(** X17.  With a history of alternating user and assistant texts, as
    [main] keeps it, the recent topics never fail to compute; there are
    at most two of them although the last five messages are looked at;
    each is a text of at most 53 characters, and a prompt of at most 50
    characters is shown as it is. *)
Theorem recent_topics_bounds (history : list (string * json)) :
  alternating history ->
  exists topics,
    recent_topics history = Returns (map JString topics)
    /\ (List.length topics <= 2)%nat
    /\ Forall (fun topic => (char_length topic <= 53)%nat) topics
    /\ Forall (fun topic =>
                 exists prompt,
                   In ("user", JString prompt) history
                   /\ ((char_length prompt <= 50)%nat -> topic = prompt))
              topics.
Proof.
  intros Halt. unfold recent_topics.
  assert (Htexts : Forall (fun msg => exists text, snd msg = JString text)
                     (last_messages 5 history)).
  { apply Forall_forall. intros msg Hin.
    pose proof (alternating_texts history Halt) as Hall.
    rewrite Forall_forall in Hall. apply Hall.
    unfold last_messages in Hin.
    rewrite <- (firstn_skipn (List.length history - 5) history).
    apply in_or_app. now right. }
  destruct (topics_of_texts _ Htexts) as [topics [Ht [Hl [Hb Hp]]]].
  exists topics. split; [exact Ht|]. split.
  - rewrite Hl. now apply alternating_last_users.
  - split; [exact Hb|].
    eapply Forall_impl; [|exact Hp].
    intros topic [prompt [Hin Hshort]]. exists prompt.
    split; [|exact Hshort].
    unfold last_messages in Hin.
    rewrite <- (firstn_skipn (List.length history - 5) history).
    apply in_or_app. now right.
Qed.

End Copilot.

(** ** Concrete runs *)

Lemma get_response_success_witness :
  exists technical security : string,
    fst (get_response demo_limits demo_repr demo_cfg happy_endpoint
           quiet_streamlit demo_prompt false true []) =
      Returns (JString (demo_improved ++ nl ++ nl
                          ++ all_assumptions technical security
                          ++ nl ++ nl ++ "---" ++ nl ++ completion_banner))
    /\ (technical, security) =
         ("a" ++ nl ++ nl ++ "Implementation Assumptions:" ++ nl ++ "c", "b").
Proof.
  assert (H1 : generate_step demo_limits demo_cfg happy_endpoint demo_prompt [] =
               Returns (JString demo_primary)) by (vm_compute; reflexivity).
  assert (H2 : improve_step demo_limits demo_repr demo_cfg happy_endpoint
                 demo_prompt (JString demo_primary) [] =
               Returns (JString demo_improved))
    by (vm_compute; reflexivity).
  assert (H3 : analyze_step demo_limits demo_repr demo_cfg happy_endpoint
                 demo_prompt (JString demo_primary) (JString demo_improved) [] =
               Returns (JString example_reply)) by (vm_compute; reflexivity).
  assert (H4 : render_step demo_limits demo_repr demo_cfg happy_endpoint
                 quiet_streamlit demo_prompt (JString demo_primary)
                 (JString demo_improved) [] = Returns tt)
    by (vm_compute; reflexivity).
  destruct (get_response_success demo_limits demo_repr demo_cfg happy_endpoint
              quiet_streamlit demo_prompt false [] _ _ _ H1 H2 H3)
    as [technical [security [Hf [_ [Hr _]]]]].
  exists technical, security. split; [exact (Hr H4)|].
  rewrite Hf. vm_compute. reflexivity.
Defined.

(** C1 as stated fails: the three transport calls succeed, the improved
    output holds a lone surrogate, the text area refuses it, and
    [get_response] returns the apology. *)
Lemma get_response_rendering_counterexample :
  demo_prompt <> ""
  /\ generate_step demo_limits demo_cfg surrogate_endpoint demo_prompt [] =
       Returns (JString demo_primary)
  /\ (exists improved,
        improve_step demo_limits demo_repr demo_cfg surrogate_endpoint
          demo_prompt (JString demo_primary) [] = Returns (JString improved)
        /\ has_surrogate improved = true
        /\ analyze_step demo_limits demo_repr demo_cfg surrogate_endpoint
             demo_prompt (JString demo_primary) (JString improved) [] =
             Returns (JString example_reply)
        /\ render_step demo_limits demo_repr demo_cfg surrogate_endpoint
             strict_streamlit demo_prompt (JString demo_primary)
             (JString improved) [] = Raises UnicodeEncodeError)
  /\ fst (get_response demo_limits demo_repr demo_cfg surrogate_endpoint
            strict_streamlit demo_prompt false true []) =
       Returns (JString apology).
Proof.
  split; [discriminate|].
  split; [vm_compute; reflexivity|].
  split; [|vm_compute; reflexivity].
  eexists. split; [vm_compute; reflexivity|].
  repeat split; vm_compute; reflexivity.
Defined.

Lemma get_response_step12_failure_witness :
  fst (get_response demo_limits demo_repr demo_cfg failing_endpoint
         quiet_streamlit demo_prompt false true []) =
    Returns (JString apology).
Proof.
  apply (get_response_step12_failure demo_limits demo_repr demo_cfg
           failing_endpoint quiet_streamlit).
  left. eexists. vm_compute. reflexivity.
Defined.

Lemma get_response_step3_failure_witness :
  fst (get_response demo_limits demo_repr demo_cfg timeout_endpoint
         quiet_streamlit demo_prompt false true []) =
    Returns (JString (final_response demo_repr (JString demo_improved)
                        technical_error_marker security_error_marker))
  /\ fst (get_response demo_limits demo_repr demo_cfg nested_endpoint
            quiet_streamlit demo_prompt false true []) =
       Returns (JString (final_response demo_repr (JString demo_improved)
                           technical_error_marker security_error_marker)).
Proof.
  split.
  - assert (H1 : generate_step demo_limits demo_cfg timeout_endpoint
                   demo_prompt [] = Returns (JString demo_primary))
      by (vm_compute; reflexivity).
    assert (H2 : improve_step demo_limits demo_repr demo_cfg timeout_endpoint
                   demo_prompt (JString demo_primary) [] =
                 Returns (JString demo_improved))
      by (vm_compute; reflexivity).
    assert (H3 : render_step demo_limits demo_repr demo_cfg timeout_endpoint
                   quiet_streamlit demo_prompt (JString demo_primary)
                   (JString demo_improved) [] = Returns tt)
      by (vm_compute; reflexivity).
    destruct (get_response_step3_failure demo_limits demo_repr demo_cfg
                timeout_endpoint quiet_streamlit demo_prompt false [] _ _
                H1 H2 H3)
      as [_ [H _]].
    apply (H (Exception "API call failed: Read timed out. (read timeout=30)")).
    vm_compute. reflexivity.
  - assert (H1 : generate_step demo_limits demo_cfg nested_endpoint
                   demo_prompt [] = Returns (JString demo_primary))
      by (vm_compute; reflexivity).
    assert (H2 : improve_step demo_limits demo_repr demo_cfg nested_endpoint
                   demo_prompt (JString demo_primary) [] =
                 Returns (JString demo_improved))
      by (vm_compute; reflexivity).
    assert (H3 : render_step demo_limits demo_repr demo_cfg nested_endpoint
                   quiet_streamlit demo_prompt (JString demo_primary)
                   (JString demo_improved) [] = Returns tt)
      by (vm_compute; reflexivity).
    destruct (get_response_step3_failure demo_limits demo_repr demo_cfg
                nested_endpoint quiet_streamlit demo_prompt false [] _ _
                H1 H2 H3)
      as [_ [_ [_ [H _]]]].
    apply (H (copies 3000 "[") RecursionError).
    + vm_compute. reflexivity.
    + vm_compute. reflexivity.
    + discriminate.
Defined.

(** C3 as stated fails: steps 1 and 2 succeed, the step-3 reply does not
    decode, and the returned text holds the parser's marker in both
    subsections and an "Error extracting" marker nowhere. *)
Lemma get_response_step3_decode_counterexample :
  generate_step demo_limits demo_cfg chatty_endpoint demo_prompt [] =
    Returns (JString demo_primary)
  /\ improve_step demo_limits demo_repr demo_cfg chatty_endpoint demo_prompt
       (JString demo_primary) [] = Returns (JString demo_improved)
  /\ analyze_step demo_limits demo_repr demo_cfg chatty_endpoint demo_prompt
       (JString demo_primary) (JString demo_improved) [] =
       Returns (JString "not json")
  /\ json_loads demo_limits "not json" = Raises JSONDecodeError
  /\ exists text,
       fst (get_response demo_limits demo_repr demo_cfg chatty_endpoint
              quiet_streamlit demo_prompt false true []) =
         Returns (JString text)
       /\ text = final_response demo_repr (JString demo_improved)
                   parse_failure_marker parse_failure_marker
       /\ ~ Substring technical_error_marker text
       /\ ~ Substring security_error_marker text
       /\ ~ Substring "rror extracting" text.
Proof.
  repeat (split; [vm_compute; reflexivity|]).
  eexists. split; [vm_compute; reflexivity|].
  split; [vm_compute; reflexivity|].
  repeat split; intros H; apply contains_complete in H;
    vm_compute in H; discriminate H.
Defined.



Lemma parse_assumptions_response_object_witness :
  parse_assumptions_response demo_limits (JString partial_reply) =
    Returns ("x" ++ nl ++ "y", EmptyString).
Proof.
  destruct (parse_assumptions_response_object demo_limits) as [H _].
  assert (Hs : json_loads demo_limits partial_reply =
               Returns (JObject [("technical_assumptions",
                                  JArray [JString "x"; JString "y"])]))
    by (vm_compute; reflexivity).
  destruct (H partial_reply _ ["x"; "y"] [] [] Hs eq_refl eq_refl eq_refl)
    as [_ Hmissing].
  exact (Hmissing (or_introl eq_refl)).
Defined.

Lemma make_api_call_outcomes_witness :
  fst (make_api_call demo_limits demo_cfg (scripted [])
         get_solidity_expert_prompt demo_prompt 30 []) =
    Raises (Exception "API call failed: Connection refused")
  /\ fst (make_api_call demo_limits demo_cfg failing_endpoint
            get_solidity_expert_prompt demo_prompt 30 []) =
       Raises (Exception "API Error: 500 - Internal Server Error")
  /\ (exists e,
        fst (make_api_call demo_limits demo_cfg hollow_endpoint
               get_solidity_expert_prompt demo_prompt 30 []) = Raises e
        /\ is_subscript_error e = true
        /\ forall msg, e <> Exception msg)
  /\ fst (make_api_call demo_limits demo_cfg happy_endpoint
            get_solidity_expert_prompt demo_prompt 30 []) =
       Returns (JString demo_primary).
Proof.
  split; [|split; [|split]].
  - apply (proj1 (make_api_call_outcomes demo_limits demo_cfg (scripted [])
                    get_solidity_expert_prompt demo_prompt 30 [])).
    reflexivity.
  - apply (proj1 (proj2 (make_api_call_outcomes demo_limits demo_cfg
                           failing_endpoint
                           get_solidity_expert_prompt demo_prompt 30 []))
             500%Z "Internal Server Error").
    + reflexivity.
    + discriminate.
  - apply (proj1 (proj2 (proj2 (make_api_call_outcomes demo_limits demo_cfg
                                  hollow_endpoint
                                  get_solidity_expert_prompt demo_prompt 30 [])))
             "{}" (JObject [])).
    + reflexivity.
    + vm_compute. reflexivity.
    + reflexivity.
  - apply (proj2 (proj2 (proj2 (make_api_call_outcomes demo_limits demo_cfg
                                  happy_endpoint
                                  get_solidity_expert_prompt demo_prompt 30 [])))
             (completion demo_primary)
             (JObject [("choices",
                        JArray [JObject [("message",
                                          JObject [("role", JString "assistant");
                                                   ("content", JString demo_primary)])]])])).
    + reflexivity.
    + vm_compute. reflexivity.
    + reflexivity.
Defined.

Lemma transport_requests_witness :
  exists requests,
    snd (get_response demo_limits demo_repr demo_cfg happy_endpoint
           quiet_streamlit demo_prompt false true []) =
      requests
    /\ Forall (well_formed demo_cfg) requests
    /\ map timeout requests = [30; 45; 30]%Z.
Proof.
  destruct (proj2 (transport_requests demo_limits demo_repr demo_cfg
                     happy_endpoint quiet_streamlit)
              demo_prompt false true [])
    as [requests [Hlog [Hwf [_ Ht]]]].
  exists requests. split; [exact Hlog|]. split; [exact Hwf|].
  apply (Ht eq_refl (JString demo_primary) (JString demo_improved));
    vm_compute; reflexivity.
Defined.

Lemma mode_selection_witness :
  exists response,
    main demo_limits demo_repr demo_cfg happy_endpoint quiet_streamlit
      fresh_session VaultButton [] =
      (Returns {| chat := [("user", JString demo_prompt);
                           ("assistant", response)];
                  use_two_call := false;
                  use_three_call := true;
                  show_flow_visualization := true |},
       snd (get_response demo_limits demo_repr demo_cfg happy_endpoint
              quiet_streamlit demo_prompt false true [])).
Proof.
  destruct (proj1 (proj2 (proj2 (mode_selection demo_limits demo_repr demo_cfg
                                   happy_endpoint quiet_streamlit
                                   demo_prompt [])))
              fresh_session VaultButton demo_prompt eq_refl)
    as [_ [_ [response [_ Hmain]]]].
  exists response. exact Hmain.
Defined.

Lemma requests_carry_user_prompt_witness :
  exists requests,
    snd (get_response demo_limits demo_repr demo_cfg happy_endpoint
           quiet_streamlit "hi" false true []) =
      requests
    /\ Forall carries_user_prompt requests.
Proof.
  destruct (requests_carry_user_prompt demo_limits demo_repr demo_cfg
              happy_endpoint quiet_streamlit "hi" false true [])
    as [first [rest [Hlog [_ [_ [Hall _]]]]]].
  exists (first :: rest). split; [exact Hlog|].
  apply Hall. discriminate.
Defined.

(** C9 as stated fails: [get_response] accepts the empty input, and the
    step-1 request of that run carries an empty user prompt. *)
Lemma requests_empty_prompt_counterexample :
  exists first rest,
    snd (get_response demo_limits demo_repr demo_cfg happy_endpoint
           quiet_streamlit "" false true []) = first :: rest
    /\ user_prompt_of first = Some ""
    /\ ~ carries_user_prompt first
    /\ exists text,
         fst (get_response demo_limits demo_repr demo_cfg happy_endpoint
                quiet_streamlit "" false true []) = Returns (JString text)
         /\ text <> apology.
Proof.
  eexists _, _. split; [vm_compute; reflexivity|].
  split; [reflexivity|].
  split.
  - intros [p [Hp Hne]]. cbn in Hp. injection Hp as <-. now apply Hne.
  - eexists. split; [vm_compute; reflexivity | discriminate].
Defined.

Lemma get_response_never_raises_witness :
  exists s,
    fst (get_response demo_limits demo_repr demo_cfg failing_endpoint
           quiet_streamlit demo_prompt false true []) =
      Returns (JString s).
Proof.
  destruct (get_response_never_raises demo_limits demo_repr demo_cfg
              failing_endpoint quiet_streamlit demo_prompt false true [])
    as [v [Hv [Hs _]]].
  destruct (Hs eq_refl) as [s ->].
  exists s. exact Hv.
Defined.

(** ** Concrete runs of the further properties *)

Lemma make_api_call_200_failures_witness :
  fst (make_api_call demo_limits demo_cfg (scripted [Response 200 "<html>"])
         get_solidity_expert_prompt demo_prompt 30 []) =
    Raises JSONDecodeError
  /\ fst (make_api_call demo_limits demo_cfg null_endpoint
            get_solidity_expert_prompt demo_prompt 30 []) =
       Raises TypeError.
Proof.
  split.
  - apply (proj1 (make_api_call_200_failures demo_limits demo_cfg
                    (scripted [Response 200 "<html>"])
                    get_solidity_expert_prompt demo_prompt 30 [] "<html>"
                    eq_refl)).
    vm_compute. reflexivity.
  - eapply (proj2 (proj2 (make_api_call_200_failures demo_limits demo_cfg
                            null_endpoint
                            get_solidity_expert_prompt demo_prompt 30 [] _
                            eq_refl)))
      with (v := JNull).
    + vm_compute. reflexivity.
    + vm_compute. reflexivity.
    + reflexivity.
Defined.

Lemma three_call_prompts_chain_witness :
  exists r1 r2 r3 p2 p3,
    snd (get_response demo_limits demo_repr demo_cfg happy_endpoint
           quiet_streamlit demo_prompt
           false true []) = [r1; r2; r3]
    /\ map user_prompt_of [r1; r2; r3] = [Some demo_prompt; Some p2; Some p3]
    /\ Substring demo_primary p2 /\ Substring demo_improved p3.
Proof.
  assert (H1 : generate_step demo_limits demo_cfg happy_endpoint demo_prompt [] =
               Returns (JString demo_primary)) by (vm_compute; reflexivity).
  assert (H2 : improve_step demo_limits demo_repr demo_cfg happy_endpoint demo_prompt
                 (JString demo_primary) [] = Returns (JString demo_improved))
    by (vm_compute; reflexivity).
  destruct (three_call_prompts_chain demo_limits demo_repr demo_cfg happy_endpoint
              quiet_streamlit
              demo_prompt false [] _ _ H1 H2)
    as [r1 [r2 [r3 [p2 [p3 [Hl [_ [Hu [_ [Hp [_ Hi]]]]]]]]]]].
  exists r1, r2, r3, p2, p3. repeat split; assumption.
Defined.

Lemma SolidityCopilot_init_requests_witness :
  exists key requests,
    demo_env "FIREWORKS_API_KEY" = Some key /\ key <> EmptyString
    /\ snd (get_response demo_limits demo_repr demo_cfg happy_endpoint
           quiet_streamlit demo_prompt
              false true []) = requests
    /\ Forall (fun r => authorization_of r = Some ("Bearer " ++ key)) requests.
Proof.
  destruct (proj2 (SolidityCopilot_init_requests demo_limits demo_repr demo_cfg
                     happy_endpoint quiet_streamlit demo_env)
              eq_refl demo_prompt false true [])
    as [key [requests [Hk [Hne [Hl Hall]]]]].
  exists key, requests. repeat split; try assumption.
  eapply Forall_impl; [|exact Hall]. intros r [Ha _]. exact Ha.
Defined.

Lemma demo_events_no_clear : ~ In ClearChat demo_events.
Proof. intros [H|[H|[H|[]]]]; discriminate. Defined.

Lemma session_history_grows_witness :
  exists ss',
    fst (run_session demo_limits demo_repr demo_cfg happy_endpoint
           quiet_streamlit demo_events
           fresh_session []) = Returns ss'
    /\ List.length (chat ss') = 4%nat
    /\ alternating (chat ss').
Proof.
  destruct (session_history_grows demo_limits demo_repr demo_cfg happy_endpoint
              quiet_streamlit
              demo_events fresh_session [] demo_events_no_clear)
    as [ss' [new [Hr [Hc [Hl [_ Ha]]]]]].
  exists ss'. split; [exact Hr|]. split.
  - rewrite Hc. exact Hl.
  - apply Ha. exact I.
Defined.

Lemma session_history_cleared_witness :
  exists ss',
    fst (run_session demo_limits demo_repr demo_cfg happy_endpoint
           quiet_streamlit
           (ClearChat :: demo_events)
           {| chat := [("user", JString "old"); ("assistant", JString "old")];
              use_two_call := false;
              use_three_call := true;
              show_flow_visualization := true |} []) = Returns ss'
    /\ List.length (chat ss') = 4%nat.
Proof.
  destruct (session_history_cleared demo_limits demo_repr demo_cfg happy_endpoint
              quiet_streamlit
              demo_events
              {| chat := [("user", JString "old"); ("assistant", JString "old")];
                 use_two_call := false;
                 use_three_call := true;
                 show_flow_visualization := true |} [] demo_events_no_clear)
    as [ss' [Hr [Hl _]]].
  exists ss'. split; [exact Hr | exact Hl].
Defined.

Lemma assumptions_expander_cases_witness :
  assumptions_expander " " EmptyString =
    [Markdown "### 📋 **All Assumptions Made in Final Code**"].
Proof.
  apply (proj2 (proj2 assumptions_expander_cases)).
  - discriminate.
  - intros line [<-|[]]. vm_compute. reflexivity.
  - now left.
Defined.

Lemma implementation_label_row_witness :
  exists technical_field security_field,
    parse_assumptions_response demo_limits (JString example_reply) =
      Returns (technical_field, security_field)
    /\ In (3%nat, "Implementation Assumptions:")
          (table_rows (assumption_list technical_field)).
Proof.
  assert (Hs : json_loads demo_limits example_reply =
               Returns (JObject
                       [("technical_assumptions", JArray [JString "a"]);
                        ("security_assumptions", JArray [JString "b"]);
                        ("implementation_assumptions", JArray [JString "c"])]))
    by (vm_compute; reflexivity).
  exact (implementation_label_row demo_limits example_reply _ ["a"] ["b"] ["c"]
           Hs eq_refl eq_refl eq_refl ltac:(discriminate)).
Defined.

Lemma recent_topics_bounds_witness :
  exists topics,
    recent_topics
      [("user", JString demo_prompt); ("assistant", JString demo_improved)] =
      Returns (map JString topics)
    /\ (List.length topics <= 2)%nat.
Proof.
  destruct (recent_topics_bounds
              [("user", JString demo_prompt);
               ("assistant", JString demo_improved)])
    as [topics [Hr [Hl _]]].
  - cbn [alternating]. repeat split; eexists; reflexivity.
  - exists topics. split; assumption.
Defined.

(** *** Bodies as a server writes them *)

Lemma layout_ok_compact : layout_ok compact.
Proof. intros d. repeat split. Qed.

Lemma blank_spaces (n : nat) : blank (copies n " ") = true.
Proof. induction n as [|n IH]; [reflexivity | exact IH]. Qed.

Lemma layout_ok_indented : layout_ok indented.
Proof.
  intros d. cbn [indented after_open before_close before_comma after_comma
                   before_colon after_colon].
  repeat split; try reflexivity; apply (blank_spaces _).
Qed.

Lemma decodable_chat_completion (text : string) :
  decodable demo_limits (chat_completion text).
Proof. split; [reflexivity | cbn; lia]. Qed.



